(** * bls_data: the normalisation engine of [bls_data/bls.py]

    A shallow embedding of the [BlsData] class: the series merger
    ([_construct_df]), the period normaliser ([_organize_df]), the location
    resolver ([_get_location]) and the presentation formatter ([clean_df],
    [create_graph], [create_table]).

    Python strings are modelled by [string] (sequences of 8-bit characters,
    compared character by character as Python compares code points); the
    character classes [\d] and [[A-Z]] are the ASCII ones.  Exceptions are
    modelled by the [result] type, whose [Raise] carries the Python exception
    that the interpreter or pandas raises.

    The pandas calls are modelled as pandas 2.2 documents them: an outer
    [merge] takes the union of the keys in lexicographic order and pairs all
    matching rows; colliding column labels get the suffixes [_x] and [_y],
    and a duplicate created by a suffix is a [MergeError]; timestamps have
    nanosecond resolution (1677-10 to 2262-04 for the first day of a month);
    [sort_index] is modelled by a stable sort, the order of rows with equal
    keys being left open by pandas.  What the source does not fix (the
    parser of [pd.to_numeric], the order of the numbers, [int] on a string,
    [pd.to_datetime] on strings that are not well-formed quarters, the
    strings that plotly takes for a colour) is a parameter of the
    development. *)

From Stdlib Require Import ZArith Lia Ascii String.
From stdpp Require Import base option list strings pretty gmap sorting.

Open Scope string_scope.
Open Scope list_scope.

(** ** Exceptions *)

Inductive exn : Type :=
  | ValueError            (* pd.to_numeric: unable to parse string;
                             strptime: time data does not match format;
                             merge: column label is not unique; int();
                             an index of two dimensions; a colour or an
                             alignment that plotly refuses *)
  | MergeError            (* pandas.errors.MergeError, a ValueError *)
  | DateParseError        (* pandas DateParseError, a ValueError *)
  | OutOfBoundsDatetime   (* pandas OutOfBoundsDatetime, a ValueError *)
  | KeyError              (* .loc on an absent label, rename(errors="raise") *)
  | AttributeError        (* attribute of None; to_list of a frame *)
  | TypeError
  | IndexError.

Global Instance exn_eq_dec : EqDecision exn.
Proof. solve_decision. Defined.

(** [except ValueError] catches the class and its subclasses. *)
Definition is_ValueError (e : exn) : bool :=
  match e with
  | ValueError | MergeError | DateParseError | OutOfBoundsDatetime => true
  | _ => false
  end.

Inductive result (A : Type) : Type :=
  | Ok (a : A)
  | Raise (e : exn).
Global Arguments Ok {A} a.
Global Arguments Raise {A} e.

Global Instance result_ret : MRet result := @Ok.
Global Instance result_bind : MBind result := λ A B f m,
  match m with
  | Ok a => f a
  | Raise e => Raise e
  end.

Definition raises {A} (m : result A) : Prop := ∃ e, m = Raise e.

(** ** Characters and slices *)

Definition is_digit (c : ascii) : bool :=
  let n := nat_of_ascii c in (48 <=? n)%nat && (n <=? 57)%nat.

Definition is_upper (c : ascii) : bool :=
  let n := nat_of_ascii c in (65 <=? n)%nat && (n <=? 90)%nat.

(** [s[0:2]] *)
Definition slice_0_2 (s : string) : string := String.substring 0 2 s.

(** ** Location resolver *)

(** A regular expression that is a fixed sequence of character classes,
    matched at the current position: the matched text and the remainder. *)
Fixpoint take_classes (cls : list (ascii → bool)) (s : string)
  : option (string * string) :=
  match cls with
  | [] => Some ("", s)
  | p :: cls' =>
      match s with
      | String c s' =>
          if p c
          then '(m, r) ← take_classes cls' s'; Some (String c m, r)
          else None
      | EmptyString => None
      end
  end.

(** [[A-Z]*]: the letters it consumes.  The class that follows it in the
    pattern is [\d], disjoint from [[A-Z]], so giving back letters never
    helps and the greedy match is the only candidate. *)
Fixpoint drop_upper (s : string) : string :=
  match s with
  | String c s' => if is_upper c then drop_upper s' else s
  | EmptyString => EmptyString
  end.

(** The classes [[\d|U]] and [[\d|S]]: inside brackets the bar is a literal. *)
Definition class_d_bar_U (c : ascii) : bool :=
  is_digit c || Ascii.eqb c "|" || Ascii.eqb c "U".
Definition class_d_bar_S (c : ascii) : bool :=
  is_digit c || Ascii.eqb c "|" || Ascii.eqb c "S".

(** [re.search(r'^[A-Z]{3}([\d|U][\d|S]\d\d\d)', series)], group 1. *)
Definition search_EN (series : string) : option string :=
  '(_, r) ← take_classes (replicate 3 is_upper) series;
  '(g, _) ← take_classes
              [class_d_bar_U; class_d_bar_S; is_digit; is_digit; is_digit] r;
  Some g.

(** [re.search(r'^[A-Z]{3}([A-Z]{2}\d{13})', series)], group 1. *)
Definition search_LA (series : string) : option string :=
  '(_, r) ← take_classes (replicate 3 is_upper) series;
  '(g, _) ← take_classes (replicate 2 is_upper ++ replicate 13 is_digit) r;
  Some g.

(** [re.search(r'^[A-Z]*(\d\d\d\d\d\d\d)', series)], group 1. *)
Definition search_OE (series : string) : option string :=
  '(g, _) ← take_classes (replicate 7 is_digit) (drop_upper series);
  Some g.

(** [m.group(1)] on the value of [re.search]: [None] has no [group]. *)
Definition group1 (m : option string) : result string :=
  match m with
  | Some g => Ok g
  | None => Raise AttributeError
  end.

(** [table.loc[area_code][name_field]] on a table indexed by area code. *)
Definition loc_name (table : gmap string string) (area_code : string)
  : result string :=
  match table !! area_code with
  | Some name => Ok name
  | None => Raise KeyError
  end.

Section Resolver.
(** The three reference tables of [bls_data/__init__.py], read from the
    package's csv files and indexed by their area code column. *)
Variables qcew_area_codes_df la_area_codes_df oes_area_codes_df
  : gmap string string.

(** Body of the [for series in self.series_ids] loop: three independent
    [if] statements, none of them an [elif]. *)
Definition locate_one (series_id_locations : gmap string string)
    (series : string) : result (gmap string string) :=
  locs ← (if String.prefix "EN" (slice_0_2 series)
          then area_code ← group1 (search_EN series);
               name ← loc_name qcew_area_codes_df area_code;
               Ok (<[series := name]> series_id_locations)
          else Ok series_id_locations);
  locs ← (if String.eqb (slice_0_2 series) "LA"
          then area_code ← group1 (search_LA series);
               name ← loc_name la_area_codes_df area_code;
               Ok (<[series := name]> locs)
          else Ok locs);
  (if String.prefix "OE" (slice_0_2 series)
   then area_code ← group1 (search_OE series);
        name ← loc_name oes_area_codes_df area_code;
        Ok (<[series := name]> locs)
   else Ok locs).

Fixpoint locate_all (series_id_locations : gmap string string)
    (series_ids : list string) : result (gmap string string) :=
  match series_ids with
  | [] => Ok series_id_locations
  | series :: rest =>
      locs ← locate_one series_id_locations series;
      locate_all locs rest
  end.

Definition _get_location (series_ids : list string)
  : result (gmap string string) :=
  locate_all ∅ series_ids.

(** The program family of an identifier and the reference table that owns
    its geography code. *)
Inductive family := EN | LA | OE.

Definition family_of (series : string) : option family :=
  if String.prefix "EN" (slice_0_2 series) then Some EN
  else if String.eqb (slice_0_2 series) "LA" then Some LA
  else if String.prefix "OE" (slice_0_2 series) then Some OE
  else None.

Definition owning_table (f : family) : gmap string string :=
  match f with
  | EN => qcew_area_codes_df
  | LA => la_area_codes_df
  | OE => oes_area_codes_df
  end.

Definition geography_code (f : family) (series : string) : option string :=
  match f with
  | EN => search_EN series
  | LA => search_LA series
  | OE => search_OE series
  end.

(** The identifier belongs to a family, its geography code is extracted,
    and the code is absent from the owning table. *)
Definition unknown_geography (series : string) : Prop :=
  ∃ f code, family_of series = Some f
            ∧ geography_code f series = Some code
            ∧ owning_table f !! code = None.
End Resolver.

(** ** Presentation: short names *)

(** [re.split('--|,', loc)[0]]: the text before the leftmost position at
    which [--] or [,] occurs; the whole text when neither occurs. *)
Definition separator_at (s : string) : bool :=
  String.prefix "--" s || String.prefix "," s.

Fixpoint split_head (loc : string) : string :=
  match loc with
  | EmptyString => EmptyString
  | String c rest =>
      if separator_at loc then EmptyString else String c (split_head rest)
  end.

(** ** Data model *)

Section Program.

(** The numbers of a value column (NumPy's [int64] and [float64]) and the
    parser of [pd.to_numeric] on a string: [None] when the string cannot be
    parsed, [Some None] when it reads as NaN. *)
Context {num : Type}.
Variable parse_numeric : string → option (option num).

(** The order of the numbers, Python's [int] on a string, and what
    [pd.to_datetime] without a format makes of an element of a column that
    is not made of well-formed quarter strings alone (the year and the month
    of the timestamp): library behaviour that the program relies on and that
    its source does not fix. *)
Variable num_leb : num → num → bool.
Variable py_int : string → result Z.
Variable to_datetime_other : list string → string → result (Z * Z).

(** The [value] field of an observation as [json.load] delivers it. *)
Inductive jvalue : Type :=
  | JNull
  | JNum (n : num)
  | JStr (s : string).

(** One entry of [bls_series['data']]. *)
Record observation : Type := Observation {
  year : string;
  period : string;
  value : jvalue
}.

(** One entry of [self.raw_data]. *)
Record series : Type := Series {
  seriesID : string;
  data : list observation
}.

(** A cell of a value column; [None] is NaN, the absent value. *)
Definition cell : Type := option num.

Definition key : Type := string * string.

(** A row of the merged table: the join columns [year] and [period], then
    one cell per value column. *)
Record raw_row : Type := RawRow {
  r_year : string;
  r_period : string;
  r_cells : list cell
}.

(** The merged table [raw_df]: the labels of its value columns, after the
    columns [year] and [period], and its rows under a [RangeIndex]. *)
Record raw_frame : Type := RawFrame {
  value_columns : list string;
  raw_rows : list raw_row
}.

Definition row_key (r : raw_row) : key := (r_year r, r_period r).

(** ** Series merger *)

(** [pd.to_numeric] on one element of the column. *)
Definition to_numeric (v : jvalue) : result cell :=
  match v with
  | JNull => Ok None
  | JNum n => Ok (Some n)
  | JStr s =>
      match parse_numeric s with
      | Some c => Ok c
      | None => Raise ValueError
      end
  end.

(** [series_df[cols + ['value']]] with [value] passed through
    [pd.to_numeric]: the whole column is converted or the call raises. *)
Fixpoint series_frame (obs : list observation) : result (list (key * cell)) :=
  match obs with
  | [] => Ok []
  | o :: rest =>
      c ← to_numeric (value o);
      rows ← series_frame rest;
      Ok (((year o, period o), c) :: rows)
  end.

(** An observation whose value is a string that [pd.to_numeric] cannot
    parse, and one whose value converts. *)
Definition not_numeric (o : observation) : Prop :=
  ∃ v, value o = JStr v ∧ parse_numeric v = None.
Definition numeric (o : observation) : Prop :=
  ∃ c, to_numeric (value o) = Ok c.

(** The cell that a value becomes. *)
Definition cell_of (v : jvalue) : cell :=
  match to_numeric v with
  | Ok c => c
  | Raise _ => None
  end.

Definition obs_key (o : observation) : key := (year o, period o).
Definition obs_row (o : observation) : key * cell :=
  (obs_key o, cell_of (value o)).

(** The payloads that the loop does not skip. *)
Definition has_data (s : series) : bool :=
  match data s with
  | [] => false
  | _ :: _ => true
  end.
Definition active (raw_data : list series) : list series :=
  List.filter has_data raw_data.

(** The (year, period) pairs of a payload, and the cell of the payload at
    a pair: NaN when the payload has no observation there. *)
Definition keys_of (s : series) : list key := obs_key <$> data s.
Definition cell_at (s : series) (k : key) : cell :=
  from_option (λ o, cell_of (value o)) None
    (head (filter (λ o, obs_key o = k) (data s))).

(** Lexicographic order on the join keys. *)
Definition key_leb (a b : key) : bool :=
  match String.compare a.1 b.1 with
  | Lt => true
  | Eq => String.leb a.2 b.2
  | Gt => false
  end.
Definition key_le (a b : key) : Prop := key_leb a b = true.

Global Instance key_le_dec : RelDecision key_le.
Proof. intros a b. unfold key_le. apply _. Defined.

(** [Index.duplicated()]: marks every occurrence after the first. *)
Fixpoint duplicated (seen l : list string) : list bool :=
  match l with
  | [] => []
  | x :: l' => bool_decide (x ∈ seen) :: duplicated (x :: seen) l'
  end.

(** pandas' [_items_overlap_with_suffix] with the default suffixes: a label
    of the left frame that is also the label of the right column gets [_x],
    the right one [_y]; a duplicate that the suffix creates on the left is
    refused. *)
Definition overlap_suffix (left : list string) (sid : string)
  : result (list string * string) :=
  if bool_decide (sid ∈ left)
  then
    let llabels := (λ x, if decide (x = sid) then x +:+ "_x" else x) <$> left in
    if existsb (λ d, d.1 && negb d.2)
         (zip (duplicated [] llabels) (duplicated [] left))
    then Raise MergeError
    else Ok (llabels, sid +:+ "_y")
  else Ok (left, sid).

(** The rows of an outer join for one key: the product of the matching rows
    of both sides, a side without a match contributing NaN. *)
Definition join_group (width : nat) (k : key)
    (ls : list raw_row) (rs : list (key * cell)) : list raw_row :=
  match ls, rs with
  | [], _ => (λ r, RawRow k.1 k.2 (replicate width None ++ [r.2])) <$> rs
  | _, [] => (λ l, RawRow k.1 k.2 (r_cells l ++ [None])) <$> ls
  | _, _ => l ← ls; r ← rs; [RawRow k.1 k.2 (r_cells l ++ [r.2])]
  end.

(** The join keys of [how='outer']: the union of the keys of both frames,
    sorted lexicographically. *)
Definition outer_keys (left : list raw_row) (right : list (key * cell))
  : list key :=
  merge_sort key_le (remove_dups ((row_key <$> left) ++ (fst <$> right))).

(** The rows of the outer join, key by key. *)
Definition outer_rows (bls_df : raw_frame) (series_df : list (key * cell))
  : list raw_row :=
  k ← outer_keys (raw_rows bls_df) series_df;
  join_group (length (value_columns bls_df)) k
    (filter (λ l, row_key l = k) (raw_rows bls_df))
    (filter (λ r, r.1 = k) series_df).

(** [bls_df.merge(right=series_df, on=['year', 'period'], how='outer')],
    where the value column of [series_df] is labelled [sid].  A right frame
    whose value column is itself called [year] or [period] has a join label
    that is not unique, which [merge] refuses with a [ValueError]. *)
Definition merge_outer (bls_df : raw_frame) (sid : string)
    (series_df : list (key * cell)) : result raw_frame :=
  if bool_decide (sid ∈ ["year"; "period"]) then Raise ValueError
  else
    '(llabels, rlabel) ← overlap_suffix (value_columns bls_df) sid;
    Ok {| value_columns := llabels ++ [rlabel];
          raw_rows := outer_rows bls_df series_df |}.

(** The [for bls_series in self.raw_data] loop. *)
Fixpoint construct_loop (bls_df : raw_frame) (raw_data : list series)
  : result raw_frame :=
  match raw_data with
  | [] => Ok bls_df
  | bls_series :: rest =>
      match data bls_series with
      | [] => construct_loop bls_df rest
      | _ :: _ =>
          series_df ← series_frame (data bls_series);
          bls_df' ← merge_outer bls_df (seriesID bls_series) series_df;
          construct_loop bls_df' rest
      end
  end.

Definition _construct_df (raw_data : list series) : result raw_frame :=
  construct_loop {| value_columns := []; raw_rows := [] |} raw_data.

(** The merged table of the payloads [done], none of which repeats a
    (year, period) pair: the value columns are their identifiers, there is
    one row for each pair that occurs in one of them, and the cells of a row
    are the cells of the payloads at its pair. *)
Definition merged_from (done : list series) (t : raw_frame) : Prop :=
  value_columns t = seriesID <$> done
  ∧ NoDup (row_key <$> raw_rows t)
  ∧ (∀ k, k ∈ row_key <$> raw_rows t ↔ ∃ s, s ∈ done ∧ k ∈ keys_of s)
  ∧ (∀ r, r ∈ raw_rows t →
       r_cells r = (λ s, cell_at s (row_key r)) <$> done).

(** ** Period normaliser *)

(** A label of an index or of a column axis: a string, a number when a
    value column serves as the index, or a tuple, written as pairs nested to
    the right, when several columns with one label serve as the index. *)
Inductive label : Type :=
  | LStr (s : string)
  | LNum (c : cell)
  | LPair (a b : label).

(** A frame with a labelled index: the canonical table [self.df] and the
    frames derived from it. *)
Record frame : Type := Frame {
  columns : list label;
  rows : list (label * list cell)
}.

Definition index (f : frame) : list label := fst <$> rows f.

(** The state of the column labelled [date] in the working copy. *)
Inductive date_column : Type :=
  | NoDate                       (* no column has the label *)
  | DateDup (t : list (list label))
      (* two or more columns have it: row by row, their values in the
         order of the columns *)
  | DateCol (l : list label).    (* the column *)

Definition date_single (d : date_column) : Prop := ∀ t, d ≠ DateDup t.

(** The working copy [df] of [_organize_df]: the columns [year] and
    [period], the column labelled [date], and the other value columns. *)
Record work_frame : Type := WorkFrame {
  w_year : list string;
  w_period : list string;
  w_date : date_column;
  w_columns : list string;
  w_cells : list (list cell)
}.

Definition is_date (p : string * cell) : bool := String.eqb p.1 "date".

(** [self.raw_df.copy()].  A value column that a series identifier happens
    to label [date] is the column that [df['date'] = ...] overwrites and
    that [set_index('date')] takes away; it is set apart from the start. *)
Definition copy (raw_df : raw_frame) : work_frame :=
  let labels := value_columns raw_df in
  let named (r : raw_row) := zip labels (r_cells r) in
  {| w_year := r_year <$> raw_rows raw_df;
     w_period := r_period <$> raw_rows raw_df;
     w_date :=
       match List.filter (String.eqb "date") labels with
       | [] => NoDate
       | [_] => DateCol ((λ r, LNum (default None
                            (snd <$> head (List.filter is_date (named r)))))
                         <$> raw_rows raw_df)
       | _ => DateDup ((λ r, LNum <$> (snd <$> List.filter is_date (named r)))
                       <$> raw_rows raw_df)
       end;
     w_columns := List.filter (λ x, negb (String.eqb "date" x)) labels;
     w_cells := (λ r, snd <$> List.filter (λ p, negb (is_date p)) (named r))
                <$> raw_rows raw_df |}.

(** [df.loc[0]['period'][0]] *)
Definition first_period_char (df : work_frame) : result ascii :=
  match w_period df with
  | [] => Raise KeyError
  | EmptyString :: _ => Raise IndexError
  | String c _ :: _ => Ok c
  end.

(** [s.replace(c, '')] for a one-character [c]. *)
Fixpoint remove_char (c : ascii) (s : string) : string :=
  match s with
  | EmptyString => EmptyString
  | String a s' =>
      if Ascii.eqb a c then remove_char c s' else String a (remove_char c s')
  end.

Local Open Scope Z_scope.

Definition digit_val (c : ascii) : Z := Z.of_nat (nat_of_ascii c) - 48.
Definition digit_char (d : Z) : ascii :=
  ascii_of_nat (Z.to_nat (d mod 10) + 48)%nat.

(** The range of [pd.Timestamp] for the first day of a month:
    1677-10 to 2262-04. *)
Definition in_bounds (y m : Z) : bool :=
  ((1677 <? y) || ((y =? 1677) && (10 <=? m)))
  && ((y <? 2262) || ((y =? 2262) && (m <=? 4))).

(** The text before the first [-] and the text after it. *)
Fixpoint cut_dash (s : string) : option (string * string) :=
  match s with
  | EmptyString => None
  | String c s' =>
      if Ascii.eqb c "-" then Some (EmptyString, s')
      else '(a, b) ← cut_dash s'; Some (String c a, b)
  end.

(** [\d\d\d\d]: the year it denotes. *)
Definition year_token (s : string) : option Z :=
  match s with
  | String a (String b (String c (String d EmptyString))) =>
      if forallb is_digit [a; b; c; d]
      then Some (1000 * digit_val a + 100 * digit_val b
                 + 10 * digit_val c + digit_val d)
      else None
  | _ => None
  end.

(** [1[0-2]|0[1-9]|[1-9]]: the month it denotes. *)
Definition month_token (s : string) : option Z :=
  match s with
  | String a EmptyString =>
      if is_digit a && (1 <=? digit_val a) then Some (digit_val a) else None
  | String a (String b EmptyString) =>
      let m := 10 * digit_val a + digit_val b in
      if is_digit a && is_digit b && (1 <=? m) && (m <=? 12)
      then Some m else None
  | _ => None
  end.

(** A well-formed quarter string [YYYY-Qq], q from 1 to 4, which pandas reads
    as the first month of the quarter: its year and month. *)
Definition parse_quarter (s : string) : option (Z * Z) :=
  match cut_dash s with
  | Some (ys, String "Q" (String q EmptyString)) =>
      match year_token ys with
      | Some y =>
          let m := (digit_val q - 1) * 3 + 1 in
          if is_digit q && (1 <=? digit_val q) && (digit_val q <=? 4)
             && in_bounds y m
          then Some (y, m)
          else None
      | None => None
      end
  | _ => None
  end.

Fixpoint map_result {A B} (f : A → result B) (l : list A) : result (list B) :=
  match l with
  | [] => Ok []
  | x :: l' => y ← f x; ys ← map_result f l'; Ok (y :: ys)
  end.

(** [pd.to_datetime(column)] without a format. *)
Definition to_datetime (column : list string) : result (list (Z * Z)) :=
  if forallb (λ s, bool_decide (is_Some (parse_quarter s))) column
  then Ok (omap parse_quarter column)
  else map_result (to_datetime_other column) column.

(** [pd.to_datetime(s, format='%m-%Y')] on one element: the whole string
    has to match [(1[0-2]|0[1-9]|[1-9])-(\d\d\d\d)].  Neither token holds a
    [-], so the month is the text before the first [-] and the year the
    text after it. *)
Definition strptime_m_Y (s : string) : result (Z * Z) :=
  match cut_dash s with
  | Some (ms, ys) =>
      match month_token ms, year_token ys with
      | Some m, Some y =>
          if in_bounds y m then Ok (y, m) else Raise OutOfBoundsDatetime
      | _, _ => Raise ValueError
      end
  | None => Raise ValueError
  end.

(** Two decimal digits. *)
Definition two_digits (m : Z) : string :=
  String (digit_char (m / 10)) (String (digit_char m) EmptyString).

(** [x.strftime('%Y-%m')] *)
Definition strftime_Y_m (t : Z * Z) : string :=
  String (digit_char (t.1 / 1000)) (String (digit_char (t.1 / 100))
    (String (digit_char (t.1 / 10)) (String (digit_char t.1)
      (String "-" (two_digits t.2))))).

(** A year of four digits whose months all are in the range of
    [pd.Timestamp]. *)
Definition valid_year (y : string) : Prop :=
  ∃ n, year_token y = Some n ∧ 1678 <= n <= 2261.

Local Close Scope Z_scope.

(** [df['date'] = column]: a new column, or the new values of the column;
    when several columns have the label, each of them takes the values. *)
Definition set_date (column : list string) (df : work_frame) : work_frame :=
  {| w_year := w_year df; w_period := w_period df;
     w_date := match w_date df with
               | DateDup t =>
                   DateDup (zip_with (λ s row, (λ _, LStr s) <$> row) column t)
               | _ => DateCol (LStr <$> column)
               end;
     w_columns := w_columns df; w_cells := w_cells df |}.

Definition set_period (column : list string) (df : work_frame) : work_frame :=
  {| w_year := w_year df; w_period := column; w_date := w_date df;
     w_columns := w_columns df; w_cells := w_cells df |}.

(** The text of [df['date']] when it is a single column of strings;
    [pd.to_datetime] refuses a frame of two columns labelled [date]. *)
Definition date_strings (df : work_frame) : result (list string) :=
  match w_date df with
  | DateCol l => Ok (omap (λ x, match x with LStr s => Some s | _ => None end) l)
  | _ => Raise ValueError
  end.

(** The quarterly branch. *)
Definition quarterly (df : work_frame) : result work_frame :=
  let df := set_period (remove_char "0" <$> w_period df) df in
  let df := set_date (zip_with (λ y p, y +:+ "-" +:+ p) (w_year df) (w_period df)) df in
  dates ← date_strings df;
  stamps ← to_datetime dates;
  Ok (set_date (strftime_Y_m <$> stamps) df).

(** The monthly branch. *)
Definition monthly (df : work_frame) : result work_frame :=
  let df := set_period (remove_char "M" <$> w_period df) df in
  let df := set_date (zip_with (λ p y, p +:+ "-" +:+ y) (w_period df) (w_year df)) df in
  dates ← date_strings df;
  stamps ← map_result strptime_m_Y dates;
  Ok (set_date (strftime_Y_m <$> stamps) df).

(** [str(n)] for an integer. *)
Definition py_str (n : Z) : string := pretty n.

(** The semi-annual branch. *)
Definition semiannual (df : work_frame) : result work_frame :=
  let df := set_period (remove_char "S" <$> w_period df) df in
  halves ← map_result py_int (w_period df);
  let df := set_period ((λ h, py_str (h * 6)%Z) <$> halves) df in
  let df := set_date (zip_with (λ y p, y +:+ "-" +:+ p) (w_year df) (w_period df)) df in
  dates ← date_strings df;
  stamps ← to_datetime dates;
  Ok (set_date (strftime_Y_m <$> stamps) df).

(** The annual branch: [df.rename(columns={'year': 'date'})].  The column
    [year] is the first column of the frame: next to value columns already
    labelled [date] it becomes the first of the columns with that label. *)
Definition annual (df : work_frame) : work_frame :=
  {| w_year := w_year df; w_period := w_period df;
     w_date := match w_date df with
               | NoDate => DateCol (LStr <$> w_year df)
               | DateCol l => DateDup (zip_with (λ y x, [LStr y; x]) (w_year df) l)
               | DateDup t => DateDup (zip_with (λ y row, LStr y :: row) (w_year df) t)
               end;
     w_columns := w_columns df; w_cells := w_cells df |}.

(** The tuple of the values of one row. *)
Fixpoint tuple (row : list label) : label :=
  match row with
  | [] => LNum None
  | [x] => x
  | x :: row' => LPair x (tuple row')
  end.

Definition is_number (x : label) : bool :=
  match x with
  | LNum _ => true
  | _ => false
  end.

(** [df.set_index('date')]: a [KeyError] without the column.  When the
    label stands for several columns, [df['date']] is a frame and the index
    is built from its array: an array of numbers has two dimensions, which
    is a [ValueError]; an array of objects, as with the strings of the years,
    gives one tuple per row.  The columns with the label leave the frame. *)
Definition set_index_date (df : work_frame) : result frame :=
  match w_date df with
  | NoDate => Raise KeyError
  | DateDup t =>
      if forallb (forallb is_number) t then Raise ValueError
      else Ok {| columns := LStr <$> w_columns df;
                 rows := zip (tuple <$> t) (w_cells df) |}
  | DateCol l => Ok {| columns := LStr <$> w_columns df;
                       rows := zip l (w_cells df) |}
  end.

(** [a == b] and [a < b] of Python on the elements of an object index:
    strings and numbers compare with their like, a NaN equals nothing and
    is below nothing, and tuples compare at their first unequal place. *)
Fixpoint py_eq (a b : label) : bool :=
  match a, b with
  | LStr x, LStr y => String.eqb x y
  | LNum (Some x), LNum (Some y) => num_leb x y && num_leb y x
  | LPair a1 a2, LPair b1 b2 => py_eq a1 b1 && py_eq a2 b2
  | _, _ => false
  end.
Fixpoint py_lt (a b : label) : bool :=
  match a, b with
  | LStr x, LStr y => negb (String.leb y x)
  | LNum (Some x), LNum (Some y) => negb (num_leb y x)
  | LPair a1 a2, LPair b1 b2 =>
      if py_eq a1 b1 then py_lt a2 b2 else py_lt a1 b1
  | _, _ => false
  end.

(** The order of [sort_index] on labels; NaN goes last in both directions,
    and tuples are in the order of Python: none is below the one before
    it. *)
Definition label_leb (ascending : bool) (a b : label) : bool :=
  match a, b with
  | _, LNum None => true
  | LNum None, _ => false
  | LStr x, LStr y => if ascending then String.leb x y else String.leb y x
  | LNum (Some x), LNum (Some y) => if ascending then num_leb x y else num_leb y x
  | LPair _ _, LPair _ _ =>
      if ascending then negb (py_lt b a) else negb (py_lt a b)
  | LStr _, _ => true
  | _, LStr _ => false
  | LNum _, LPair _ _ => true
  | LPair _ _, LNum _ => false
  end.

Definition row_le (ascending : bool) (a b : label * list cell) : Prop :=
  label_leb ascending a.1 b.1 = true.

Global Instance row_le_dec ascending : RelDecision (row_le ascending).
Proof. intros a b. unfold row_le. apply _. Defined.

(** [df.sort_index(ascending=...)] *)
Definition sort_index (ascending : bool) (f : frame) : frame :=
  {| columns := columns f; rows := merge_sort (row_le ascending) (rows f) |}.

(** [_organize_df]: four independent [if] statements on the first character
    of the period of row 0, then the index, the sort and the drop of
    [period] and [year], which [set_index_date] has already left behind. *)
Definition _organize_df (raw_df : raw_frame) : result frame :=
  let df := copy raw_df in
  c ← first_period_char df;
  df ← (if Ascii.eqb c "Q" then quarterly df else Ok df);
  c ← first_period_char df;
  df ← (if Ascii.eqb c "M" then monthly df else Ok df);
  c ← first_period_char df;
  df ← (if Ascii.eqb c "S" then semiannual df else Ok df);
  c ← first_period_char df;
  df ← Ok (if Ascii.eqb c "A" then annual df else df);
  df ← set_index_date df;
  Ok (sort_index true df).

(** ** Monthly and quarterly tables *)

(** A row of a monthly table: period [M01] to [M12]. *)
Definition monthly_row (r : raw_row) : Prop :=
  valid_year (r_year r)
  ∧ ∃ m, (1 <= m <= 12)%Z ∧ r_period r = String "M" (two_digits m).

(** A row of a quarterly table: period [Q01] to [Q04]. *)
Definition quarterly_row (r : raw_row) : Prop :=
  valid_year (r_year r)
  ∧ ∃ q, (1 <= q <= 4)%Z ∧ r_period r = String "Q" (two_digits q).

(** The date key of a monthly row: the year and the two digits that follow
    the [M] marker. *)
Definition month_key (r : raw_row) : string :=
  r_year r +:+ "-" +:+ remove_char "M" (r_period r).

(** The quarter of a quarterly row, from the trailing digit of its period,
    and the date key with the first month of that quarter. *)
Definition quarter_of (r : raw_row) : Z :=
  match r_period r with
  | String _ (String _ (String q _)) => digit_val q
  | _ => 0%Z
  end.
Definition quarter_key (r : raw_row) : string :=
  r_year r +:+ "-" +:+ two_digits ((quarter_of r - 1) * 3 + 1)%Z.

(** The key that the claim about quarters describes: the trailing digit of
    the period as the month. *)
Definition quarter_digit_key (r : raw_row) : string :=
  r_year r +:+ "-" +:+ two_digits (quarter_of r).

(** The text of a label that is a string. *)
Definition label_string (l : label) : option string :=
  match l with
  | LStr s => Some s
  | _ => None
  end.

(** ** The object and its constructor *)

Variables qcew_area_codes_df la_area_codes_df oes_area_codes_df
  : gmap string string.

(** The attributes of a [BlsData] object that the engine sets; [df] is
    [None] when the merged table has no row. *)
Record BlsData : Type := {
  series_ids : list string;
  raw_data : list series;
  raw_df : raw_frame;
  df : option frame;
  locations : gmap string string
}.

(** [__init__].  [requested] is the outcome of [_request_bls_data], used when
    the [raw_data] argument is [None] or an empty list. *)
Definition __init__ (series_ids : list string)
    (raw_data : option (list series)) (requested : result (list series))
  : result BlsData :=
  raw ← match raw_data with
        | Some (s :: l) => Ok (s :: l)
        | _ => requested
        end;
  raw_df ← _construct_df raw;
  df ← match raw_rows raw_df with
       | [] => Ok None
       | _ :: _ => f ← _organize_df raw_df; Ok (Some f)
       end;
  locations ← _get_location qcew_area_codes_df la_area_codes_df
                 oes_area_codes_df series_ids;
  Ok {| series_ids := series_ids; raw_data := raw; raw_df := raw_df;
        df := df; locations := locations |}.

(** ** Presentation formatter *)

(** The objects the formatter works on: the frame that [self.df] refers
    to, the dictionary that [self.locations] refers to, and the frames that
    pandas allocates for the results of [rename], [transpose] and
    [sort_index], in the order of allocation. *)
Record state : Type := State {
  self_df : option frame;
  self_locations : gmap string string;
  derived : list frame
}.

Inductive ref : Type :=
  | SelfDf
  | Derived (n : nat).

Definition deref (st : state) (r : ref) : option frame :=
  match r with
  | SelfDf => self_df st
  | Derived n => derived st !! n
  end.

Definition state_of (o : BlsData) : state :=
  {| self_df := df o; self_locations := locations o; derived := [] |}.

(** A new frame object. *)
Definition alloc (f : frame) (st : state) : ref * state :=
  (Derived (length (derived st)),
   {| self_df := self_df st; self_locations := self_locations st;
      derived := derived st ++ [f] |}).

(** The [custom_column_names] argument: [None], a dictionary, or another
    object with its truth value. *)
Inductive py_arg : Type :=
  | PyNone
  | PyDict (d : gmap string string)
  | PyOther (truthy : bool).

Definition has_column (k : string) (f : frame) : bool :=
  existsb (λ c, match c with LStr s => String.eqb s k | _ => false end)
    (columns f).

Definition rename_label (cols : gmap string string) (c : label) : label :=
  match c with
  | LStr s => LStr (default s (cols !! s))
  | _ => c
  end.

(** [f.rename(columns=cols, errors="raise")]: a new frame, or [KeyError]
    when a key of [cols] is not a column. *)
Definition rename (cols : gmap string string) (f : frame) : result frame :=
  if decide (map_Forall (λ k _, has_column k f = true) cols)
  then Ok {| columns := rename_label cols <$> columns f; rows := rows f |}
  else Raise KeyError.

(** [f.transpose()] *)
Definition transpose (f : frame) : frame :=
  {| columns := index f;
     rows := imap (λ j c, (c, (λ r, default None (r.2 !! j)) <$> rows f))
               (columns f) |}.

(** The dictionary [cols] of [clean_df] and the state after it is built.
    With short names [cols] is a new dictionary; otherwise it is
    [self.locations] itself, which [cols.update] then changes. *)
Definition rename_mapping (custom_column_names : py_arg)
    (short_location_names : bool) (st : state)
  : result (gmap string string * state) :=
  let cols := if short_location_names
              then split_head <$> self_locations st
              else self_locations st in
  match custom_column_names with
  | PyNone | PyOther false => Ok (cols, st)
  | PyOther true => Raise TypeError
  | PyDict d =>
      if decide (d = ∅) then Ok (cols, st)
      else
        let cols := d ∪ cols in
        Ok (cols,
            if short_location_names then st
            else {| self_df := self_df st; self_locations := cols;
                    derived := derived st |})
  end.

(** [clean_df]: the reference it returns, or the exception, and the state
    it leaves. *)
Definition clean_df (custom_column_names : py_arg)
    (short_location_names : bool) (st : state) : result ref * state :=
  let table_df := SelfDf in
  match rename_mapping custom_column_names short_location_names st with
  | Raise e => (Raise e, st)
  | Ok (cols, st) =>
      match deref st table_df with
      | None => (Raise AttributeError, st)
      | Some f =>
          match rename cols f with
          | Raise e => (Raise e, st)
          | Ok f' => let '(r, st) := alloc f' st in (Ok r, st)
          end
      end
  end.

(** [create_graph] up to the frame [plotting_df] that it hands to plotly. *)
Definition create_graph (graph_type : string) (custom_column_names : py_arg)
    (transpose_arg short_location_names : bool) (st : state)
  : result ref * state :=
  if bool_decide (graph_type ∈ ["line"; "bar"])
  then
    match clean_df custom_column_names short_location_names st with
    | (Raise e, st) => (Raise e, st)
    | (Ok plotting_df, st) =>
        if transpose_arg
        then match deref st plotting_df with
             | None => (Raise AttributeError, st)
             | Some f => let '(r, st) := alloc (transpose f) st in (Ok r, st)
             end
        else (Ok plotting_df, st)
    end
  else (Raise ValueError, st).

(** [create_table] up to the frame [table_df] whose index and columns it
    copies into the figure. *)
Definition create_table (custom_column_names : py_arg)
    (short_location_names descending : bool) (st : state)
  : result ref * state :=
  match clean_df custom_column_names short_location_names st with
  | (Raise e, st) => (Raise e, st)
  | (Ok table_df, st) =>
      if descending
      then match deref st table_df with
           | None => (Raise AttributeError, st)
           | Some f => let '(r, st) := alloc (sort_index false f) st in (Ok r, st)
           end
      else (Ok table_df, st)
  end.

(** A call of the formatter. *)
Inductive call : Type :=
  | CleanDf (custom_column_names : py_arg) (short_location_names : bool)
  | CreateGraph (graph_type : string) (custom_column_names : py_arg)
      (transpose_arg short_location_names : bool)
  | CreateTable (custom_column_names : py_arg)
      (short_location_names descending : bool).

Definition run_call (c : call) (st : state) : result ref * state :=
  match c with
  | CleanDf custom short => clean_df custom short st
  | CreateGraph g custom t short => create_graph g custom t short st
  | CreateTable custom short d => create_table custom short d st
  end.

(** A sequence of calls on the same object: the outcome of each call and
    the final state. *)
Fixpoint run_calls (cs : list call) (st : state)
  : list (result ref) * state :=
  match cs with
  | [] => ([], st)
  | c :: cs' =>
      let '(r, st) := run_call c st in
      let '(rs, st) := run_calls cs' st in
      (r :: rs, st)
  end.

End Program.

(** ** Saved payloads: [from_json] and [write_to_json] *)

(** [l[-1]] and [l[0]] *)
Definition last_item {A : Type} (l : list A) : result A :=
  match last l with
  | Some x => Ok x
  | None => Raise IndexError
  end.
Definition first_item {A : Type} (l : list A) : result A :=
  match l with
  | x :: _ => Ok x
  | [] => Raise IndexError
  end.

Section Saved.
Context {num : Type}.
Variable parse_numeric : string → option (option num).
Variable num_leb : num → num → bool.
Variable py_int : string → result Z.
Variable to_datetime_other : list string → string → result (Z * Z).
Variables qcew_area_codes_df la_area_codes_df oes_area_codes_df
  : gmap string string.

(** The arguments that [from_json] computes from the content of the file:
    the identifiers, the start year (last observation of the last series)
    and the end year (first observation of the first series). *)
Definition from_json_args (json_data : list (@series num))
  : result (list string * string * string) :=
  let series_ids := seriesID <$> json_data in
  last_series ← last_item json_data;
  last_obs ← last_item (data last_series);
  let start_year := year last_obs in
  first_series ← first_item json_data;
  first_obs ← first_item (data first_series);
  let end_year := year first_obs in
  Ok (series_ids, start_year, end_year).

(** [from_json] on the content of the file: the start year, the end year and
    the object that [cls(...)] builds with [raw_data=data]. *)
Definition from_json (json_data : list (@series num))
    (requested : result (list (@series num)))
  : result (string * string * @BlsData num) :=
  '(series_ids, start_year, end_year) ← from_json_args json_data;
  o ← __init__ parse_numeric num_leb py_int to_datetime_other
         qcew_area_codes_df la_area_codes_df oes_area_codes_df
         series_ids (Some json_data) requested;
  Ok (start_year, end_year, o).

End Saved.

(** [file_name.split('.')[0]]: the text before the first dot. *)
Fixpoint before_dot (s : string) : string :=
  match s with
  | EmptyString => EmptyString
  | String c s' => if Ascii.eqb c "." then EmptyString else String c (before_dot s')
  end.

(** The name of the file that [write_to_json] opens. *)
Definition json_file_name (file_name : string) : string :=
  before_dot file_name +:+ ".json".

(** A string without a dot. *)
Fixpoint no_dot (s : string) : bool :=
  match s with
  | EmptyString => true
  | String c s' => negb (Ascii.eqb c ".") && no_dot s'
  end.

(** ** The figure of [create_table] *)

Section Figure.
Context {num : Type} `{!EqDecision num}.
Variable num_leb : num → num → bool.

(** The strings that plotly takes for a colour: hex, rgb and the like, and
    the named colours; the validator is part of the library. *)
Variable valid_color : string → bool.

Global Instance label_eq_dec : EqDecision (@label num).
Proof. solve_decision. Defined.

(** An entry of [fill_color]: one colour, or a list of colours. *)
Inductive fill : Type :=
  | Solid (colour : string)
  | Stripes (colours : list string).

(** An element of the [values] of the cells: an index label or a cell. *)
Inductive table_value : Type :=
  | OfIndex (l : @label num)
  | OfColumn (c : @cell num).

(** What [create_table] hands to [go.Table]: the values and the fill colour
    of the header, the values of the cells by column and their fill colours,
    and the colour of the lines and the alignment of both. *)
Record table_figure : Type := TableFigure {
  header_values : list (@label num);
  header_fill : option string;
  cells_values : list (list table_value);
  cells_fill : list fill;
  line_color : option string;
  align_of : option string
}.

(** The validation of [go.Table]: [None] leaves a property unset, a colour
    has to be a colour or a list of colours, which the empty string is not,
    an alignment one of the three names; anything else is a [ValueError]. *)
Definition color_ok (c : option string) : bool :=
  match c with
  | None => true
  | Some EmptyString => false
  | Some s => valid_color s
  end.
Definition align_ok (a : option string) : bool :=
  match a with
  | None => true
  | Some s => bool_decide (s ∈ ["left"; "center"; "right"])
  end.
Definition fill_ok (x : fill) : bool :=
  match x with
  | Solid c => valid_color c
  | Stripes cs => forallb valid_color cs
  end.

(** [table_df.index.name]: the name that [set_index('date')] gives. *)
Definition index_name : string := "date".

(** [['white', 'lightgrey'] * n] *)
Definition stripes (n : nat) : list string :=
  mjoin (replicate n ["white"; "lightgrey"]).

(** One round of the loop that builds [fill_color]. *)
Definition fill_of (index_color : option string) (n_rows : nat)
    (col : @label num) : fill :=
  match index_color with
  | Some (String a c) =>
      if bool_decide (col = LStr index_name) then Solid (String a c)
      else Stripes (stripes n_rows)
  | _ => Stripes (stripes n_rows)
  end.

(** [table_df[col].to_list()]: the values of the column at position [j];
    when the label stands for several columns [table_df[col]] is a frame,
    which has no [to_list]. *)
Definition col_list (f : @frame num) (jc : nat * @label num)
  : result (list table_value) :=
  if bool_decide (length (filter (λ c, c = jc.2) (columns f)) = 1%nat)
  then Ok ((λ r, OfColumn (default None (r.2 !! jc.1))) <$> rows f)
  else Raise AttributeError.

(** The lines of [create_table] after [table_df] is ready: the fill
    colours, the values of the columns, and the table of plotly, which
    validates the colours (also [black] of the fonts) and the alignment. *)
Definition table_layout (index_color : option string) (index_label : string)
    (lines align : option string) (table_df : @frame num)
  : result table_figure :=
  let fill_color :=
    fill_of index_color (length (index table_df))
      <$> (LStr index_name :: columns table_df) in
  col_vals ← map_result (col_list table_df) (imap pair (columns table_df));
  if color_ok index_color && color_ok lines && align_ok align
     && valid_color "black" && forallb fill_ok fill_color
  then Ok {| header_values := LStr index_label :: columns table_df;
             header_fill := index_color;
             cells_values := (OfIndex <$> index table_df) :: col_vals;
             cells_fill := fill_color;
             line_color := lines;
             align_of := align |}
  else Raise ValueError.

(** [create_table] with its figure. *)
Definition create_table_figure (custom_column_names : py_arg)
    (short_location_names : bool) (index_color : option string)
    (descending : bool) (index_label : string) (lines align : option string)
    (st : @state num)
  : result table_figure * @state num :=
  match create_table num_leb custom_column_names short_location_names
          descending st with
  | (Raise e, st) => (Raise e, st)
  | (Ok table_df, st) =>
      match deref st table_df with
      | None => (Raise AttributeError, st)
      | Some f => (table_layout index_color index_label lines align f, st)
      end
  end.

End Figure.

(** A merged table whose rows have one cell per value column, and whose
    value columns are not called [year] or [period]. *)
Definition well_formed {num : Type} (t : @raw_frame num) : Prop :=
  Forall (λ r, length (r_cells r) = length (value_columns t)) (raw_rows t)
  ∧ ("year" ∉ value_columns t) ∧ ("period" ∉ value_columns t).

(** The name that the reference tables give to an identifier: the lookup
    of its geography code in the table of its family. *)
Definition resolved_name (qcew la oes : gmap string string)
    (series : string) : option string :=
  f ← family_of series;
  code ← geography_code f series;
  owning_table qcew la oes f !! code.

(** The capital letters at the start of a string. *)
Fixpoint leading_upper (s : string) : nat :=
  match s with
  | String c s' => if is_upper c then S (leading_upper s') else 0
  | EmptyString => 0
  end.

(** The last character of a string. *)
Fixpoint last_char (s : string) : option ascii :=
  match s with
  | EmptyString => None
  | String c EmptyString => Some c
  | String _ s' => last_char s'
  end.

(** A working copy of [n] rows: its columns have [n] entries each. *)
Definition well_shaped {num : Type} (n : nat) (df : @work_frame num) : Prop :=
  length (w_year df) = n ∧ length (w_period df) = n
  ∧ length (w_cells df) = n
  ∧ match w_date df with
    | NoDate => True
    | DateDup t => length t = n
    | DateCol l => length l = n
    end.

(** A monthly observation: period [M01] to [M12]. *)
Definition monthly_obs {num : Type} (o : @observation num) : Prop :=
  valid_year (year o)
  ∧ ∃ m, (1 <= m <= 12)%Z ∧ period o = String "M" (two_digits m).

(** A row of a semi-annual table: period [S01] or [S02]. *)
Definition semiannual_row {num : Type} (r : @raw_row num) : Prop :=
  valid_year (r_year r)
  ∧ ∃ h, (1 <= h <= 2)%Z ∧ r_period r = String "S" (two_digits h).

(** The half of a semi-annual row, from the trailing digit of its period,
    and the date key with the last month of that half. *)
Definition half_of {num : Type} (r : @raw_row num) : Z :=
  match r_period r with
  | String _ (String _ (String h _)) => digit_val h
  | _ => 0%Z
  end.
Definition half_key {num : Type} (r : @raw_row num) : string :=
  r_year r +:+ "-" +:+ two_digits (half_of r * 6)%Z.

(** ** An instance of the library parameters

    For the worked examples the numbers are integers, [pd.to_numeric] reads
    a non-empty string of decimal digits, and a date that is not a
    well-formed quarter is refused. *)

Fixpoint decimal_value (acc : Z) (s : string) : option Z :=
  match s with
  | EmptyString => Some acc
  | String c s' =>
      if is_digit c then decimal_value (10 * acc + digit_val c) s' else None
  end.

Definition parse_decimal (s : string) : option (option Z) :=
  match s with
  | EmptyString => None
  | _ => Some <$> decimal_value 0 s
  end.

Definition int_decimal (s : string) : result Z :=
  match parse_decimal s with
  | Some (Some n) => Ok n
  | _ => Raise ValueError
  end.

Definition refuse_date (column : list string) (s : string) : result (Z * Z) :=
  Raise DateParseError.

(** A reading of the dates [YYYY-M] and [YYYY-MM], for the semi-annual
    example. *)
Definition read_year_month (column : list string) (s : string)
  : result (Z * Z) :=
  match cut_dash s with
  | Some (ys, ms) =>
      match year_token ys, month_token ms with
      | Some y, Some m =>
          if in_bounds y m then Ok (y, m) else Raise OutOfBoundsDatetime
      | _, _ => Raise DateParseError
      end
  | None => Raise DateParseError
  end.

(** A validator that knows four named colours, for the examples. *)
Definition named_color (s : string) : bool :=
  bool_decide (s ∈ ["black"; "white"; "lightgrey"; "gold"]).

(** Reference tables and identifiers for the examples. *)
Definition la_example : gmap string string :=
  {[ "ST0100000000000" := "Alabama" ]}.
Definition id_unknown : string := "ENU0000010010".
Definition id_alabama : string := "LASST010000000000003".

(** Observations and payloads for the examples. *)
Definition obs (y p v : string) : @observation Z :=
  {| year := y; period := p; value := JStr v |}.
Definition payload_not_numeric : list (@series Z) :=
  [ {| seriesID := "X"; data := [obs "2020" "M01" "n/a"] |} ].
Definition payload_empty : list (@series Z) :=
  [ {| seriesID := "X"; data := [] |} ].
Definition payload_same_id : list (@series Z) :=
  [ {| seriesID := "X"; data := [obs "2020" "M01" "1"] |};
    {| seriesID := "X"; data := [obs "2020" "M02" "2"] |} ].
Definition payload_same_period : list (@series Z) :=
  [ {| seriesID := "X";
       data := [obs "2020" "M01" "1"; obs "2020" "M01" "2"] |} ].

(** Three payloads, the second without observations, the others with one
    month each. *)
Definition payload_gap : list (@series Z) :=
  [ {| seriesID := "X"; data := [obs "2020" "M01" "1"] |};
    {| seriesID := "E"; data := [] |};
    {| seriesID := "Y"; data := [obs "2020" "M02" "2"] |} ].

(** The content of a saved file: two monthly series, newest first. *)
Definition payload_saved : list (@series Z) :=
  [ {| seriesID := "X";
       data := [obs "2021" "M01" "3"; obs "2020" "M12" "2"] |};
    {| seriesID := "Y";
       data := [obs "2021" "M01" "5"; obs "2019" "M06" "4"] |} ].

(** A monthly and a quarterly merged table. *)
Definition monthly_example : @raw_frame Z :=
  {| value_columns := ["X"];
     raw_rows := [ RawRow "2020" "M12" [Some 2%Z];
                   RawRow "2020" "M03" [Some 1%Z] ] |}.
Definition quarterly_example : @raw_frame Z :=
  {| value_columns := ["X"];
     raw_rows := [ RawRow "2021" "Q02" [Some 2%Z];
                   RawRow "2021" "Q01" [Some 1%Z] ] |}.

(** A semi-annual merged table. *)
Definition semiannual_example : @raw_frame Z :=
  {| value_columns := ["X"];
     raw_rows := [ RawRow "2020" "S02" [Some 2%Z];
                   RawRow "2020" "S01" [Some 1%Z] ] |}.

(** An annual merged table. *)
Definition annual_example : @raw_frame Z :=
  {| value_columns := ["X"];
     raw_rows := [ RawRow "2022" "A01" [Some 2%Z];
                   RawRow "2021" "A01" [Some 1%Z] ] |}.

(** An annual merged table with a series that is itself called [date]. *)
Definition annual_date_example : @raw_frame Z :=
  {| value_columns := ["date"; "X"];
     raw_rows := [ RawRow "2022" "A01" [Some 2%Z; Some 20%Z];
                   RawRow "2021" "A01" [Some 1%Z; Some 10%Z] ] |}.

(** A canonical table with the single column [X] and a location map that
    names an identifier without a column. *)
Definition state_example : @state Z :=
  {| self_df := Some {| columns := [LStr "X"];
                        rows := [(LStr "2020-01", [Some 5%Z])] |};
     self_locations := {[ id_alabama := "Alabama" ]};
     derived := [] |}.

(** A canonical table of two series, one of them with a location. *)
Definition frame_named : @frame Z :=
  {| columns := [LStr id_alabama; LStr "X"];
     rows := [ (LStr "2020-01", [Some 5%Z; Some 7%Z]);
               (LStr "2020-02", [Some 6%Z; Some 8%Z]) ] |}.
Definition state_named : @state Z :=
  {| self_df := Some frame_named;
     self_locations := {[ id_alabama := "Alabama -- Statewide" ]};
     derived := [] |}.

(** A canonical table of two series of the same area. *)
Definition state_same_area : @state Z :=
  {| self_df := Some {| columns := [LStr "LASST010000000000003";
                                    LStr "LASST010000000000006"];
                        rows := [(LStr "2020-01", [Some 5%Z; Some 7%Z])] |};
     self_locations := {[ "LASST010000000000003" := "Alabama";
                          "LASST010000000000006" := "Alabama" ]};
     derived := [] |}.

(** ** Properties of the location resolver and of the short names *)

Section ResolverFacts.
Variables qcew la oes : gmap string string.

Lemma locate_all_app (m : gmap string string) (l1 l2 : list string) :
  locate_all qcew la oes m (l1 ++ l2) = locate_all qcew la oes m l1 ≫= λ m', locate_all qcew la oes m' l2.
Proof.
  revert m. induction l1 as [|x l1 IH]; intros m; simpl; [done|].
  destruct (locate_one qcew la oes m x) as [m'|e]; simpl; [apply IH | done].
Qed.

Lemma locate_one_unknown (m : gmap string string) (series : string) :
  unknown_geography qcew la oes series → locate_one qcew la oes m series = Raise KeyError.
Proof.
  intros (f & code & Hf & Hc & Ht). unfold family_of in Hf.
  unfold locate_one.
  destruct (String.prefix "EN" (slice_0_2 series)) eqn:E1.
  - injection Hf as <-. simpl in Hc, Ht. rewrite Hc. simpl.
    unfold loc_name. by rewrite Ht.
  - simpl. destruct (String.eqb (slice_0_2 series) "LA") eqn:E2.
    + injection Hf as <-. simpl in Hc, Ht. rewrite Hc. simpl.
      unfold loc_name. by rewrite Ht.
    + simpl. destruct (String.prefix "OE" (slice_0_2 series)) eqn:E3; [|done].
      injection Hf as <-. simpl in Hc, Ht. rewrite Hc. simpl.
      unfold loc_name. by rewrite Ht.
Qed.

(** C3, amended: an identifier of one of the three families whose geography
    code is absent from the owning table makes the resolution fail with the
    lookup's [KeyError] as soon as the loop reaches it, and the failure ends
    the resolution of the whole list: no location map is produced, whatever
    the other identifiers are. *)
Theorem unknown_geography_aborts (pre post : list string) (series : string) :
  unknown_geography qcew la oes series →
  (∀ m, _get_location qcew la oes pre = Ok m →
        _get_location qcew la oes (pre ++ series :: post) = Raise KeyError)
  ∧ raises (_get_location qcew la oes (pre ++ series :: post)).
Proof.
  intros Hu. unfold _get_location, raises.
  rewrite locate_all_app. simpl.
  destruct (locate_all qcew la oes ∅ pre) as [m|e] eqn:E; simpl.
  - rewrite (locate_one_unknown m series Hu). simpl.
    split; [done | by eexists].
  - split; [done | by eexists].
Qed.

End ResolverFacts.

Lemma unknown_geography_aborts_witness :
  unknown_geography ∅ la_example ∅ id_unknown
  ∧ raises (_get_location ∅ la_example ∅ ([id_alabama] ++ id_unknown :: [])).
Proof.
  assert (H : unknown_geography ∅ la_example ∅ id_unknown).
  { exists EN, "00000". repeat split. }
  split; [exact H|].
  exact (proj2 (unknown_geography_aborts ∅ la_example ∅
                  [id_alabama] [] id_unknown H)).
Defined.

(** C3 as stated fails: next to an identifier with an unknown geography
    code, an identifier that resolves on its own gets no entry, because no
    map is returned at all. *)
Lemma unknown_geography_not_isolated :
  unknown_geography ∅ la_example ∅ id_unknown
  ∧ _get_location ∅ la_example ∅ [id_alabama]
    = Ok {[ id_alabama := "Alabama" ]}
  ∧ ¬ ∃ m, _get_location ∅ la_example ∅ [id_unknown; id_alabama] = Ok m.
Proof.
  split; [exists EN, "00000"; repeat split|].
  split; [vm_compute; reflexivity|].
  intros [m Hm]. vm_compute in Hm. discriminate Hm.
Qed.

Lemma append_nil_l (s : string) : "" +:+ s = s.
Proof. reflexivity. Qed.

Lemma append_cons (c : ascii) (s t : string) :
  String c s +:+ t = String c (s +:+ t).
Proof. reflexivity. Qed.

Lemma split_head_spec (loc : string) :
  ∃ rest, loc = split_head loc +:+ rest
    ∧ (rest = "" ∨ separator_at rest = true)
    ∧ ∀ p q, loc = p +:+ q →
        (String.length p < String.length (split_head loc))%nat →
        separator_at q = false.
Proof.
  induction loc as [|c loc (rest & Heq & Hsep & Hmin)].
  - exists "". simpl. split; [done|]. split; [by left|]. intros; lia.
  - cbn [split_head]. destruct (separator_at (String c loc)) eqn:E.
    + exists (String c loc). split; [done|]. split; [by right|].
      simpl. intros; lia.
    + exists rest. split; [by rewrite append_cons, <- Heq|]. split; [done|].
      intros [|c' p] q Hpq Hlen.
      * rewrite append_nil_l in Hpq. by subst q.
      * rewrite append_cons in Hpq. simpl in Hlen. injection Hpq as -> ->.
        apply (Hmin p q); [done | lia].
Qed.

(** C7, amended: with short names every resolved name is replaced by
    exactly the text before the leftmost occurrence of [--] or [,] (the
    whole name when there is none), nothing being trimmed: the name
    "California -- Statewide" yields "California " with its space. *)
Theorem short_names_split_head :
  (∀ (num : Type) (st : @state num),
     rename_mapping PyNone true st = Ok (split_head <$> self_locations st, st))
  ∧ (∀ loc, ∃ rest, loc = split_head loc +:+ rest
       ∧ (rest = "" ∨ separator_at rest = true)
       ∧ ∀ p q, loc = p +:+ q →
           (String.length p < String.length (split_head loc))%nat →
           separator_at q = false)
  ∧ split_head "California -- Statewide" = "California ".
Proof.
  split; [done|]. split; [apply split_head_spec | reflexivity].
Qed.

(** C7 as stated fails on its own example: the text before [--] keeps the
    space that precedes the separator. *)
Lemma short_name_keeps_space :
  split_head "California -- Statewide" ≠ "California".
Proof. vm_compute. discriminate. Qed.

(** ** Properties of the presentation formatter *)

Section FormatterFacts.
Context {num : Type}.
Variable num_leb : num → num → bool.
Implicit Types (st : @state num) (f : @frame num).

Lemma rename_mapping_frames custom short st cols st' :
  rename_mapping custom short st = Ok (cols, st') →
  self_df st' = self_df st ∧ derived st' = derived st.
Proof.
  unfold rename_mapping.
  destruct custom as [|d|[]]; try (intros [= <- <-]; done); try done.
  destruct (decide (d = ∅)); intros [= <- <-]; [done|].
  by destruct short.
Qed.

(** [clean_df] either raises and allocates nothing, or returns the next
    new frame; in both cases [self.df] is the frame it was. *)
Lemma clean_df_cases custom short st :
  ∃ locs,
    (∃ e, clean_df custom short st
          = (Raise e, State (self_df st) locs (derived st)))
    ∨ (∃ f, clean_df custom short st
            = (Ok (Derived (length (derived st))),
               State (self_df st) locs (derived st ++ [f]))).
Proof.
  unfold clean_df.
  destruct (rename_mapping custom short st) as [[cols st']|e] eqn:E.
  - destruct (rename_mapping_frames _ _ _ _ _ E) as [Hdf Hder].
    destruct st' as [df' locs' der']. simpl in Hdf, Hder. subst df' der'.
    exists locs'. simpl.
    destruct (self_df st) as [f|] eqn:Ef.
    + destruct (rename cols f) as [f'|e].
      * right. by exists f'.
      * left. by exists e.
    + left. by exists AttributeError.
  - exists (self_locations st). left. exists e. by destruct st.
Qed.

Lemma run_call_frames (c : call) st :
  self_df (run_call num_leb c st).2 = self_df st
  ∧ derived st `prefix_of` derived (run_call num_leb c st).2
  ∧ ∀ r, (run_call num_leb c st).1 = Ok r →
      ∃ n, r = Derived n
           ∧ length (derived st) ≤ n < length (derived (run_call num_leb c st).2).
Proof.
  destruct c as [custom short|g custom t short|custom short d]; simpl.
  - destruct (clean_df_cases custom short st) as [locs [[e ->]|[f ->]]]; simpl.
    + split; [done|]. split; [done|]. intros ? [=].
    + split; [done|]. split; [by apply prefix_app_r|].
      intros ? [= <-]. eexists; split; [done|]. rewrite length_app. simpl. lia.
  - unfold create_graph. case_bool_decide; simpl.
    2:{ split; [done|]. split; [done|]. intros ? [=]. }
    destruct (clean_df_cases custom short st) as [locs [[e ->]|[f ->]]]; simpl.
    + split; [done|]. split; [done|]. intros ? [=].
    + destruct t; simpl.
      * rewrite lookup_app_r, Nat.sub_diag by done. simpl.
        split; [done|]. split; [rewrite <- (assoc_L (++)); by apply prefix_app_r|].
        intros ? [= <-]. eexists; split; [done|].
        rewrite !length_app. simpl. lia.
      * split; [done|]. split; [by apply prefix_app_r|].
        intros ? [= <-]. eexists; split; [done|]. rewrite length_app. simpl. lia.
  - unfold create_table.
    destruct (clean_df_cases custom short st) as [locs [[e ->]|[f ->]]]; simpl.
    + split; [done|]. split; [done|]. intros ? [=].
    + destruct d; simpl.
      * rewrite lookup_app_r, Nat.sub_diag by done. simpl.
        split; [done|]. split; [rewrite <- (assoc_L (++)); by apply prefix_app_r|].
        intros ? [= <-]. eexists; split; [done|].
        rewrite !length_app. simpl. lia.
      * split; [done|]. split; [by apply prefix_app_r|].
        intros ? [= <-]. eexists; split; [done|]. rewrite length_app. simpl. lia.
Qed.

Lemma run_calls_frames (cs : list call) st :
  self_df (run_calls num_leb cs st).2 = self_df st
  ∧ derived st `prefix_of` derived (run_calls num_leb cs st).2.
Proof.
  revert st. induction cs as [|c cs IH]; intros st; simpl; [done|].
  destruct (run_call_frames c st) as (Hdf & Hpre & _).
  destruct (run_call num_leb c st) as [r st1]. simpl in *.
  destruct (IH st1) as [Hdf' Hpre'].
  destruct (run_calls num_leb cs st1) as [rs st2]. simpl in *.
  split; [congruence | by etrans].
Qed.

(** C9: a call of the formatter leaves the frame of [self.df] as it was,
    changes no frame that existed before the call, and the frame it returns
    is a new one; after any sequence of calls the canonical table, with its
    rows, columns and values, is the one before the calls. *)
Theorem formatter_preserves_canonical_table :
  (∀ (c : call) st,
     self_df (run_call num_leb c st).2 = self_df st
     ∧ derived st `prefix_of` derived (run_call num_leb c st).2
     ∧ ∀ r, (run_call num_leb c st).1 = Ok r →
         ∃ n, r = Derived n
              ∧ length (derived st) ≤ n
                < length (derived (run_call num_leb c st).2))
  ∧ (∀ (cs : list call) st,
       self_df (run_calls num_leb cs st).2 = self_df st
       ∧ derived st `prefix_of` derived (run_calls num_leb cs st).2).
Proof. split; [apply run_call_frames | apply run_calls_frames]. Qed.

(** C10: when the rename mapping of [clean_df] has a key that is not a
    column of the canonical table, the call raises ([KeyError] from
    [rename] when there is a table) and produces no renamed frame. *)
Theorem rename_missing_key_raises custom short st cols st1 (k : string) :
  rename_mapping custom short st = Ok (cols, st1) →
  is_Some (cols !! k) →
  (∀ f, self_df st = Some f → has_column k f = false) →
  ∃ e, (clean_df custom short st).1 = Raise e
       ∧ (is_Some (self_df st) → e = KeyError)
       ∧ derived (clean_df custom short st).2 = derived st.
Proof.
  intros Hmap [v Hk] Hcol. unfold clean_df. rewrite Hmap.
  destruct (rename_mapping_frames _ _ _ _ _ Hmap) as [Hdf Hder].
  destruct st1 as [df' locs' der']. simpl in Hdf, Hder. subst df' der'.
  simpl. destruct (self_df st) as [f|] eqn:Ef.
  - unfold rename. destruct (decide _) as [Hall|_].
    + specialize (Hall k v Hk). simpl in Hall.
      rewrite (Hcol f eq_refl) in Hall. discriminate.
    + exists KeyError. by simpl.
  - exists AttributeError. simpl. split; [done|]. split; [|done].
    by intros [? [=]].
Qed.

End FormatterFacts.

Lemma rename_missing_key_raises_witness :
  ∃ e, (clean_df PyNone true state_example).1 = Raise e
       ∧ (is_Some (self_df state_example) → e = KeyError)
       ∧ derived (clean_df PyNone true state_example).2 = derived state_example.
Proof.
  apply (rename_missing_key_raises PyNone true state_example
           (split_head <$> self_locations state_example) state_example
           id_alabama).
  - reflexivity.
  - exists "Alabama". vm_compute. reflexivity.
  - intros f [= <-]. reflexivity.
Defined.

(** With long names [cols] is [self.locations] itself: the overrides stay
    in the location map after the call. *)
Lemma clean_df_long_names_updates_locations :
  self_locations
    (clean_df (PyDict {[ "X" := "Total" ]}) false state_example).2 !! "X"
  = Some "Total".
Proof. vm_compute. reflexivity. Qed.

(** ** Properties of the series merger *)

Section MergerFacts.
Context {num : Type}.
Variable parse_numeric : string → option (option num).
Implicit Types (o : @observation num) (s : @series num)
  (raw : list (@series num)) (t acc : @raw_frame num).

Lemma series_frame_raises (l : list (@observation num)) e :
  series_frame parse_numeric l = Raise e → e = ValueError.
Proof.
  induction l as [|o l IH]; simpl; [done|].
  unfold to_numeric. destruct (value o) as [|n|v]; simpl.
  - destruct (series_frame parse_numeric l); simpl; [done|]. intros [= <-]. auto.
  - destruct (series_frame parse_numeric l); simpl; [done|]. intros [= <-]. auto.
  - destruct (parse_numeric v); simpl; [|by intros [= <-]].
    destruct (series_frame parse_numeric l); simpl; [done|]. intros [= <-]. auto.
Qed.

Lemma series_frame_not_numeric (l : list (@observation num)) o :
  o ∈ l → not_numeric parse_numeric o → series_frame parse_numeric l = Raise ValueError.
Proof.
  intros Hin (v & Hv & Hp). induction Hin as [o l|o o' l Hin IH]; simpl.
  - unfold to_numeric. by rewrite Hv, Hp.
  - rewrite (IH Hv).
    destruct (to_numeric parse_numeric (value o')) as [c|e] eqn:E; simpl; [done|].
    unfold to_numeric in E. destruct (value o') as [|n|v']; try done.
    destruct (parse_numeric v'); by simplify_eq.
Qed.

Lemma merge_outer_raises acc sid (sf : list (key * @cell num)) e :
  merge_outer acc sid sf = Raise e → is_ValueError e = true.
Proof.
  unfold merge_outer. case_bool_decide; [by intros [= <-]|].
  unfold overlap_suffix. case_bool_decide; simpl; [|done].
  destruct (existsb _ _); simpl; [by intros [= <-] | done].
Qed.

Lemma construct_loop_raises raw acc e :
  construct_loop parse_numeric acc raw = Raise e → is_ValueError e = true.
Proof.
  revert acc. induction raw as [|s raw IH]; intros acc; simpl; [done|].
  destruct (data s) as [|o l] eqn:Ed; [apply IH|].
  destruct (series_frame parse_numeric (o :: l)) as [sf|e'] eqn:Es.
  - cbn [mbind result_bind].
    destruct (merge_outer acc (seriesID s) sf) as [acc'|e''] eqn:Em.
    + apply IH.
    + intros [= <-]. by eapply merge_outer_raises.
  - intros [= <-]. by rewrite (series_frame_raises _ _ Es).
Qed.

Lemma construct_loop_not_numeric raw acc s o :
  s ∈ raw → o ∈ data s → not_numeric parse_numeric o →
  raises (construct_loop parse_numeric acc raw).
Proof.
  intros Hs Ho Hbad. revert acc.
  induction Hs as [s raw|s s' raw Hs IH]; intros acc; simpl.
  - destruct (data s) as [|o' l] eqn:Ed; [by apply elem_of_nil in Ho|].
    rewrite (series_frame_not_numeric _ o Ho Hbad). by eexists.
  - destruct (data s') as [|o' l] eqn:Ed; [by apply IH|].
    destruct (series_frame parse_numeric (o' :: l)) as [sf|e'];
      [|by eexists].
    cbn [mbind result_bind].
    destruct (merge_outer acc (seriesID s') sf) as [acc'|e''];
      [by apply IH | by eexists].
Qed.

(** C4: when a payload holds an observation whose value is a string that
    is not numeric, the merger raises the [ValueError] of [pd.to_numeric]
    (or, for an earlier payload that [merge] refuses, one of its subclass)
    and returns no table, hence no row of that series. *)
Theorem not_numeric_value_raises raw s o :
  s ∈ raw → o ∈ data s → not_numeric parse_numeric o →
  ∃ e, _construct_df parse_numeric raw = Raise e ∧ is_ValueError e = true.
Proof.
  intros Hs Ho Hbad. unfold _construct_df.
  destruct (construct_loop_not_numeric raw (RawFrame [] []) s o Hs Ho Hbad)
    as [e He].
  exists e. split; [done|]. by eapply construct_loop_raises.
Qed.

Lemma construct_loop_no_data raw acc :
  Forall (λ s, data s = []) raw → construct_loop parse_numeric acc raw = Ok acc.
Proof.
  induction 1 as [|s raw Hs _ IH]; simpl; [done|]. by rewrite Hs.
Qed.

Lemma series_frame_numeric (l : list (@observation num)) :
  Forall (numeric parse_numeric) l → series_frame parse_numeric l = Ok (obs_row parse_numeric <$> l).
Proof.
  induction 1 as [|o l [c Hc] _ IH]; simpl; [done|].
  rewrite Hc, IH. simpl. unfold obs_row, cell_of, obs_key. by rewrite Hc.
Qed.

Lemma overlap_suffix_fresh (left : list string) sid :
  sid ∉ left → overlap_suffix left sid = Ok (left, sid).
Proof. intros H. unfold overlap_suffix. by rewrite bool_decide_eq_false_2. Qed.

Lemma merge_outer_fresh acc sid (sf : list (key * @cell num)) :
  sid ∉ ["year"; "period"] → sid ∉ value_columns acc →
  merge_outer acc sid sf
  = Ok {| value_columns := value_columns acc ++ [sid];
          raw_rows := outer_rows acc sf |}.
Proof.
  intros Hk Hf. unfold merge_outer. rewrite bool_decide_eq_false_2 by done.
  by rewrite overlap_suffix_fresh.
Qed.

Lemma merge_outer_clash rows sid (sf : list (key * @cell num)) :
  sid ∉ ["year"; "period"] →
  merge_outer (RawFrame [sid] rows) sid sf
  = Ok {| value_columns := [sid +:+ "_x"; sid +:+ "_y"];
          raw_rows := outer_rows (RawFrame [sid] rows) sf |}.
Proof.
  intros Hk. unfold merge_outer. rewrite bool_decide_eq_false_2 by done.
  unfold overlap_suffix. cbn [value_columns].
  rewrite bool_decide_eq_true_2 by apply list_elem_of_here.
  cbn [fmap list_fmap]. rewrite decide_True by done.
  cbn [duplicated zip zip_with].
  rewrite !bool_decide_eq_false_2 by apply not_elem_of_nil.
  reflexivity.
Qed.

(** C6, amended: the merger has no check for repeated identifiers.  Two
    payloads with the same identifier, both with observations whose values
    convert, are merged without an error, and the two value columns get the
    suffixes of [merge]: [id_x] and [id_y]. *)
Theorem same_identifier_merged sid (d1 d2 : list (@observation num)) :
  d1 ≠ [] → d2 ≠ [] → sid ∉ ["year"; "period"] →
  Forall (numeric parse_numeric) (d1 ++ d2) →
  ∃ t, _construct_df parse_numeric [Series sid d1; Series sid d2] = Ok t
       ∧ value_columns t = [sid +:+ "_x"; sid +:+ "_y"].
Proof.
  intros H1 H2 Hsid [Hn1 Hn2]%Forall_app.
  destruct d1 as [|o1 d1]; [done|]. destruct d2 as [|o2 d2]; [done|].
  unfold _construct_df. cbn [construct_loop data seriesID].
  rewrite (series_frame_numeric _ Hn1). cbn [mbind result_bind].
  rewrite merge_outer_fresh by (done || apply not_elem_of_nil).
  cbn [mbind result_bind value_columns app].
  rewrite (series_frame_numeric _ Hn2). cbn [mbind result_bind].
  rewrite merge_outer_clash by done.
  eexists. split; reflexivity.
Qed.

End MergerFacts.

Lemma not_numeric_value_raises_witness :
  ∃ e, _construct_df parse_decimal payload_not_numeric = Raise e
       ∧ is_ValueError e = true.
Proof.
  apply (not_numeric_value_raises parse_decimal payload_not_numeric
           {| seriesID := "X"; data := [obs "2020" "M01" "n/a"] |}
           (obs "2020" "M01" "n/a")).
  - apply list_elem_of_here.
  - apply list_elem_of_here.
  - exists "n/a". split; reflexivity.
Defined.

Lemma same_identifier_merged_witness :
  ∃ t, _construct_df parse_decimal payload_same_id = Ok t
       ∧ value_columns t = ["X_x"; "X_y"].
Proof.
  apply (same_identifier_merged parse_decimal "X"
           [obs "2020" "M01" "1"] [obs "2020" "M02" "2"]).
  - discriminate.
  - discriminate.
  - intros H. by repeat (apply elem_of_cons in H as [H|H]; [discriminate H|]);
      apply elem_of_nil in H.
  - repeat constructor; by eexists.
Defined.

(** C6 as stated fails: two payloads with the identifier [X] are merged
    into a table, nothing is raised. *)
Lemma same_identifier_not_refused :
  _construct_df parse_decimal payload_same_id
  = Ok {| value_columns := ["X_x"; "X_y"];
          raw_rows := [ RawRow "2020" "M01" [Some 1%Z; None];
                        RawRow "2020" "M02" [None; Some 2%Z] ] |}
  ∧ ¬ raises (_construct_df parse_decimal payload_same_id).
Proof.
  split; [vm_compute; reflexivity|]. intros [e He]. vm_compute in He. discriminate He.
Qed.

(** ** Properties of the constructor *)

Section ConstructorFacts.
Context {num : Type}.
Variable parse_numeric : string → option (option num).
Variable num_leb : num → num → bool.
Variable py_int : string → result Z.
Variable to_datetime_other : list string → string → result (Z * Z).
Variables qcew la oes : gmap string string.

(** C5, amended: on payloads that all have zero observations the merger
    returns, without an error, a merged table with no row and no value
    column; the constructor then leaves [self.df] unset ([None]) instead of
    building an empty canonical table, and it fails only if the location
    resolver does. *)
Theorem no_observation_no_table (ids : list string)
    (raw : list (@series num)) (requested : result (list (@series num))) :
  raw ≠ [] → Forall (λ s, data s = []) raw →
  _construct_df parse_numeric raw = Ok (RawFrame [] [])
  ∧ __init__ parse_numeric num_leb py_int to_datetime_other qcew la oes
      ids (Some raw) requested
    = (locs ← _get_location qcew la oes ids;
       Ok {| series_ids := ids; raw_data := raw; raw_df := RawFrame [] [];
             df := None; locations := locs |}).
Proof.
  intros Hne Hall.
  assert (Hc : _construct_df parse_numeric raw = Ok (RawFrame [] []))
    by apply (construct_loop_no_data _ _ _ Hall).
  split; [done|]. unfold __init__.
  destruct raw as [|s raw]; [done|].
  cbn [mbind result_bind]. rewrite Hc. reflexivity.
Qed.

End ConstructorFacts.

Lemma no_observation_no_table_witness :
  _construct_df parse_decimal payload_empty = Ok (RawFrame [] [])
  ∧ __init__ parse_decimal Z.leb int_decimal refuse_date ∅ ∅ ∅
      [] (Some payload_empty) (Raise ValueError)
    = (locs ← _get_location ∅ ∅ ∅ [];
       Ok {| series_ids := []; raw_data := payload_empty;
             raw_df := RawFrame [] []; df := None; locations := locs |}).
Proof.
  apply (no_observation_no_table parse_decimal Z.leb int_decimal refuse_date
           ∅ ∅ ∅ [] payload_empty (Raise ValueError)).
  - discriminate.
  - repeat constructor.
Defined.

(** C5 as stated fails: for a single series without observations the
    constructor succeeds with [df = None]; there is no canonical table, in
    particular no empty one. *)
Lemma no_observation_df_is_None :
  ∃ o, __init__ parse_decimal Z.leb int_decimal refuse_date ∅ ∅ ∅
         [] (Some payload_empty) (Raise ValueError) = Ok o
       ∧ df o = None
       ∧ ¬ ∃ f, df o = Some f ∧ rows f = [] ∧ columns f = [].
Proof.
  eexists. split; [vm_compute; reflexivity|]. split; [reflexivity|].
  intros (f & Hf & _). discriminate Hf.
Qed.

(** ** The rows and cells of the merged table *)

Section JoinFacts.
Context {A K : Type} `{EqDecision K}.
Variable f : A → K.

Lemma filter_key_nil (l : list A) (k : K) :
  k ∉ f <$> l → filter (λ x, f x = k) l = [].
Proof.
  induction l as [|a l IH]; [done|]. rewrite fmap_cons, not_elem_of_cons.
  intros [Hne Hk]. rewrite filter_cons_False by done. by apply IH.
Qed.

Lemma filter_key_cases (l : list A) (k : K) :
  NoDup (f <$> l) →
  ((k ∉ f <$> l) ∧ filter (λ x, f x = k) l = [])
  ∨ (∃ x, x ∈ l ∧ f x = k ∧ filter (λ x, f x = k) l = [x]).
Proof.
  induction l as [|a l IH]; [intros _; left; split; [apply not_elem_of_nil|done]|].
  rewrite fmap_cons, NoDup_cons. intros [Ha Hnd].
  destruct (decide (f a = k)) as [Heq|Hne].
  - right. exists a. split; [apply list_elem_of_here|]. split; [done|].
    rewrite filter_cons_True by done. f_equal. apply filter_key_nil. by subst k.
  - rewrite filter_cons_False by done.
    destruct (IH Hnd) as [[Hk Hf]|(x & Hx & Hfx & Hf)].
    + left. split; [|done]. rewrite not_elem_of_cons. by split.
    + right. exists x. split; [by apply list_elem_of_further|]. by split.
Qed.

End JoinFacts.

Lemma bind_singletons {A B C : Type} (key_of : B → C) (e : C → A)
    (g : A → list B) (ks : list A) :
  (∀ k, k ∈ ks → ∃ r, g k = [r] ∧ e (key_of r) = k) →
  (λ r, e (key_of r)) <$> (ks ≫= g) = ks.
Proof.
  induction ks as [|k ks IH]; intros H; [done|].
  change ((k :: ks) ≫= g) with (g k ++ (ks ≫= g))%list.
  destruct (H k) as (r & -> & Hr); [apply list_elem_of_here|].
  simpl. rewrite Hr. f_equal. apply IH.
  intros k' Hk'. apply H. by apply list_elem_of_further.
Qed.

Section MergeInvariant.
Context {num : Type}.
Variable parse_numeric : string → option (option num).
Implicit Types (o : @observation num) (s : @series num)
  (raw done : list (@series num)) (t acc : @raw_frame num) (k : key).

Lemma join_group_row (w : nat) k (ls : list (@raw_row num))
    (rs : list (key * @cell num)) :
  (length ls ≤ 1)%nat → (length rs ≤ 1)%nat → ls ≠ [] ∨ rs ≠ [] →
  join_group w k ls rs
  = [RawRow k.1 k.2 (from_option r_cells (replicate w None) (head ls)
                     ++ [from_option snd None (head rs)])].
Proof.
  destruct ls as [|l [|l' ls]], rs as [|r [|r' rs]]; simpl; try lia; try done.
  intros _ _ [|]; done.
Qed.

Lemma head_filter_obs_row (l : list (@observation num)) k :
  from_option snd None
    (head (filter (λ r : key * @cell num, r.1 = k)
             (obs_row parse_numeric <$> l)))
  = from_option (λ o, cell_of parse_numeric (value o)) None
      (head (filter (λ o, obs_key o = k) l)).
Proof.
  induction l as [|o l IH]; [done|]. rewrite fmap_cons.
  destruct (decide (obs_key o = k)) as [Heq|Hne].
  - rewrite !filter_cons_True by done. done.
  - rewrite !filter_cons_False by done. done.
Qed.

Lemma cell_at_absent s k : k ∉ keys_of s → cell_at parse_numeric s k = None.
Proof.
  intros Hk. unfold cell_at. by rewrite (filter_key_nil obs_key _ _ Hk).
Qed.

Lemma outer_keys_spec (rows : list (@raw_row num))
    (sf : list (key * @cell num)) :
  NoDup (outer_keys rows sf)
  ∧ ∀ k, k ∈ outer_keys rows sf ↔ k ∈ row_key <$> rows ∨ k ∈ sf.*1.
Proof.
  unfold outer_keys. split.
  - rewrite merge_sort_Permutation. apply NoDup_remove_dups.
  - intros k. by rewrite merge_sort_Permutation, elem_of_remove_dups, elem_of_app.
Qed.

Lemma obs_row_keys s : (obs_row parse_numeric <$> data s).*1 = keys_of s.
Proof. unfold keys_of. rewrite <- list_fmap_compose. done. Qed.

(** One more payload: the invariant of the loop is kept by [merge]. *)
Lemma merge_step done acc s :
  merged_from parse_numeric done acc →
  NoDup (keys_of s) →
  seriesID s ∉ ["year"; "period"] →
  seriesID s ∉ seriesID <$> done →
  ∃ t, merge_outer acc (seriesID s) (obs_row parse_numeric <$> data s) = Ok t
       ∧ merged_from parse_numeric (done ++ [s]) t.
Proof.
  intros (Hcols & Hnd & Hkeys & Hcells) Hs Hk Hfresh.
  rewrite merge_outer_fresh by (by rewrite ?Hcols).
  eexists. split; [reflexivity|].
  set (sf := obs_row parse_numeric <$> data s).
  destruct (outer_keys_spec (raw_rows acc) sf) as [Hknd Hkin].
  assert (Hrow : ∀ k, k ∈ outer_keys (raw_rows acc) sf →
    ∃ r, join_group (length (value_columns acc)) k
           (filter (λ l, row_key l = k) (raw_rows acc))
           (filter (λ r : key * @cell num, r.1 = k) sf) = [r]
         ∧ (r_year r, r_period r) = k
         ∧ r_cells r = (λ s', cell_at parse_numeric s' k) <$> (done ++ [s])).
  { intros k Hin. apply Hkin in Hin.
    assert (Hsf : NoDup sf.*1) by (unfold sf; by rewrite obs_row_keys).
    destruct (filter_key_cases row_key (raw_rows acc) k Hnd)
      as [[HkL HfL]|(l & Hl & Hlk & HfL)];
    destruct (filter_key_cases fst sf k Hsf)
      as [[HkR HfR]|(x & Hx & Hxk & HfR)].
    - destruct Hin; done.
    - eexists. split; [apply join_group_row; rewrite ?HfL, ?HfR; simpl; auto|].
      split; [by destruct k|]. cbn [r_cells].
      rewrite fmap_app. f_equal.
      + rewrite HfL. simpl. rewrite Hcols, length_fmap.
        symmetry.
        assert (H : ∀ s', s' ∈ done → cell_at parse_numeric s' k = None).
        { intros s' Hs'. apply cell_at_absent. intros Hk'. apply HkL.
          apply Hkeys. eauto. }
        clear -H. induction done as [|s' done IH]; [done|]. simpl. f_equal.
        * apply H, list_elem_of_here.
        * apply IH. intros; apply H. by apply list_elem_of_further.
      + simpl. f_equal. unfold sf. apply head_filter_obs_row.
    - eexists. split; [apply join_group_row; rewrite ?HfL, ?HfR; simpl; auto|].
      split; [by destruct k|]. cbn [r_cells].
      rewrite fmap_app. f_equal.
      + rewrite HfL. simpl. rewrite (Hcells l Hl). by rewrite Hlk.
      + simpl. f_equal. unfold sf. apply head_filter_obs_row.
    - eexists. split; [apply join_group_row; rewrite ?HfL, ?HfR; simpl; auto|].
      split; [by destruct k|]. cbn [r_cells].
      rewrite fmap_app. f_equal.
      + rewrite HfL. simpl. rewrite (Hcells l Hl). by rewrite Hlk.
      + simpl. f_equal. unfold sf. apply head_filter_obs_row. }
  assert (Hks : row_key <$> outer_rows acc sf = outer_keys (raw_rows acc) sf).
  { unfold outer_rows.
    apply (bind_singletons (λ r, (r_year r, r_period r)) id).
    intros k Hin. destruct (Hrow k Hin) as (r & Hr & Hrk & _). eauto. }
  unfold merged_from. cbn [value_columns raw_rows].
  split; [by rewrite Hcols, fmap_app|].
  split; [by rewrite Hks|].
  split.
  - intros k. rewrite Hks, Hkin, Hkeys. unfold sf. rewrite obs_row_keys.
    split.
    + intros [(s' & Hs' & Hk')|Hk'].
      * exists s'. split; [apply elem_of_app; by left | done].
      * exists s. split; [apply elem_of_app; right; apply list_elem_of_here | done].
    + intros (s' & [Hs'|Hs']%elem_of_app & Hk').
      * left. eauto.
      * apply list_elem_of_singleton in Hs' as ->. by right.
  - intros r Hr. unfold outer_rows in Hr.
    apply list_elem_of_bind in Hr as (k & Hr & Hin).
    destruct (Hrow k Hin) as (r' & Heq & Hrk & Hc).
    rewrite Heq in Hr. apply list_elem_of_singleton in Hr as ->.
    unfold row_key. by rewrite Hrk.
Qed.

Lemma construct_loop_skip acc s raw :
  has_data s = false →
  construct_loop parse_numeric acc (s :: raw)
  = construct_loop parse_numeric acc raw.
Proof. unfold has_data. simpl. by destruct (data s). Qed.

Lemma construct_loop_merge acc s raw :
  has_data s = true →
  construct_loop parse_numeric acc (s :: raw)
  = (series_df ← series_frame parse_numeric (data s);
     bls_df' ← merge_outer acc (seriesID s) series_df;
     construct_loop parse_numeric bls_df' raw).
Proof. unfold has_data. simpl. by destruct (data s). Qed.

Lemma construct_loop_merged raw : ∀ done acc,
  merged_from parse_numeric done acc →
  Forall (λ s, Forall (numeric parse_numeric) (data s) ∧ NoDup (keys_of s)) raw →
  NoDup (seriesID <$> (done ++ active raw)) →
  Forall (λ s, seriesID s ∉ ["year"; "period"]) (active raw) →
  ∃ t, construct_loop parse_numeric acc raw = Ok t
       ∧ merged_from parse_numeric (done ++ active raw) t.
Proof.
  induction raw as [|s raw IH]; intros done acc Hinv Hraw Hnd Hk.
  - exists acc. simpl. by rewrite app_nil_r.
  - apply Forall_cons in Hraw as [[Hnum Hkeys] Hraw].
    unfold active in *. cbn [List.filter] in *.
    destruct (has_data s) eqn:Eh.
    + rewrite construct_loop_merge by done.
      rewrite (series_frame_numeric _ _ Hnum). cbn [mbind result_bind].
      apply Forall_cons in Hk as [Hks Hk].
      destruct (merge_step done acc s Hinv Hkeys Hks) as (t1 & -> & Hinv1).
      { rewrite fmap_app, fmap_cons in Hnd.
        apply NoDup_app in Hnd as (_ & Hd & _).
        intros Hin. apply (Hd _ Hin). apply list_elem_of_here. }
      cbn [mbind result_bind].
      destruct (IH (done ++ [s]) t1 Hinv1 Hraw) as (t & Ht & Hinv2).
      { by rewrite <- (assoc_L (++)). }
      { done. }
      exists t. split; [done|]. by rewrite <- (assoc_L (++)) in Hinv2.
    + rewrite construct_loop_skip by done. by apply IH.
Qed.

Lemma keys_of_active raw k :
  (∃ s, s ∈ active raw ∧ k ∈ keys_of s) ↔ (∃ s, s ∈ raw ∧ k ∈ keys_of s).
Proof.
  unfold active. split; intros (s & Hs & Hk); exists s; (split; [|done]).
  - apply list_elem_of_In in Hs. apply list_elem_of_In.
    by apply List.filter_In in Hs as [? _].
  - apply list_elem_of_In. apply List.filter_In. split; [by apply list_elem_of_In|].
    unfold has_data, keys_of in *. destruct (data s); [|done].
    by apply elem_of_nil in Hk.
Qed.

(** The merged table: when no payload repeats a (year, period) pair, every
    value converts and the identifiers of the payloads with observations are
    distinct and are not [year] or [period], the merge returns a table that
    has exactly one row per distinct (year, period) pair occurring in a
    payload, one value column per payload with observations and none for the
    others, and whose cell for a series without an observation at the pair
    of the row is NaN, the absent value, not zero. *)
Lemma merged_table_rows raw :
  Forall (λ s, Forall (numeric parse_numeric) (data s) ∧ NoDup (keys_of s)) raw →
  NoDup (seriesID <$> active raw) →
  Forall (λ s, seriesID s ∉ ["year"; "period"]) (active raw) →
  ∃ t, _construct_df parse_numeric raw = Ok t
       ∧ value_columns t = seriesID <$> active raw
       ∧ NoDup (row_key <$> raw_rows t)
       ∧ (∀ k, k ∈ row_key <$> raw_rows t ↔ ∃ s, s ∈ raw ∧ k ∈ keys_of s)
       ∧ length (raw_rows t) = length (remove_dups (raw ≫= keys_of))
       ∧ (∀ r, r ∈ raw_rows t →
            r_cells r = (λ s, cell_at parse_numeric s (row_key r)) <$> active raw)
       ∧ (∀ r s, r ∈ raw_rows t → row_key r ∉ keys_of s →
            cell_at parse_numeric s (row_key r) = None).
Proof.
  intros Hraw Hnd Hk.
  destruct (construct_loop_merged raw [] (RawFrame [] [])) as (t & Ht & Hinv);
    try done.
  { repeat split; try done; simpl.
    - apply NoDup_nil_2.
    - by intros ?%elem_of_nil.
    - intros (s & ?%elem_of_nil & _). done.
    - by intros ? ?%elem_of_nil. }
  destruct Hinv as (Hcols & Hrows & Hkeys & Hcells). simpl in *.
  assert (Hkeys' : ∀ k, k ∈ row_key <$> raw_rows t
                        ↔ ∃ s, s ∈ raw ∧ k ∈ keys_of s).
  { intros k. by rewrite Hkeys, keys_of_active. }
  exists t. repeat split; try done; try apply Hkeys'.
  - rewrite <- (length_fmap row_key). apply Permutation_length.
    apply NoDup_Permutation; [done | apply NoDup_remove_dups|].
    intros k. rewrite elem_of_remove_dups, Hkeys', list_elem_of_bind.
    split; intros (s & ? & ?); exists s; done.
  - intros r s _. apply cell_at_absent.
Qed.

End MergeInvariant.

Lemma merged_table_rows_witness :
  ∃ t, _construct_df parse_decimal
         [ {| seriesID := "X"; data := [obs "2020" "M01" "1"] |};
           {| seriesID := "E"; data := [] |};
           {| seriesID := "Y"; data := [obs "2020" "M02" "2"] |} ] = Ok t
       ∧ value_columns t = ["X"; "Y"]
       ∧ length (raw_rows t) = 2.
Proof.
  destruct (merged_table_rows parse_decimal
         [ {| seriesID := "X"; data := [obs "2020" "M01" "1"] |};
           {| seriesID := "E"; data := [] |};
           {| seriesID := "Y"; data := [obs "2020" "M02" "2"] |} ])
    as (t & Ht & Hc & _ & _ & Hlen & _).
  - repeat constructor; try (by eexists); try (by vm_compute; intros H; inversion H).
  - vm_compute. repeat constructor; intros H; inversion H; subst;
      try discriminate; match goal with H : _ ∈ _ |- _ => inversion H end.
  - vm_compute. repeat constructor; intros H; inversion H; subst;
      repeat match goal with H : _ ∈ _ |- _ => inversion H; clear H; subst end.
  - exists t. split; [exact Ht|]. split; [exact Hc | exact Hlen].
Defined.

(** A payload with two observations for the same (year, period) gives two
    rows of the merged table for that one pair. *)
Lemma repeated_period_two_rows :
  _construct_df parse_decimal payload_same_period
  = Ok {| value_columns := ["X"];
          raw_rows := [ RawRow "2020" "M01" [Some 1%Z];
                        RawRow "2020" "M01" [Some 2%Z] ] |}
  ∧ remove_dups (payload_same_period ≫= keys_of) = [("2020", "M01")].
Proof. split; vm_compute; reflexivity. Qed.

(** ** Dates: digits, tokens and keys *)

Lemma is_digit_not_dash (c : ascii) :
  is_digit c = true → Ascii.eqb c "-" = false.
Proof.
  destruct c as [[] [] [] [] [] [] [] []]; vm_compute; congruence.
Qed.

Lemma digit_char_val (c : ascii) :
  is_digit c = true →
  digit_char (digit_val c) = c ∧ (0 <= digit_val c <= 9)%Z.
Proof.
  destruct c as [[] [] [] [] [] [] [] []]; vm_compute; intros H;
    try discriminate H; (split; [reflexivity | split; discriminate]).
Qed.

Lemma digit_char_mod (x y : Z) :
  (x mod 10 = y mod 10)%Z → digit_char x = digit_char y.
Proof. unfold digit_char. by intros ->. Qed.

Lemma year_token_shape (y : string) (n : Z) :
  year_token y = Some n →
  ∃ a b c d,
    y = String a (String b (String c (String d EmptyString)))
    ∧ is_digit a = true ∧ is_digit b = true
    ∧ is_digit c = true ∧ is_digit d = true
    ∧ n = (1000 * digit_val a + 100 * digit_val b
           + 10 * digit_val c + digit_val d)%Z.
Proof.
  destruct y as [|a [|b [|c [|d [|e y]]]]]; try done. simpl.
  destruct (is_digit a) eqn:Ea; [|done]. destruct (is_digit b) eqn:Eb; [|done].
  destruct (is_digit c) eqn:Ec; [|done]. destruct (is_digit d) eqn:Ed; [|done].
  simpl. intros [= <-]. by exists a, b, c, d.
Qed.

Lemma cut_dash_year (y rest : string) (n : Z) :
  year_token y = Some n → cut_dash (y +:+ "-" +:+ rest) = Some (y, rest).
Proof.
  intros (a & b & c & d & -> & Ha & Hb & Hc & Hd & _)%year_token_shape.
  rewrite !append_cons, append_nil_l. cbn [cut_dash].
  rewrite !is_digit_not_dash by done. reflexivity.
Qed.

Lemma strftime_year (y : string) (n m : Z) :
  year_token y = Some n → strftime_Y_m (n, m) = y +:+ "-" +:+ two_digits m.
Proof.
  intros (a & b & c & d & -> & Ha & Hb & Hc & Hd & ->)%year_token_shape.
  destruct (digit_char_val a Ha) as [Ea Ba], (digit_char_val b Hb) as [Eb Bb],
    (digit_char_val c Hc) as [Ec Bc], (digit_char_val d Hd) as [Ed Bd].
  unfold strftime_Y_m. cbn [fst snd].
  rewrite !append_cons, append_nil_l.
  set (n := (1000 * digit_val a + 100 * digit_val b
             + 10 * digit_val c + digit_val d)%Z).
  rewrite (digit_char_mod (n / 1000) (digit_val a)), Ea
    by (subst n; Z.div_mod_to_equations; lia).
  rewrite (digit_char_mod (n / 100) (digit_val b)), Eb
    by (subst n; Z.div_mod_to_equations; lia).
  rewrite (digit_char_mod (n / 10) (digit_val c)), Ec
    by (subst n; Z.div_mod_to_equations; lia).
  rewrite (digit_char_mod n (digit_val d)), Ed
    by (subst n; Z.div_mod_to_equations; lia).
  reflexivity.
Qed.

Lemma in_bounds_valid (n m : Z) :
  (1678 <= n <= 2261)%Z → in_bounds n m = true.
Proof.
  intros H. unfold in_bounds.
  apply andb_true_intro; split; apply orb_true_intro; left; lia.
Qed.

Lemma month_cases (m : Z) (P : Z → Prop) :
  (1 <= m <= 12)%Z →
  P 1%Z → P 2%Z → P 3%Z → P 4%Z → P 5%Z → P 6%Z →
  P 7%Z → P 8%Z → P 9%Z → P 10%Z → P 11%Z → P 12%Z → P m.
Proof.
  intros H. assert (m = 1 ∨ m = 2 ∨ m = 3 ∨ m = 4 ∨ m = 5 ∨ m = 6 ∨ m = 7
                    ∨ m = 8 ∨ m = 9 ∨ m = 10 ∨ m = 11 ∨ m = 12)%Z as Hm by lia.
  intros. repeat (destruct Hm as [->|Hm]; [assumption|]). by subst.
Qed.

Lemma month_token_two_digits (m : Z) (rest : string) :
  (1 <= m <= 12)%Z →
  month_token (two_digits m) = Some m
  ∧ cut_dash (two_digits m +:+ "-" +:+ rest) = Some (two_digits m, rest)
  ∧ remove_char "M" (two_digits m) = two_digits m.
Proof.
  intros H. pattern m. apply (month_cases m); [done|..];
    (split; [reflexivity | split; reflexivity]).
Qed.

Lemma two_digits_first (m : Z) :
  (1 <= m <= 12)%Z →
  ∃ c rest, two_digits m = String c rest
            ∧ Ascii.eqb c "S" = false ∧ Ascii.eqb c "A" = false.
Proof.
  intros H. pattern m. apply (month_cases m); [done|..];
    (eexists _, _; split; [reflexivity | split; reflexivity]).
Qed.

Lemma zip_with_fmap_same {A B C D : Type} (f : B → C → D)
    (g : A → B) (h : A → C) (l : list A) :
  zip_with f (g <$> l) (h <$> l) = (λ x, f (g x) (h x)) <$> l.
Proof. by rewrite zip_with_fmap_l, zip_with_fmap_r, zip_with_diag. Qed.

Lemma map_result_keys {A B C D : Type} (f : B → result C) (d : A → B)
    (g : C → D) (h : A → D) (l : list A) :
  Forall (λ x, ∃ y, f (d x) = Ok y ∧ g y = h x) l →
  ∃ ys, map_result f (d <$> l) = Ok ys ∧ g <$> ys = h <$> l.
Proof.
  induction 1 as [|x l (y & Hy & Hg) _ (ys & Hys & Hgs)]; [by exists []|].
  exists (y :: ys). split; [rewrite fmap_cons; simpl; by rewrite Hy, Hys|].
  by rewrite !fmap_cons, Hg, Hgs.
Qed.

Lemma to_datetime_quarters {A D : Type}
    (other : list string → string → result (Z * Z)) (d : A → string)
    (g : Z * Z → D) (h : A → D) (l : list A) :
  Forall (λ x, ∃ y, parse_quarter (d x) = Some y ∧ g y = h x) l →
  ∃ ys, to_datetime other (d <$> l) = Ok ys ∧ g <$> ys = h <$> l.
Proof.
  intros Hl. unfold to_datetime.
  assert (Hall : forallb (λ s, bool_decide (is_Some (parse_quarter s)))
                   (d <$> l) = true).
  { induction Hl as [|x l (y & Hy & _) _ IH]; [done|]. rewrite fmap_cons.
    simpl. rewrite IH, andb_true_r. apply bool_decide_eq_true_2. by exists y. }
  rewrite Hall. eexists. split; [done|].
  clear Hall. induction Hl as [|x l (y & Hy & Hg) _ IH]; [done|].
  rewrite fmap_cons. cbn [omap list_omap]. rewrite Hy.
  by rewrite !fmap_cons, Hg, IH.
Qed.

(** ** Properties of the period normaliser *)

Section NormaliserFacts.
Context {num : Type}.
Variable num_leb : num → num → bool.
Variable py_int : string → result Z.
Variable to_datetime_other : list string → string → result (Z * Z).
Implicit Types (raw_df : @raw_frame num) (df : @work_frame num)
  (r : @raw_row num) (f : @frame num).

(** The order of the numbers compares any two of them. *)
Hypothesis num_leb_total : ∀ x y, num_leb x y = true ∨ num_leb y x = true.

Lemma py_eq_sym (a b : @label num) : py_eq num_leb a b = py_eq num_leb b a.
Proof.
  revert b. induction a as [x|[x|]|a1 IH1 a2 IH2]; intros [y|[y|]|b1 b2];
    cbn [py_eq]; try done.
  - apply String.eqb_sym.
  - apply andb_comm.
  - by rewrite IH1, IH2.
Qed.

Lemma py_lt_asym (a b : @label num) :
  py_lt num_leb a b = true → py_lt num_leb b a = false.
Proof.
  revert b. induction a as [x|[x|]|a1 IH1 a2 IH2]; intros [y|[y|]|b1 b2];
    cbn [py_lt]; try done.
  - destruct (String.leb_total x y) as [-> | ->]; [done|]. by intros [=].
  - destruct (num_leb_total x y) as [-> | ->]; [done|]. by intros [=].
  - rewrite (py_eq_sym b1 a1). destruct (py_eq num_leb a1 b1); auto.
Qed.

Lemma row_le_total (ascending : bool) :
  Total (@row_le num num_leb ascending).
Proof.
  intros [a ca] [b cb]. unfold row_le. cbn [fst].
  destruct a as [x|[x|]|a1 a2], b as [y|[y|]|b1 b2]; cbn [label_leb]; auto;
    destruct ascending; auto using String.leb_total.
  - destruct (py_lt num_leb (LPair b1 b2) (LPair a1 a2)) eqn:E; [|by left].
    right. by rewrite (py_lt_asym _ _ E).
  - destruct (py_lt num_leb (LPair a1 a2) (LPair b1 b2)) eqn:E; [|by left].
    right. by rewrite (py_lt_asym _ _ E).
Qed.

Lemma sort_index_spec (ascending : bool) f :
  Sorted (row_le num_leb ascending) (rows (sort_index num_leb ascending f))
  ∧ rows (sort_index num_leb ascending f) ≡ₚ rows f.
Proof.
  unfold sort_index. simpl. split.
  - apply (Sorted_merge_sort _ (Total0 := row_le_total ascending)).
  - apply merge_sort_Permutation.
Qed.

Lemma date_strings_set_date (column : list string) df :
  date_single (w_date df) → date_strings (set_date column df) = Ok column.
Proof.
  intros H. unfold date_strings, set_date. simpl.
  destruct (w_date df) as [|t|old]; [|by destruct (H t)|]; f_equal;
    (induction column as [|x column IH]; [done|];
     rewrite fmap_cons; cbn [omap list_omap]; by rewrite IH).
Qed.

Lemma copy_date raw_df :
  (length (List.filter (String.eqb "date") (value_columns raw_df)) ≤ 1)%nat →
  date_single (w_date (copy raw_df)).
Proof.
  unfold copy. simpl.
  destruct (List.filter _ _) as [|x [|y l]]; simpl; try done. lia.
Qed.

Lemma monthly_row_stamp r :
  monthly_row r →
  ∃ t, strptime_m_Y (remove_char "M" (r_period r) +:+ "-" +:+ r_year r) = Ok t
       ∧ strftime_Y_m t = month_key r.
Proof.
  intros [(n & Hn & Hrange) (m & Hm & Hp)]. unfold month_key. rewrite Hp.
  destruct (month_token_two_digits m (r_year r) Hm) as (Htok & Hcut & Hrm).
  change (remove_char "M" (String "M" (two_digits m)))
    with (remove_char "M" (two_digits m)).
  rewrite Hrm. exists (n, m). unfold strptime_m_Y.
  rewrite Hcut, Htok, Hn, in_bounds_valid by done.
  split; [done|]. by apply strftime_year.
Qed.

Lemma first_char_monthly raw_df :
  raw_rows raw_df ≠ [] → Forall monthly_row (raw_rows raw_df) →
  first_period_char (copy raw_df) = Ok "M"%char.
Proof.
  unfold first_period_char, copy. simpl.
  destruct (raw_rows raw_df) as [|r l]; [done|].
  intros _ [[_ (m & _ & Hp)] _]%Forall_cons. simpl. by rewrite Hp.
Qed.

Lemma monthly_copy raw_df :
  date_single (w_date (copy raw_df)) → Forall monthly_row (raw_rows raw_df) →
  ∃ df1, monthly (copy raw_df) = Ok df1
    ∧ w_period df1 = (λ r, remove_char "M" (r_period r)) <$> raw_rows raw_df
    ∧ w_date df1 = DateCol (LStr <$> (month_key <$> raw_rows raw_df))
    ∧ w_columns df1 = w_columns (copy raw_df)
    ∧ w_cells df1 = w_cells (copy raw_df).
Proof.
  intros Hd Hrows. unfold monthly.
  set (df' := set_period _ _).
  assert (Hd' : date_single (w_date df')) by done.
  rewrite date_strings_set_date by done. cbn [mbind result_bind].
  assert (Hp : w_period df'
               = (λ r, remove_char "M" (r_period r)) <$> raw_rows raw_df).
  { unfold df', set_period, copy. simpl. by rewrite <- list_fmap_compose. }
  assert (Hy : w_year df' = r_year <$> raw_rows raw_df) by done.
  rewrite Hp, Hy, zip_with_fmap_same.
  destruct (map_result_keys strptime_m_Y
              (λ r, remove_char "M" (r_period r) +:+ "-" +:+ r_year r)
              strftime_Y_m month_key (raw_rows raw_df)) as (ys & Hys & Hg).
  { eapply Forall_impl; [exact Hrows|]. apply monthly_row_stamp. }
  rewrite Hys. cbn [mbind result_bind]. rewrite Hg.
  eexists. split; [reflexivity|].
  cbn [set_date w_period w_date w_columns w_cells].
  split; [done|]. split; [|done].
  destruct (w_date df') as [|t|l] eqn:E; [done | by destruct (Hd' t) | done].
Qed.

Lemma first_char_after_monthly raw_df df1 :
  raw_rows raw_df ≠ [] → Forall monthly_row (raw_rows raw_df) →
  w_period df1 = (λ r, remove_char "M" (r_period r)) <$> raw_rows raw_df →
  ∃ c, first_period_char df1 = Ok c
       ∧ Ascii.eqb c "S" = false ∧ Ascii.eqb c "A" = false.
Proof.
  intros Hne Hrows Hp. unfold first_period_char. rewrite Hp.
  destruct (raw_rows raw_df) as [|r l]; [done|].
  apply Forall_cons in Hrows as [[_ (m & Hm & Hr)] _].
  rewrite fmap_cons, Hr.
  change (remove_char "M" (String "M" (two_digits m)))
    with (remove_char "M" (two_digits m)).
  destruct (month_token_two_digits m "" Hm) as (_ & _ & ->).
  destruct (two_digits_first m Hm) as (c & rest & -> & HS & HA).
  by exists c.
Qed.

Lemma organize_monthly raw_df :
  raw_rows raw_df ≠ [] →
  (length (List.filter (String.eqb "date") (value_columns raw_df)) ≤ 1)%nat →
  Forall monthly_row (raw_rows raw_df) →
  _organize_df num_leb py_int to_datetime_other raw_df
  = Ok (sort_index num_leb true
          {| columns := LStr <$> w_columns (copy raw_df);
             rows := zip (LStr <$> (month_key <$> raw_rows raw_df))
                       (w_cells (copy raw_df)) |}).
Proof.
  intros Hne Hdate Hrows. apply copy_date in Hdate.
  unfold _organize_df. rewrite first_char_monthly by done.
  cbn [mbind result_bind].
  change (Ascii.eqb "M" "Q") with false. cbn [mbind result_bind].
  rewrite first_char_monthly by done. cbn [mbind result_bind].
  change (Ascii.eqb "M" "M") with true.
  destruct (monthly_copy raw_df Hdate Hrows)
    as (df1 & -> & Hp & Hd & Hc & Hcells).
  cbn [mbind result_bind].
  destruct (first_char_after_monthly raw_df df1 Hne Hrows Hp)
    as (c & Hfirst & HS & HA).
  rewrite Hfirst. cbn [mbind result_bind]. rewrite HS. cbn [mbind result_bind].
  rewrite Hfirst. cbn [mbind result_bind]. rewrite HA. cbn [mbind result_bind].
  unfold set_index_date. rewrite Hd, Hc, Hcells. reflexivity.
Qed.

Lemma sorted_strings (rs : list (@label num * list (@cell num)))
    (keys : list string) :
  rs.*1 = LStr <$> keys → Sorted (row_le num_leb true) rs →
  Sorted (λ x y, String.leb x y = true) keys.
Proof.
  revert keys. induction rs as [|a rs IH]; intros keys Hk Hs.
  - symmetry in Hk. apply fmap_nil_inv in Hk as ->. constructor.
  - destruct keys as [|k keys]; [done|]. rewrite !fmap_cons in Hk.
    injection Hk as Ha Hk. apply Sorted_inv in Hs as [Hs Hd].
    constructor; [by apply IH|].
    destruct Hd as [|b rs' Hab]; destruct keys as [|k' keys]; try done.
    constructor. rewrite fmap_cons in Hk. injection Hk as Hb _.
    unfold row_le in Hab. by rewrite Ha, Hb in Hab.
Qed.

Lemma labels_strings (ls : list (@label num)) (keys0 : list string) :
  ls ≡ₚ LStr <$> keys0 →
  ∃ keys, ls = LStr <$> keys ∧ keys ≡ₚ keys0.
Proof.
  intros Hp. exists (omap label_string ls). split.
  - assert (H : Forall (λ l, ∃ s, l = LStr s) ls).
    { rewrite Hp. apply Forall_fmap, Forall_true. intros s. by exists s. }
    clear Hp. induction H as [|l ls [s ->] _ IH]; [done|].
    cbn [omap list_omap label_string]. rewrite fmap_cons. f_equal.
    apply IH.
  - rewrite Hp. clear. induction keys0 as [|k keys0 IH]; [done|].
    rewrite fmap_cons. cbn [omap list_omap label_string]. by rewrite IH.
Qed.

(** The canonical table built from a column of date keys: its rows are the
    keyed rows, in ascending order of the keys. *)
Lemma sorted_frame (cols : list (@label num)) (keys0 : list string)
    (cells : list (list (@cell num))) :
  length keys0 = length cells →
  ∃ keys,
    rows (sort_index num_leb true
            {| columns := cols; rows := zip (LStr <$> keys0) cells |})
    ≡ₚ zip (LStr <$> keys0) cells
    ∧ index (sort_index num_leb true
               {| columns := cols; rows := zip (LStr <$> keys0) cells |})
      = LStr <$> keys
    ∧ keys ≡ₚ keys0
    ∧ Sorted (λ x y, String.leb x y = true) keys.
Proof.
  intros Hlen.
  set (f := sort_index num_leb true _).
  destruct (sort_index_spec true
              {| columns := cols; rows := zip (LStr <$> keys0) cells |})
    as [Hsorted Hperm]. fold f in Hsorted, Hperm. cbn [rows] in Hperm.
  destruct (labels_strings (index f) keys0) as (keys & Hidx & Hkeys).
  { unfold index. rewrite Hperm. rewrite fst_zip; [done|].
    rewrite length_fmap. lia. }
  exists keys. split; [done|]. split; [done|]. split; [done|].
  by apply (sorted_strings (rows f)).
Qed.

(** C8: on a monthly merged table (periods [M01] to [M12], years of four
    digits in the range of timestamps, at most one value column labelled
    [date]) the normaliser succeeds; the key of a row is its year, a dash and
    the two digits left of its period once the [M] is stripped; the rows of
    the canonical table are the keyed rows sorted in ascending order of the
    keys. *)
Theorem monthly_table_keys raw_df :
  raw_rows raw_df ≠ [] →
  (length (List.filter (String.eqb "date") (value_columns raw_df)) ≤ 1)%nat →
  Forall monthly_row (raw_rows raw_df) →
  ∃ f keys,
    _organize_df num_leb py_int to_datetime_other raw_df = Ok f
    ∧ rows f ≡ₚ zip (LStr <$> (month_key <$> raw_rows raw_df))
                   (w_cells (copy raw_df))
    ∧ index f = LStr <$> keys
    ∧ keys ≡ₚ month_key <$> raw_rows raw_df
    ∧ Sorted (λ x y, String.leb x y = true) keys.
Proof.
  intros Hne Hdate Hrows.
  destruct (sorted_frame (LStr <$> w_columns (copy raw_df))
              (month_key <$> raw_rows raw_df) (w_cells (copy raw_df)))
    as (keys & H1 & H2 & H3 & H4).
  { unfold copy. cbn [w_cells]. by rewrite !length_fmap. }
  eexists _, keys. split; [by apply organize_monthly|]. done.
Qed.

Lemma quarterly_row_stamp r :
  quarterly_row r →
  ∃ t, parse_quarter (r_year r +:+ "-" +:+ remove_char "0" (r_period r))
       = Some t
       ∧ strftime_Y_m t = quarter_key r.
Proof.
  intros [(n & Hn & Hrange) (q & Hq & Hp)].
  unfold quarter_key, quarter_of. rewrite Hp.
  assert (q = 1 ∨ q = 2 ∨ q = 3 ∨ q = 4)%Z as Hcases by lia.
  unfold parse_quarter.
  destruct Hcases as [-> | [-> | [-> | ->]]];
    (eexists (n, _); split;
     [ match goal with
       | |- context [remove_char "0" ?p] =>
           let p' := eval vm_compute in (remove_char "0" p) in
           change (remove_char "0" p) with p'
       end;
       rewrite (cut_dash_year _ _ n Hn), Hn;
       cbn [is_digit digit_val nat_of_ascii]; 
       match goal with
       | |- context [in_bounds n ?m] =>
           rewrite (in_bounds_valid n m Hrange)
       end; reflexivity
     | by apply strftime_year ]).
Qed.

Lemma first_char_quarterly raw_df :
  raw_rows raw_df ≠ [] → Forall quarterly_row (raw_rows raw_df) →
  first_period_char (copy raw_df) = Ok "Q"%char.
Proof.
  unfold first_period_char, copy. simpl.
  destruct (raw_rows raw_df) as [|r l]; [done|].
  intros _ [[_ (q & _ & Hp)] _]%Forall_cons. simpl. by rewrite Hp.
Qed.

Lemma quarterly_copy raw_df :
  date_single (w_date (copy raw_df)) → Forall quarterly_row (raw_rows raw_df) →
  ∃ df1, quarterly to_datetime_other (copy raw_df) = Ok df1
    ∧ w_period df1 = (λ r, remove_char "0" (r_period r)) <$> raw_rows raw_df
    ∧ w_date df1 = DateCol (LStr <$> (quarter_key <$> raw_rows raw_df))
    ∧ w_columns df1 = w_columns (copy raw_df)
    ∧ w_cells df1 = w_cells (copy raw_df).
Proof.
  intros Hd Hrows. unfold quarterly.
  set (df' := set_period _ _).
  assert (Hd' : date_single (w_date df')) by done.
  rewrite date_strings_set_date by done. cbn [mbind result_bind].
  assert (Hp : w_period df'
               = (λ r, remove_char "0" (r_period r)) <$> raw_rows raw_df).
  { unfold df', set_period, copy. simpl. by rewrite <- list_fmap_compose. }
  assert (Hy : w_year df' = r_year <$> raw_rows raw_df) by done.
  rewrite Hp, Hy, zip_with_fmap_same.
  destruct (to_datetime_quarters to_datetime_other
              (λ r, r_year r +:+ "-" +:+ remove_char "0" (r_period r))
              strftime_Y_m quarter_key (raw_rows raw_df)) as (ys & Hys & Hg).
  { eapply Forall_impl; [exact Hrows|]. apply quarterly_row_stamp. }
  rewrite Hys. cbn [mbind result_bind]. rewrite Hg.
  eexists. split; [reflexivity|].
  cbn [set_date w_period w_date w_columns w_cells].
  split; [done|]. split; [|done].
  destruct (w_date df') as [|t|l] eqn:E; [done | by destruct (Hd' t) | done].
Qed.

Lemma first_char_after_quarterly raw_df df1 :
  raw_rows raw_df ≠ [] → Forall quarterly_row (raw_rows raw_df) →
  w_period df1 = (λ r, remove_char "0" (r_period r)) <$> raw_rows raw_df →
  first_period_char df1 = Ok "Q"%char.
Proof.
  intros Hne Hrows Hp. unfold first_period_char. rewrite Hp.
  destruct (raw_rows raw_df) as [|r l]; [done|].
  apply Forall_cons in Hrows as [[_ (q & Hq & Hr)] _].
  rewrite fmap_cons, Hr.
  change (remove_char "0" (String "Q" (two_digits q)))
    with (String "Q" (remove_char "0" (two_digits q))).
  reflexivity.
Qed.

Lemma organize_quarterly raw_df :
  raw_rows raw_df ≠ [] →
  (length (List.filter (String.eqb "date") (value_columns raw_df)) ≤ 1)%nat →
  Forall quarterly_row (raw_rows raw_df) →
  _organize_df num_leb py_int to_datetime_other raw_df
  = Ok (sort_index num_leb true
          {| columns := LStr <$> w_columns (copy raw_df);
             rows := zip (LStr <$> (quarter_key <$> raw_rows raw_df))
                       (w_cells (copy raw_df)) |}).
Proof.
  intros Hne Hdate Hrows. apply copy_date in Hdate.
  unfold _organize_df. rewrite first_char_quarterly by done.
  cbn [mbind result_bind].
  change (Ascii.eqb "Q" "Q") with true.
  destruct (quarterly_copy raw_df Hdate Hrows)
    as (df1 & -> & Hp & Hd & Hc & Hcells).
  cbn [mbind result_bind].
  pose proof (first_char_after_quarterly raw_df df1 Hne Hrows Hp) as Hfirst.
  rewrite Hfirst. cbn [mbind result_bind].
  change (Ascii.eqb "Q" "M") with false. cbn [mbind result_bind].
  rewrite Hfirst. cbn [mbind result_bind].
  change (Ascii.eqb "Q" "S") with false. cbn [mbind result_bind].
  rewrite Hfirst. cbn [mbind result_bind].
  change (Ascii.eqb "Q" "A") with false. cbn [mbind result_bind].
  unfold set_index_date. rewrite Hd, Hc, Hcells. reflexivity.
Qed.

(** C1, amended: on a quarterly merged table (periods [Q01] to [Q04], years
    of four digits in the range of timestamps, at most one value column
    labelled [date]) the normaliser succeeds and the key of a row is its
    year, a dash and the first month of its quarter (01, 04, 07 or 10), so
    it lies within the year of the row; the rows of the canonical table are
    the keyed rows sorted in ascending order of the keys. *)
Theorem quarterly_table_keys raw_df :
  raw_rows raw_df ≠ [] →
  (length (List.filter (String.eqb "date") (value_columns raw_df)) ≤ 1)%nat →
  Forall quarterly_row (raw_rows raw_df) →
  ∃ f keys,
    _organize_df num_leb py_int to_datetime_other raw_df = Ok f
    ∧ rows f ≡ₚ zip (LStr <$> (quarter_key <$> raw_rows raw_df))
                   (w_cells (copy raw_df))
    ∧ index f = LStr <$> keys
    ∧ keys ≡ₚ quarter_key <$> raw_rows raw_df
    ∧ Sorted (λ x y, String.leb x y = true) keys.
Proof.
  intros Hne Hdate Hrows.
  destruct (sorted_frame (LStr <$> w_columns (copy raw_df))
              (quarter_key <$> raw_rows raw_df) (w_cells (copy raw_df)))
    as (keys & H1 & H2 & H3 & H4).
  { unfold copy. cbn [w_cells]. by rewrite !length_fmap. }
  eexists _, keys. split; [by apply organize_quarterly|]. done.
Qed.

End NormaliserFacts.

Lemma valid_year_2020 : valid_year "2020".
Proof. exists 2020%Z. split; [reflexivity | lia]. Qed.

Lemma valid_year_2021 : valid_year "2021".
Proof. exists 2021%Z. split; [reflexivity | lia]. Qed.

Lemma Z_leb_total (x y : Z) : (x <=? y)%Z = true ∨ (y <=? x)%Z = true.
Proof. destruct (Z.leb_spec x y); [by left | right; apply Z.leb_le; lia]. Qed.

Lemma monthly_table_keys_witness :
  ∃ f keys,
    _organize_df Z.leb int_decimal refuse_date monthly_example = Ok f
    ∧ rows f ≡ₚ zip (LStr <$> (month_key <$> raw_rows monthly_example))
                   (w_cells (copy monthly_example))
    ∧ index f = LStr <$> keys
    ∧ keys ≡ₚ month_key <$> raw_rows monthly_example
    ∧ Sorted (λ x y, String.leb x y = true) keys.
Proof.
  apply (monthly_table_keys Z.leb int_decimal refuse_date Z_leb_total
           monthly_example).
  - discriminate.
  - vm_compute. lia.
  - repeat constructor; try exact valid_year_2020.
    + exists 12%Z. split; [lia | reflexivity].
    + exists 3%Z. split; [lia | reflexivity].
Defined.

(** The periods [M03] and [M12] of 2020 give the keys [2020-03] and
    [2020-12], in this order. *)
Lemma monthly_example_keys :
  _organize_df Z.leb int_decimal refuse_date monthly_example
  = Ok {| columns := [LStr "X"];
          rows := [ (LStr "2020-03", [Some 1%Z]);
                    (LStr "2020-12", [Some 2%Z]) ] |}.
Proof. vm_compute. reflexivity. Qed.

Lemma quarterly_table_keys_witness :
  ∃ f keys,
    _organize_df Z.leb int_decimal refuse_date quarterly_example = Ok f
    ∧ rows f ≡ₚ zip (LStr <$> (quarter_key <$> raw_rows quarterly_example))
                   (w_cells (copy quarterly_example))
    ∧ index f = LStr <$> keys
    ∧ keys ≡ₚ quarter_key <$> raw_rows quarterly_example
    ∧ Sorted (λ x y, String.leb x y = true) keys.
Proof.
  apply (quarterly_table_keys Z.leb int_decimal refuse_date Z_leb_total
           quarterly_example).
  - discriminate.
  - vm_compute. lia.
  - repeat constructor; try exact valid_year_2021.
    + exists 2%Z. split; [lia | reflexivity].
    + exists 1%Z. split; [lia | reflexivity].
Defined.

(** C1 as stated fails: the period [Q02] of 2021 gets the key [2021-04],
    the first month of the second quarter, not a key whose month is the
    trailing digit of the period. *)
Lemma quarter_month_is_not_the_digit :
  _organize_df Z.leb int_decimal refuse_date quarterly_example
  = Ok {| columns := [LStr "X"];
          rows := [ (LStr "2021-01", [Some 1%Z]);
                    (LStr "2021-04", [Some 2%Z]) ] |}
  ∧ quarter_digit_key <$> raw_rows quarterly_example = ["2021-02"; "2021-01"]
  ∧ ¬ ∃ f, _organize_df Z.leb int_decimal refuse_date quarterly_example = Ok f
           ∧ index f ≡ₚ LStr <$> (quarter_digit_key
                                   <$> raw_rows quarterly_example).
Proof.
  split; [vm_compute; reflexivity|]. split; [vm_compute; reflexivity|].
  intros (f & Hf & Hperm). vm_compute in Hf. injection Hf as <-.
  assert (Hin : LStr "2021-02" ∈ @index Z
                  {| columns := [LStr "X"];
                     rows := [ (LStr "2021-01", [Some 1%Z]);
                               (LStr "2021-04", [Some 2%Z]) ] |}).
  { rewrite Hperm. vm_compute. apply list_elem_of_here. }
  vm_compute in Hin.
  repeat (apply elem_of_cons in Hin as [Hin|Hin]; [discriminate Hin|]).
  by apply elem_of_nil in Hin.
Qed.

(** The constructor on a payload without observations for a resolved
    identifier next to a payload with one observation: the object it builds
    has the table and the location map of [state_example], on which
    [clean_df] raises [KeyError]. *)
Lemma resolved_identifier_without_column :
  ∃ o, __init__ parse_decimal Z.leb int_decimal refuse_date ∅ la_example ∅
         [id_alabama]
         (Some [ {| seriesID := id_alabama; data := [] |};
                 {| seriesID := "X"; data := [obs "2020" "M01" "5"] |} ])
         (Raise ValueError) = Ok o
       ∧ state_of o = state_example
       ∧ (clean_df PyNone true (state_of o)).1 = Raise KeyError.
Proof.
  eexists. split; [vm_compute; reflexivity|].
  split; vm_compute; reflexivity.
Qed.

(** ** More on the series merger *)

Lemma last_char_append (s t : string) :
  t ≠ EmptyString → last_char (s +:+ t) = last_char t.
Proof.
  intros Ht. induction s as [|c s IH]; [done|].
  rewrite append_cons. cbn [last_char]. rewrite IH.
  destruct (s +:+ t) eqn:E; [|done].
  destruct s; [by rewrite append_nil_l in E | by rewrite append_cons in E].
Qed.

Lemma suffixed_not_key (s suffix : string) :
  suffix = "_x" ∨ suffix = "_y" → s +:+ suffix ∉ ["year"; "period"].
Proof.
  intros Hs Hin.
  assert (Hl : last_char (s +:+ suffix) = Some "x"%char
               ∨ last_char (s +:+ suffix) = Some "y"%char).
  { destruct Hs as [-> | ->]; rewrite last_char_append by done; auto. }
  apply elem_of_cons in Hin as [Hin|Hin].
  - rewrite Hin in Hl. by destruct Hl.
  - apply list_elem_of_singleton in Hin. rewrite Hin in Hl. by destruct Hl.
Qed.

Section MergerMore.
Context {num : Type}.
Variable parse_numeric : string → option (option num).
Implicit Types (s : @series num) (raw : list (@series num))
  (t acc : @raw_frame num) (r : @raw_row num).

Lemma construct_loop_active raw acc :
  construct_loop parse_numeric acc raw
  = construct_loop parse_numeric acc (active raw).
Proof.
  revert acc. induction raw as [|s raw IH]; intros acc; [done|].
  unfold active. cbn [List.filter]. destruct (has_data s) eqn:Eh.
  - rewrite !(construct_loop_merge parse_numeric) by done.
    destruct (series_frame parse_numeric (data s)) as [sf|e]; [|done].
    cbn [mbind result_bind].
    destruct (merge_outer acc (seriesID s) sf) as [acc'|e]; [|done].
    cbn [mbind result_bind]. apply IH.
  - rewrite construct_loop_skip by done. apply IH.
Qed.

(** The payloads without observations have no effect on the merge: the
    result, table or exception, is that of the merge of the other payloads
    alone. *)
Theorem construct_df_skips_empty raw :
  _construct_df parse_numeric raw = _construct_df parse_numeric (active raw).
Proof. apply construct_loop_active. Qed.

Lemma join_group_cells (w : nat) (k : key) (ls : list (@raw_row num))
    (rs : list (key * @cell num)) r :
  r ∈ join_group w k ls rs →
  (∃ x, r_cells r = replicate w None ++ [x])
  ∨ (∃ l x, l ∈ ls ∧ r_cells r = r_cells l ++ [x]).
Proof.
  unfold join_group. destruct ls as [|l ls].
  - intros (x & -> & _)%list_elem_of_fmap. left. by eexists.
  - destruct rs as [|x rs].
    + intros (l' & -> & Hl')%list_elem_of_fmap. right. by eexists _, _.
    + intros (l' & (x' & ->%list_elem_of_singleton & _)%list_elem_of_bind
              & Hl')%list_elem_of_bind.
      right. by eexists _, _.
Qed.

Lemma merge_outer_well_formed acc sid (sf : list (key * @cell num)) t :
  well_formed acc → merge_outer acc sid sf = Ok t → well_formed t.
Proof.
  intros (Hrect & Hy & Hp). unfold merge_outer.
  case_bool_decide as Hsid; [done|].
  destruct (overlap_suffix (value_columns acc) sid) as [[ll rl]|e] eqn:Eo;
    [|done].
  cbn [mbind result_bind]. intros [= <-].
  assert (Hlen : length ll = length (value_columns acc)
           ∧ (∀ key, key ∈ ["year"; "period"] → key ∉ ll ++ [rl])).
  { unfold overlap_suffix in Eo. case_bool_decide.
    - destruct (existsb _ _); [done|]. injection Eo as <- <-.
      split; [by rewrite length_fmap|].
      intros key Hkey [Hin|Hin]%elem_of_app.
      + apply list_elem_of_fmap in Hin as (x & -> & Hx). case_decide.
        * by apply (suffixed_not_key x "_x"); [left|].
        * apply elem_of_cons in Hkey as [->|Hkey]; [done|].
          by apply list_elem_of_singleton in Hkey as ->.
      + apply list_elem_of_singleton in Hin as ->.
        by apply (suffixed_not_key sid "_y"); [right|].
    - injection Eo as <- <-. split; [done|].
      intros key Hkey [Hin|Hin]%elem_of_app.
      + apply elem_of_cons in Hkey as [->|Hkey]; [done|].
        by apply list_elem_of_singleton in Hkey as ->.
      + by apply list_elem_of_singleton in Hin as ->. }
  destruct Hlen as [Hlen Hkeys]. unfold well_formed. cbn [value_columns raw_rows].
  split; [|split; apply Hkeys; set_solver].
  apply Forall_forall. intros r Hr. unfold outer_rows in Hr.
  apply list_elem_of_bind in Hr as (k & Hr & _).
  rewrite length_app, Hlen. simpl.
  apply join_group_cells in Hr as [[x ->]|(l & x & Hl & ->)].
  - by rewrite length_app, length_replicate.
  - rewrite length_app. simpl. f_equal.
    apply list_elem_of_filter in Hl as [_ Hl].
    by apply (proj1 (Forall_forall _ _) Hrect).
Qed.

Lemma construct_loop_well_formed raw acc t :
  well_formed acc → construct_loop parse_numeric acc raw = Ok t →
  well_formed t.
Proof.
  revert acc. induction raw as [|s raw IH]; intros acc Hacc; simpl.
  - by intros [= <-].
  - destruct (data s) as [|o l]; [by apply IH|].
    destruct (series_frame parse_numeric (o :: l)) as [sf|e]; [|done].
    cbn [mbind result_bind].
    destruct (merge_outer acc (seriesID s) sf) as [acc'|e] eqn:Em; [|done].
    cbn [mbind result_bind]. apply IH. by eapply merge_outer_well_formed.
Qed.

(** Whenever the merge returns a table, every row of it has exactly one
    cell per value column, and no value column is labelled [year] or
    [period], whatever the identifiers and the suffixes that [merge] adds
    to them. *)
Theorem merged_table_well_formed raw t :
  _construct_df parse_numeric raw = Ok t →
  Forall (λ r, length (r_cells r) = length (value_columns t)) (raw_rows t)
  ∧ ("year" ∉ value_columns t) ∧ ("period" ∉ value_columns t).
Proof.
  apply construct_loop_well_formed. split; [constructor|].
  split; apply not_elem_of_nil.
Qed.

End MergerMore.

Lemma merged_table_well_formed_witness :
  ∃ t, _construct_df parse_decimal payload_same_id = Ok t
       ∧ Forall (λ r, length (r_cells r) = length (value_columns t))
           (raw_rows t)
       ∧ ("year" ∉ value_columns t) ∧ ("period" ∉ value_columns t).
Proof.
  eexists. split; [vm_compute; reflexivity|].
  exact (merged_table_well_formed parse_decimal payload_same_id _ eq_refl).
Defined.

(** ** More on the location resolver *)

Lemma family_tests_exclusive (x : string) :
  (String.prefix "EN" x = true →
   String.eqb x "LA" = false ∧ String.prefix "OE" x = false)
  ∧ (String.eqb x "LA" = true → String.prefix "OE" x = false).
Proof.
  split.
  - destruct x as [|a [|b x]]; cbn [String.prefix]; try done.
    + by destruct (ascii_dec "E" a).
    + destruct (ascii_dec "E" a) as [<-|]; [|done]. intros _.
      split; [done|]. by destruct (ascii_dec "O" "E").
  - intros ->%String.eqb_eq. cbn [String.prefix].
    by destruct (ascii_dec "O" "L").
Qed.

Lemma slice_family (series : string) :
  match family_of series with
  | Some EN => String.prefix "EN" (slice_0_2 series) = true
               ∧ String.eqb (slice_0_2 series) "LA" = false
               ∧ String.prefix "OE" (slice_0_2 series) = false
  | Some LA => String.prefix "EN" (slice_0_2 series) = false
               ∧ String.eqb (slice_0_2 series) "LA" = true
               ∧ String.prefix "OE" (slice_0_2 series) = false
  | Some OE => String.prefix "EN" (slice_0_2 series) = false
               ∧ String.eqb (slice_0_2 series) "LA" = false
               ∧ String.prefix "OE" (slice_0_2 series) = true
  | None => String.prefix "EN" (slice_0_2 series) = false
            ∧ String.eqb (slice_0_2 series) "LA" = false
            ∧ String.prefix "OE" (slice_0_2 series) = false
  end.
Proof.
  unfold family_of.
  destruct (family_tests_exclusive (slice_0_2 series)) as [H1 H2].
  destruct (String.prefix "EN" (slice_0_2 series)) eqn:E1.
  - by destruct (H1 eq_refl) as [-> ->].
  - destruct (String.eqb (slice_0_2 series) "LA") eqn:E2.
    + by rewrite (H2 eq_refl).
    + by destruct (String.prefix "OE" (slice_0_2 series)).
Qed.

Section ResolverMore.
Variables qcew la oes : gmap string string.

(** The three [if] statements of the loop body never apply together: one
    round is a dispatch on the family of the identifier. *)
Lemma locate_one_dispatch (m : gmap string string) (series : string) :
  locate_one qcew la oes m series
  = match family_of series with
    | None => Ok m
    | Some f =>
        match geography_code f series with
        | None => Raise AttributeError
        | Some code =>
            match owning_table qcew la oes f !! code with
            | None => Raise KeyError
            | Some name => Ok (<[series := name]> m)
            end
        end
    end.
Proof.
  pose proof (slice_family series) as H. unfold locate_one, loc_name.
  destruct (family_of series) as [[]|]; destruct H as (-> & -> & ->);
    cbn [mbind result_bind geography_code owning_table]; try done.
  - destruct (search_EN series); simpl; [|done]. by destruct (qcew !! _).
  - destruct (search_LA series); simpl; [|done]. by destruct (la !! _).
  - destruct (search_OE series); simpl; [|done]. by destruct (oes !! _).
Qed.

Lemma locate_all_resolved (ids : list string) : ∀ m0,
  Forall (λ sid, family_of sid = None
                 ∨ is_Some (resolved_name qcew la oes sid)) ids →
  ∃ m, locate_all qcew la oes m0 ids = Ok m
       ∧ ∀ sid, m !! sid
           = match (if decide (sid ∈ ids)
                    then resolved_name qcew la oes sid else None) with
             | Some name => Some name
             | None => m0 !! sid
             end.
Proof.
  induction ids as [|x ids IH]; intros m0 Hall.
  - exists m0. split; [done|]. intros sid. by rewrite decide_False by apply not_elem_of_nil.
  - apply Forall_cons in Hall as [Hx Hall]. cbn [locate_all].
    rewrite locate_one_dispatch.
    assert (Hstep : ∃ m1,
      match family_of x with
      | None => Ok m0
      | Some f =>
          match geography_code f x with
          | None => Raise AttributeError
          | Some code =>
              match owning_table qcew la oes f !! code with
              | None => Raise KeyError
              | Some name => Ok (<[x := name]> m0)
              end
          end
      end = Ok m1
      ∧ ∀ sid, m1 !! sid
          = match (if decide (sid = x)
                   then resolved_name qcew la oes sid else None) with
            | Some name => Some name
            | None => m0 !! sid
            end).
    { destruct (family_of x) as [f|] eqn:Ef.
      2:{ exists m0. split; [done|]. intros sid. case_decide as Hs; [|done].
          subst sid. unfold resolved_name. by rewrite Ef. }
      destruct Hx as [Hx|[name Hx]]; [done|].
      unfold resolved_name in Hx. rewrite Ef in Hx.
      cbn [mbind option_bind] in Hx.
      destruct (geography_code f x) as [code|] eqn:Ec; [|done].
      cbn [mbind option_bind] in Hx. rewrite Hx.
      eexists. split; [done|]. intros sid. case_decide as Hs.
      - subst sid. unfold resolved_name. rewrite Ef.
        cbn [mbind option_bind]. rewrite Ec. cbn [mbind option_bind].
        rewrite Hx. by rewrite lookup_insert_eq.
      - by rewrite lookup_insert_ne. }
    destruct Hstep as (m1 & -> & Hm1). cbn [mbind result_bind].
    destruct (IH m1 Hall) as (m & Hm & Hlook). exists m. split; [done|].
    intros sid. rewrite Hlook, Hm1.
    destruct (decide (sid ∈ ids)) as [Hin|Hin].
    + rewrite (decide_True (P := sid ∈ x :: ids))
        by (by apply list_elem_of_further).
      destruct (resolved_name qcew la oes sid); [done|]. by case_decide.
    + destruct (decide (sid = x)) as [->|Hne].
      * by rewrite (decide_True (P := x ∈ x :: ids)) by apply list_elem_of_here.
      * rewrite (decide_False (P := sid ∈ x :: ids)); [done|].
        by intros [?|?]%elem_of_cons.
Qed.

(** When every identifier either belongs to none of the three families or
    has a geography code that its table knows, the resolution succeeds and
    the location map holds exactly the listed identifiers of the three
    families, each with the name of its code in the table of its family;
    the identifiers of no family are left out without an error. *)
Theorem get_location_resolved (ids : list string) :
  Forall (λ sid, family_of sid = None
                 ∨ is_Some (resolved_name qcew la oes sid)) ids →
  ∃ m, _get_location qcew la oes ids = Ok m
       ∧ ∀ sid, m !! sid = if decide (sid ∈ ids)
                           then resolved_name qcew la oes sid else None.
Proof.
  intros Hall. destruct (locate_all_resolved ids ∅ Hall) as (m & Hm & Hlook).
  exists m. split; [done|]. intros sid. rewrite Hlook, lookup_empty.
  by destruct (if decide (sid ∈ ids) then _ else _).
Qed.

(** An identifier that starts like one of the three families but does not
    match the pattern of the family has no geography code: [re.search]
    gives [None], the call of [group] raises [AttributeError] and the whole
    resolution ends with it. *)
Theorem malformed_identifier_aborts (pre post : list string)
    (series : string) (f : family) :
  family_of series = Some f → geography_code f series = None →
  (∀ m, _get_location qcew la oes pre = Ok m →
        _get_location qcew la oes (pre ++ series :: post)
        = Raise AttributeError)
  ∧ raises (_get_location qcew la oes (pre ++ series :: post)).
Proof.
  intros Hf Hc. unfold _get_location, raises.
  rewrite locate_all_app. cbn [locate_all].
  destruct (locate_all qcew la oes ∅ pre) as [m|e]; cbn [mbind result_bind].
  - rewrite locate_one_dispatch, Hf, Hc. cbn [mbind result_bind].
    split; [done | by eexists].
  - split; [done | by eexists].
Qed.

End ResolverMore.

Lemma get_location_resolved_witness :
  ∃ m, _get_location ∅ la_example ∅ [id_alabama; "CUUR0000SA0"] = Ok m
       ∧ ∀ sid, m !! sid
           = if decide (sid ∈ [id_alabama; "CUUR0000SA0"])
             then resolved_name ∅ la_example ∅ sid else None.
Proof.
  apply (get_location_resolved ∅ la_example ∅ [id_alabama; "CUUR0000SA0"]).
  apply Forall_cons. split.
  - right. exists "Alabama". vm_compute. reflexivity.
  - apply Forall_cons. split; [left; reflexivity | apply Forall_nil_2].
Defined.

Lemma malformed_identifier_aborts_witness :
  raises (_get_location ∅ la_example ∅ ([id_alabama] ++ "ENU01" :: [])).
Proof.
  exact (proj2 (malformed_identifier_aborts ∅ la_example ∅
                  [id_alabama] [] "ENU01" EN eq_refl eq_refl)).
Defined.

Lemma take_classes_spec (cls : list (ascii → bool)) : ∀ (s m r : string),
  take_classes cls s = Some (m, r) →
  s = m +:+ r ∧ String.length m = length cls.
Proof.
  induction cls as [|p cls IH]; intros s m r; cbn [take_classes].
  - by intros [= <- <-].
  - destruct s as [|c s]; [done|]. destruct (p c); [|done].
    destruct (take_classes cls s) as [[m' r']|] eqn:E; [|done].
    cbn [mbind option_bind]. intros [= <- <-].
    destruct (IH _ _ _ E) as [-> Hlen]. split; [done|]. simpl. by rewrite Hlen.
Qed.

Lemma substring_prefix (g r : string) :
  String.substring 0 (String.length g) (g +:+ r) = g.
Proof.
  induction g as [|c g IH]; [by destruct r|].
  rewrite append_cons. simpl. by rewrite IH.
Qed.

Lemma substring_skip (p s : string) (n : nat) :
  String.substring (String.length p) n (p +:+ s) = String.substring 0 n s.
Proof. induction p as [|c p IH]; [done|]. rewrite append_cons. apply IH. Qed.

Lemma substring_leading_upper (s : string) (n : nat) :
  String.substring (leading_upper s) n s = String.substring 0 n (drop_upper s).
Proof.
  induction s as [|c s IH]; [done|]. cbn [leading_upper drop_upper].
  destruct (is_upper c); [apply IH | done].
Qed.

(** The geography code that the patterns extract is a fixed slice of the
    identifier: characters 3 to 7 for the family EN, characters 3 to 17 for
    LA, and for OE the seven characters that follow the leading capital
    letters. *)
Theorem geography_code_slice (series g : string) :
  (search_EN series = Some g →
   g = String.substring 3 5 series ∧ String.length g = 5%nat)
  ∧ (search_LA series = Some g →
     g = String.substring 3 15 series ∧ String.length g = 15%nat)
  ∧ (search_OE series = Some g →
     g = String.substring (leading_upper series) 7 series
     ∧ String.length g = 7%nat).
Proof.
  split; [|split].
  - unfold search_EN.
    destruct (take_classes (replicate 3 is_upper) series) as [[p r]|] eqn:E1;
      [|done]. cbn [mbind option_bind].
    destruct (take_classes _ r) as [[g' r']|] eqn:E2; [|done].
    cbn [mbind option_bind]. intros [= <-].
    apply take_classes_spec in E1 as [-> H1], E2 as [-> H2].
    simpl in H1, H2. split; [|done].
    rewrite <- H2. rewrite <- H1 at 1. by rewrite substring_skip, substring_prefix.
  - unfold search_LA.
    destruct (take_classes (replicate 3 is_upper) series) as [[p r]|] eqn:E1;
      [|done]. cbn [mbind option_bind].
    destruct (take_classes _ r) as [[g' r']|] eqn:E2; [|done].
    cbn [mbind option_bind]. intros [= <-].
    apply take_classes_spec in E1 as [-> H1], E2 as [-> H2].
    simpl in H1, H2. split; [|done].
    rewrite <- H2. rewrite <- H1 at 1. by rewrite substring_skip, substring_prefix.
  - unfold search_OE.
    destruct (take_classes _ (drop_upper series)) as [[g' r']|] eqn:E2; [|done].
    cbn [mbind option_bind]. intros [= <-].
    apply take_classes_spec in E2 as [E2 H2]. simpl in H2. split; [|done].
    by rewrite substring_leading_upper, E2, <- H2, substring_prefix.
Qed.

(** ** More on the period normaliser *)

Lemma map_result_raises {A B : Type} (f : A → result B) (l : list A) (x : A) :
  x ∈ l → raises (f x) →
  (∀ y e, f y = Raise e → is_ValueError e = true) →
  ∃ e, map_result f l = Raise e ∧ is_ValueError e = true.
Proof.
  intros Hx [e0 He0] Hall. induction Hx as [x l|x y l Hx IH]; simpl.
  - rewrite He0. exists e0. split; [done|]. by eapply Hall.
  - destruct (f y) as [b|e] eqn:E; simpl.
    + destruct (IH He0) as (e & -> & He). by exists e.
    + exists e. split; [done|]. by eapply Hall.
Qed.

Lemma strptime_raises (s : string) (e : exn) :
  strptime_m_Y s = Raise e → is_ValueError e = true.
Proof.
  unfold strptime_m_Y. intros H.
  destruct (cut_dash s) as [[ms ys]|]; [|by simplify_eq].
  destruct (month_token ms), (year_token ys); try by simplify_eq.
  destruct (in_bounds _ _); by simplify_eq.
Qed.

Section NormaliserMore.
Context {num : Type}.
Variable num_leb : num → num → bool.
Variable py_int : string → result Z.
Variable to_datetime_other : list string → string → result (Z * Z).
Implicit Types (raw_df : @raw_frame num) (r : @raw_row num).

Lemma copy_no_date raw_df :
  "date" ∉ value_columns raw_df → w_date (copy raw_df) = NoDate.
Proof.
  intros H. unfold copy. cbn [w_date].
  assert (Hf : List.filter (String.eqb "date") (value_columns raw_df) = []).
  { induction (value_columns raw_df) as [|x l IH]; [done|].
    apply not_elem_of_cons in H as [Hx Hl]. cbn [List.filter].
    destruct (String.eqb_spec "date" x); [done | by apply IH]. }
  by rewrite Hf.
Qed.

(** A table whose first period is the empty string, or starts with a
    character other than [Q], [M], [S] and [A], is not normalised: the first
    gives [IndexError] on [period[0]], the second reaches
    [set_index('date')] without a [date] column, which is a [KeyError]. *)
Theorem unsupported_frequency raw_df r0 (rest : list (@raw_row num)) :
  raw_rows raw_df = r0 :: rest →
  ("date" ∉ value_columns raw_df) →
  (r_period r0 = EmptyString →
   _organize_df num_leb py_int to_datetime_other raw_df = Raise IndexError)
  ∧ (∀ c p, r_period r0 = String c p →
       c ∉ ["Q"; "M"; "S"; "A"]%char →
       _organize_df num_leb py_int to_datetime_other raw_df = Raise KeyError).
Proof.
  intros Hrows Hdate. unfold _organize_df.
  assert (Hfirst : first_period_char (copy raw_df)
                   = match r_period r0 with
                     | EmptyString => Raise IndexError
                     | String c _ => Ok c
                     end).
  { unfold first_period_char, copy. cbn [w_period]. by rewrite Hrows. }
  split.
  - intros Hp. by rewrite Hfirst, Hp.
  - intros c p Hp Hc. rewrite Hp in Hfirst.
    assert (Ascii.eqb c "Q" = false ∧ Ascii.eqb c "M" = false
            ∧ Ascii.eqb c "S" = false ∧ Ascii.eqb c "A" = false)
      as (HQ & HM & HS & HA).
    { repeat split; apply Ascii.eqb_neq; intros ->; apply Hc; set_solver. }
    rewrite Hfirst. cbn [mbind result_bind]. rewrite HQ. cbn [mbind result_bind].
    rewrite Hfirst. cbn [mbind result_bind]. rewrite HM. cbn [mbind result_bind].
    rewrite Hfirst. cbn [mbind result_bind]. rewrite HS. cbn [mbind result_bind].
    rewrite Hfirst. cbn [mbind result_bind]. rewrite HA. cbn [mbind result_bind].
    unfold set_index_date. by rewrite copy_no_date.
Qed.

(** A monthly table with a row of period [M13], the annual average of a
    monthly series, is not normalised: [13] is no month for the format
    [%m-%Y] and [pd.to_datetime] raises a [ValueError]. *)
Theorem month_13_raises raw_df r0 (rest : list (@raw_row num)) r p :
  raw_rows raw_df = r0 :: rest →
  r_period r0 = String "M" p →
  r ∈ raw_rows raw_df → r_period r = "M13" →
  (length (List.filter (String.eqb "date") (value_columns raw_df)) ≤ 1)%nat →
  ∃ e, _organize_df num_leb py_int to_datetime_other raw_df = Raise e
       ∧ is_ValueError e = true.
Proof.
  intros Hrows Hp0 Hr Hp Hdate. apply copy_date in Hdate.
  unfold _organize_df.
  assert (Hfirst : first_period_char (copy raw_df) = Ok "M"%char).
  { unfold first_period_char, copy. cbn [w_period]. by rewrite Hrows, fmap_cons, Hp0. }
  rewrite Hfirst. cbn [mbind result_bind].
  change (Ascii.eqb "M" "Q") with false. cbn [mbind result_bind].
  rewrite Hfirst. cbn [mbind result_bind].
  change (Ascii.eqb "M" "M") with true.
  assert (Hm : ∃ e, monthly (copy raw_df) = Raise e ∧ is_ValueError e = true).
  { unfold monthly. set (df' := set_period _ _).
    assert (Hd' : date_single (w_date df')) by done.
    rewrite date_strings_set_date by done. cbn [mbind result_bind].
    assert (Hper : w_period df'
                   = (λ r, remove_char "M" (r_period r)) <$> raw_rows raw_df).
    { unfold df', set_period, copy. simpl. by rewrite <- list_fmap_compose. }
    assert (Hy : w_year df' = r_year <$> raw_rows raw_df) by done.
    rewrite Hper, Hy, zip_with_fmap_same.
    destruct (map_result_raises strptime_m_Y
                ((λ r, remove_char "M" (r_period r) +:+ "-" +:+ r_year r)
                 <$> raw_rows raw_df)
                (remove_char "M" (r_period r) +:+ "-" +:+ r_year r))
      as (e & He & Hv).
    - by apply (list_elem_of_fmap_2
                  (λ r, remove_char "M" (r_period r) +:+ "-" +:+ r_year r)).
    - rewrite Hp. exists ValueError. unfold strptime_m_Y.
      change (remove_char "M" "M13") with "13".
      rewrite !append_cons, append_nil_l. reflexivity.
    - apply strptime_raises.
    - exists e. by rewrite He. }
  destruct Hm as (e & -> & He). by exists e.
Qed.

End NormaliserMore.

Lemma unsupported_frequency_witness :
  _organize_df Z.leb int_decimal refuse_date
    {| value_columns := ["X"]; raw_rows := [RawRow "2020" "B01" [Some 1%Z]] |}
  = Raise KeyError.
Proof.
  refine (proj2 (unsupported_frequency Z.leb int_decimal refuse_date
                   {| value_columns := ["X"];
                      raw_rows := [RawRow "2020" "B01" [Some 1%Z]] |}
                   (RawRow "2020" "B01" [Some 1%Z]) [] eq_refl _)
                "B"%char "01" eq_refl _).
  - intros H. apply list_elem_of_singleton in H. discriminate H.
  - intros H. repeat (apply elem_of_cons in H as [H|H]; [discriminate H|]).
    by apply elem_of_nil in H.
Defined.

Lemma month_13_raises_witness :
  ∃ e, _organize_df Z.leb int_decimal refuse_date
         {| value_columns := ["X"];
            raw_rows := [ RawRow "2020" "M12" [Some 1%Z];
                          RawRow "2020" "M13" [Some 2%Z] ] |} = Raise e
       ∧ is_ValueError e = true.
Proof.
  apply (month_13_raises Z.leb int_decimal refuse_date
           {| value_columns := ["X"];
              raw_rows := [ RawRow "2020" "M12" [Some 1%Z];
                            RawRow "2020" "M13" [Some 2%Z] ] |}
           (RawRow "2020" "M12" [Some 1%Z]) [RawRow "2020" "M13" [Some 2%Z]]
           (RawRow "2020" "M13" [Some 2%Z]) "12").
  - reflexivity.
  - reflexivity.
  - apply list_elem_of_further, list_elem_of_here.
  - reflexivity.
  - vm_compute. lia.
Defined.

Lemma filter_no_date (l : list string) :
  "date" ∉ l → List.filter (λ x, negb (String.eqb "date" x)) l = l.
Proof.
  induction l as [|x l IH]; [done|]. intros [Hx Hl]%not_elem_of_cons.
  cbn [List.filter]. destruct (String.eqb_spec "date" x) as [<-|]; [done|].
  cbn [negb]. f_equal. by apply IH.
Qed.

Lemma filter_zip_no_date {A : Type} (l : list string) (cells : list A) :
  "date" ∉ l → length cells = length l →
  (List.filter (λ p : string * A, negb (String.eqb p.1 "date")) (zip l cells)).*2
  = cells.
Proof.
  revert cells. induction l as [|x l IH]; intros [|c cells] Hd Hlen; try done.
  apply not_elem_of_cons in Hd as [Hx Hl]. simpl in Hlen.
  cbn [zip zip_with List.filter fst].
  destruct (String.eqb_spec x "date") as [->|]; [done|].
  cbn [negb]. rewrite fmap_cons. cbn [snd]. f_equal. apply IH; [done|lia].
Qed.

Section AnnualFacts.
Context {num : Type}.
Variable num_leb : num → num → bool.
Variable py_int : string → result Z.
Variable to_datetime_other : list string → string → result (Z * Z).
Hypothesis num_leb_total : ∀ x y, num_leb x y = true ∨ num_leb y x = true.
Implicit Types (raw_df : @raw_frame num) (r : @raw_row num).

(** Without a value column labelled [date] the working copy holds the value
    columns and the cells of the merged table as they are. *)
Lemma copy_no_date_columns raw_df :
  ("date" ∉ value_columns raw_df) →
  Forall (λ r, length (r_cells r) = length (value_columns raw_df))
    (raw_rows raw_df) →
  w_columns (copy raw_df) = value_columns raw_df
  ∧ w_cells (copy raw_df) = r_cells <$> raw_rows raw_df.
Proof.
  intros Hdate Hrect. unfold copy. cbn [w_columns w_cells].
  split; [by apply filter_no_date|].
  apply Forall_fmap_ext_1. eapply Forall_impl; [exact Hrect|].
  intros r Hr. unfold is_date. by apply filter_zip_no_date.
Qed.

(** An annual table: the frequency is read off the first row alone, the
    year of each row is its key as it stands, no date is parsed, and the rows
    of the canonical table are the rows of the merged table in ascending
    order of the year strings. *)
Theorem annual_table_keys raw_df r0 (rest : list (@raw_row num)) p :
  raw_rows raw_df = r0 :: rest →
  r_period r0 = String "A" p →
  ("date" ∉ value_columns raw_df) →
  Forall (λ r, length (r_cells r) = length (value_columns raw_df))
    (raw_rows raw_df) →
  ∃ f keys,
    _organize_df num_leb py_int to_datetime_other raw_df = Ok f
    ∧ columns f = LStr <$> value_columns raw_df
    ∧ rows f ≡ₚ (λ r, (LStr (r_year r), r_cells r)) <$> raw_rows raw_df
    ∧ index f = LStr <$> keys
    ∧ keys ≡ₚ r_year <$> raw_rows raw_df
    ∧ Sorted (λ x y, String.leb x y = true) keys.
Proof.
  intros Hrows Hp Hdate Hrect.
  destruct (copy_no_date_columns raw_df Hdate Hrect) as [Hcols Hcells].
  destruct (sorted_frame num_leb num_leb_total (LStr <$> value_columns raw_df)
              (r_year <$> raw_rows raw_df) (r_cells <$> raw_rows raw_df))
    as (keys & H1 & H2 & H3 & H4); [by rewrite !length_fmap|].
  eexists _, keys. split; [|split; [|split; [|done]]].
  - unfold _organize_df.
    assert (Hfirst : first_period_char (copy raw_df) = Ok "A"%char).
    { unfold first_period_char, copy. cbn [w_period].
      by rewrite Hrows, fmap_cons, Hp. }
    rewrite Hfirst. cbn [mbind result_bind].
    change (Ascii.eqb "A" "Q") with false. cbn [mbind result_bind].
    rewrite Hfirst. cbn [mbind result_bind].
    change (Ascii.eqb "A" "M") with false. cbn [mbind result_bind].
    rewrite Hfirst. cbn [mbind result_bind].
    change (Ascii.eqb "A" "S") with false. cbn [mbind result_bind].
    rewrite Hfirst. cbn [mbind result_bind].
    change (Ascii.eqb "A" "A") with true. cbn [mbind result_bind].
    unfold set_index_date, annual. cbn [w_date w_columns w_cells w_year].
    rewrite (copy_no_date raw_df Hdate), Hcols, Hcells.
    cbn [mbind result_bind]. reflexivity.
  - reflexivity.
  - rewrite H1. rewrite <- list_fmap_compose.
    rewrite zip_with_fmap_l, zip_with_fmap_r, zip_with_diag. reflexivity.
Qed.

End AnnualFacts.

(** Next to a series called [date] the renamed [year] is the first of two
    columns with that label: the index is made of the tuples of both, and
    both leave the frame. *)
Lemma annual_date_column_tuple_index :
  _organize_df Z.leb int_decimal refuse_date annual_date_example
  = Ok {| columns := [LStr "X"];
          rows := [ (LPair (LStr "2021") (LNum (Some 1%Z)), [Some 10%Z]);
                    (LPair (LStr "2022") (LNum (Some 2%Z)), [Some 20%Z]) ] |}.
Proof. vm_compute. reflexivity. Qed.

Lemma annual_table_keys_witness :
  ∃ f keys,
    _organize_df Z.leb int_decimal refuse_date annual_example = Ok f
    ∧ columns f = LStr <$> value_columns annual_example
    ∧ rows f ≡ₚ (λ r, (LStr (r_year r), r_cells r)) <$> raw_rows annual_example
    ∧ index f = LStr <$> keys
    ∧ keys ≡ₚ r_year <$> raw_rows annual_example
    ∧ Sorted (λ x y, String.leb x y = true) keys.
Proof.
  apply (annual_table_keys Z.leb int_decimal refuse_date Z_leb_total
           annual_example (RawRow "2022" "A01" [Some 2%Z])
           [RawRow "2021" "A01" [Some 1%Z]] "01").
  - reflexivity.
  - reflexivity.
  - intros H. apply list_elem_of_singleton in H. discriminate H.
  - repeat (apply Forall_cons; split; [reflexivity|]). apply Forall_nil_2.
Defined.

(** ** More on the presentation formatter *)

Section FormatterMore.
Context {num : Type}.
Variable num_leb : num → num → bool.
Implicit Types (st : @state num) (f : @frame num) (d : gmap string string).

(** The dictionary that [clean_df] hands to [rename] for a dictionary of
    custom names, and the location map it leaves. *)
Lemma rename_mapping_dict d (short : bool) st :
  rename_mapping (PyDict d) short st
  = Ok (d ∪ (if short then split_head <$> self_locations st
             else self_locations st),
        if short then st
        else State (self_df st) (d ∪ self_locations st) (derived st)).
Proof.
  unfold rename_mapping. destruct (decide (d = ∅)) as [->|Hd].
  - rewrite !(left_id_L ∅ (∪)). by destruct short, st.
  - by destruct short.
Qed.

Lemma clean_df_ok custom (short : bool) st cols st1 f :
  rename_mapping custom short st = Ok (cols, st1) →
  self_df st = Some f →
  map_Forall (λ k _, has_column k f = true) cols →
  clean_df custom short st
  = (Ok (Derived (length (derived st))),
     State (self_df st) (self_locations st1)
       (derived st ++ [ {| columns := rename_label cols <$> columns f;
                           rows := rows f |} ])).
Proof.
  intros Hmap Hf Hall. unfold clean_df. rewrite Hmap.
  destruct (rename_mapping_frames _ _ _ _ _ Hmap) as [Hdf Hder].
  cbn [deref]. rewrite Hdf, Hf. unfold rename.
  destruct (decide _) as [_|Hn]; [|done].
  unfold alloc. by rewrite Hdf, Hder, Hf.
Qed.

(** The names of the columns of the frame that [clean_df] returns: a custom
    name goes before the location of the identifier, the location (cut at
    its first separator with short names) before the identifier itself; the
    rows are those of the canonical table, and no custom name at all is the
    same as an empty dictionary. *)
Theorem clean_df_names d (short : bool) st f :
  self_df st = Some f →
  map_Forall (λ k _, has_column k f = true)
    (d ∪ (if short then split_head <$> self_locations st
          else self_locations st)) →
  clean_df PyNone short st = clean_df (PyDict ∅) short st
  ∧ ∃ f',
      (clean_df (PyDict d) short st).1 = Ok (Derived (length (derived st)))
      ∧ deref (clean_df (PyDict d) short st).2 (Derived (length (derived st)))
        = Some f'
      ∧ rows f' = rows f
      ∧ length (columns f') = length (columns f)
      ∧ ∀ j s, columns f !! j = Some (LStr s) →
          (∀ v, d !! s = Some v → columns f' !! j = Some (LStr v))
          ∧ (∀ loc, d !! s = None → self_locations st !! s = Some loc →
               columns f' !! j
               = Some (LStr (if short then split_head loc else loc)))
          ∧ (d !! s = None → self_locations st !! s = None →
               columns f' !! j = Some (LStr s)).
Proof.
  intros Hf Hall. split; [done|].
  rewrite (clean_df_ok _ _ _ _ _ f (rename_mapping_dict d short st) Hf Hall).
  eexists. split; [done|]. split.
  { cbn [snd deref derived]. by rewrite lookup_app_r, Nat.sub_diag. }
  cbn [rows columns]. split; [done|]. split; [by rewrite length_fmap|].
  intros j s Hj. rewrite !list_lookup_fmap, Hj. cbn [fmap option_fmap option_map rename_label].
  split; [|split].
  - intros v Hv. by rewrite (lookup_union_Some_l _ _ _ _ Hv).
  - intros loc Hd Hloc. rewrite lookup_union_r by done.
    destruct short; [|by rewrite Hloc]. by rewrite lookup_fmap, Hloc.
  - intros Hd Hloc. rewrite lookup_union_r by done.
    destruct short; [|by rewrite Hloc]. by rewrite lookup_fmap, Hloc.
Qed.

(** The location map after a call of the formatter.  With long names the
    dictionary that [clean_df] updates is [self.locations] itself: a call
    with custom names stores them in the location map, whether it then
    succeeds or raises, and later calls see them.  With short names, without
    custom names, or when [create_graph] refuses the graph type, the
    location map is the one before the call. *)
Theorem locations_after_call (c : call) st :
  self_locations (run_call num_leb c st).2
  = match c with
    | CleanDf (PyDict d) false | CreateTable (PyDict d) false _ =>
        d ∪ self_locations st
    | CreateGraph g (PyDict d) _ false =>
        if bool_decide (g ∈ ["line"; "bar"]) then d ∪ self_locations st
        else self_locations st
    | _ => self_locations st
    end.
Proof.
  assert (Hclean : ∀ custom short,
    self_locations (clean_df custom short st).2
    = match custom, short with
      | PyDict d, false => d ∪ self_locations st
      | _, _ => self_locations st
      end).
  { intros custom short. unfold clean_df.
    destruct custom as [|d|[]].
    - cbn. destruct short; destruct (self_df st) as [f|]; try done;
        destruct (rename _ f); done.
    - rewrite rename_mapping_dict. cbn [deref].
      destruct short; cbn [self_df];
        (destruct (self_df st) as [f|]; [|done]);
        destruct (rename _ f); done.
    - by destruct short.
    - cbn. destruct short; destruct (self_df st) as [f|]; try done;
        destruct (rename _ f); done. }
  assert (Hstep : ∀ custom short (k : ref → @state num → result ref * @state num),
    (∀ r s, self_locations (k r s).2 = self_locations s) →
    self_locations
      (match clean_df custom short st with
       | (Raise e, s) => (Raise e, s)
       | (Ok r, s) => k r s
       end).2
    = self_locations (clean_df custom short st).2).
  { intros custom short k Hk.
    destruct (clean_df custom short st) as [[r|e] s]; [apply Hk|done]. }
  destruct c as [custom short|g custom t short|custom short desc];
    cbn [run_call].
  - rewrite Hclean. by destruct custom as [|d|[]], short.
  - unfold create_graph. case_bool_decide.
    + rewrite (Hstep custom short
                 (λ r s, if t
                         then match deref s r with
                              | None => (Raise AttributeError, s)
                              | Some f => let '(r, s) := alloc (transpose f) s in (Ok r, s)
                              end
                         else (Ok r, s))).
      * rewrite Hclean. by destruct custom as [|d|[]], short.
      * intros r s. destruct t; [|done]. by destruct (deref s r).
    + by destruct custom as [|d|[]], short.
  - unfold create_table.
    rewrite (Hstep custom short
               (λ r s, if desc
                       then match deref s r with
                            | None => (Raise AttributeError, s)
                            | Some f => let '(r, s) := alloc (sort_index num_leb false f) s in (Ok r, s)
                            end
                       else (Ok r, s))).
    + rewrite Hclean. by destruct custom as [|d|[]], short.
    + intros r s. destruct desc; [|done]. by destruct (deref s r).
Qed.

End FormatterMore.

Lemma clean_df_names_witness :
  ∃ f',
    (clean_df (PyDict {[ "X" := "Total" ]}) true state_named).1
    = Ok (Derived 0)
    ∧ deref (clean_df (PyDict {[ "X" := "Total" ]}) true state_named).2
        (Derived 0) = Some f'
    ∧ columns f' !! 0%nat = Some (LStr "Alabama ")
    ∧ columns f' !! 1%nat = Some (LStr "Total").
Proof.
  destruct (clean_df_names {[ "X" := "Total" ]} true state_named frame_named
              eq_refl) as [_ (f' & H1 & H2 & _ & _ & Hcols)].
  - refine (bool_decide_unpack _ _). vm_compute. exact I.
  - exists f'. split; [exact H1|]. split; [exact H2|]. split.
    + apply (proj1 (proj2 (Hcols 0%nat id_alabama eq_refl))
               "Alabama -- Statewide"); reflexivity.
    + apply (proj1 (Hcols 1%nat "X" eq_refl) "Total"). reflexivity.
Defined.

(** ** Transposed and descending frames *)

Lemma imap_lookup_cells {A B : Type} (cells : list (option A)) (cols : list B) :
  length cells = length cols →
  imap (λ j _, default None (cells !! j)) cols = cells.
Proof.
  intros Hlen. apply list_eq. intros j. rewrite list_lookup_imap.
  destruct (cols !! j) as [c|] eqn:Ec; cbn [fmap option_fmap option_map].
  - apply lookup_lt_Some in Ec. rewrite <- Hlen in Ec.
    apply lookup_lt_is_Some in Ec as [x Ex]. by rewrite Ex.
  - apply lookup_ge_None in Ec. rewrite <- Hlen in Ec.
    symmetry. by apply lookup_ge_None.
Qed.

Section TransposeFacts.
Context {num : Type}.
Variable num_leb : num → num → bool.
Implicit Types (st : @state num) (f : @frame num) (d : gmap string string).

Lemma transpose_index f : index (transpose f) = columns f.
Proof.
  unfold index, transpose. cbn [rows]. rewrite fmap_imap.
  apply list_eq. intros j. rewrite list_lookup_imap.
  by destruct (columns f !! j).
Qed.

Lemma transpose_cell f (i j : nat) r (c : @label num) :
  rows f !! i = Some r → columns f !! j = Some c →
  ∃ r', rows (transpose f) !! j = Some r'
        ∧ r'.1 = c ∧ r'.2 !! i = Some (default None (r.2 !! j)).
Proof.
  intros Hi Hj. unfold transpose. cbn [rows].
  rewrite list_lookup_imap, Hj. cbn [fmap option_fmap option_map].
  eexists. split; [done|]. cbn [fst snd]. split; [done|].
  by rewrite list_lookup_fmap, Hi.
Qed.

Lemma transpose_involutive f :
  Forall (λ r, length r.2 = length (columns f)) (rows f) →
  transpose (transpose f) = f.
Proof.
  intros Hrect. destruct f as [cols rs]. cbn [columns rows] in Hrect.
  unfold transpose at 1. rewrite transpose_index. cbn [columns]. f_equal.
  unfold transpose, index. cbn [columns rows].
  apply list_eq. intros i. rewrite list_lookup_imap, list_lookup_fmap.
  destruct (rs !! i) as [[lab cells]|] eqn:Ei; [|done].
  cbn [fmap option_fmap option_map fst]. do 2 f_equal.
  rewrite fmap_imap.
  rewrite (imap_ext _ (λ j _, default None (cells !! j))).
  - apply imap_lookup_cells.
    by apply (proj1 (Forall_lookup _ _) Hrect i (lab, cells)).
  - intros j c _. cbn [compose snd]. by rewrite list_lookup_fmap, Ei.
Qed.

(** [create_graph] with [transpose=True]: the frame handed to plotly has the
    date keys of the canonical table as columns and the renamed columns as
    index, its cell at (column [j], date [i]) is the cell of the canonical
    table at (date [i], column [j]), and transposing it again gives the
    frame that the same call returns with [transpose=False]. *)
Theorem create_graph_transposed (g : string) d (short : bool) st f :
  g ∈ ["line"; "bar"] →
  self_df st = Some f →
  map_Forall (λ k _, has_column k f = true)
    (d ∪ (if short then split_head <$> self_locations st
          else self_locations st)) →
  Forall (λ r, length r.2 = length (columns f)) (rows f) →
  ∃ plain turned p t,
    (create_graph g (PyDict d) false short st).1 = Ok p
    ∧ deref (create_graph g (PyDict d) false short st).2 p = Some plain
    ∧ (create_graph g (PyDict d) true short st).1 = Ok t
    ∧ deref (create_graph g (PyDict d) true short st).2 t = Some turned
    ∧ rows plain = rows f
    ∧ columns turned = index f
    ∧ index turned = columns plain
    ∧ (∀ i j r c, rows f !! i = Some r → columns f !! j = Some c →
         ∃ r', rows turned !! j = Some r'
               ∧ r'.2 !! i = Some (default None (r.2 !! j)))
    ∧ transpose turned = plain.
Proof.
  intros Hg Hf Hall Hrect. unfold create_graph.
  rewrite bool_decide_eq_true_2 by done.
  rewrite (clean_df_ok _ _ _ _ _ f (rename_mapping_dict d short st) Hf Hall).
  set (plain := {| columns := _; rows := rows f |}).
  assert (Hlook : (derived st ++ [plain]) !! length (derived st) = Some plain)
    by (by rewrite lookup_app_r, Nat.sub_diag).
  exists plain, (transpose plain), (Derived (length (derived st))),
    (Derived (length (derived st ++ [plain]))).
  cbn [deref derived]. rewrite !Hlook. unfold alloc. cbn [derived fst snd deref].
  split; [done|]. split; [done|].
  split; [done|]. split; [by rewrite lookup_app_r, Nat.sub_diag|].
  split; [done|]. split; [done|]. split; [apply transpose_index|].
  split.
  - intros i j r c Hi Hj.
    destruct (transpose_cell plain i j r (rename_label
                (d ∪ (if short then split_head <$> self_locations st
                      else self_locations st)) c) Hi) as (r' & Hr' & _ & Hc).
    + unfold plain. cbn [columns]. by rewrite list_lookup_fmap, Hj.
    + by exists r'.
  - apply transpose_involutive. unfold plain. cbn [columns rows].
    by rewrite length_fmap.
Qed.

End TransposeFacts.

Lemma create_graph_transposed_witness :
  ∃ plain turned p t,
    (create_graph "line" (PyDict {[ "X" := "Total" ]}) false true state_named).1
    = Ok p
    ∧ deref (create_graph "line" (PyDict {[ "X" := "Total" ]}) false true
               state_named).2 p = Some plain
    ∧ (create_graph "line" (PyDict {[ "X" := "Total" ]}) true true
         state_named).1 = Ok t
    ∧ deref (create_graph "line" (PyDict {[ "X" := "Total" ]}) true true
               state_named).2 t = Some turned
    ∧ rows plain = rows frame_named
    ∧ columns turned = index frame_named
    ∧ index turned = columns plain
    ∧ (∀ i j r c, rows frame_named !! i = Some r →
         columns frame_named !! j = Some c →
         ∃ r', rows turned !! j = Some r'
               ∧ r'.2 !! i = Some (default None (r.2 !! j)))
    ∧ transpose turned = plain.
Proof.
  apply (create_graph_transposed "line" {[ "X" := "Total" ]} true state_named
           frame_named).
  - apply list_elem_of_here.
  - reflexivity.
  - refine (bool_decide_unpack _ _). vm_compute. exact I.
  - repeat (apply Forall_cons; split; [reflexivity|]). apply Forall_nil_2.
Defined.

Section DescendingFacts.
Context {num : Type}.
Variable num_leb : num → num → bool.
Hypothesis num_leb_total : ∀ x y, num_leb x y = true ∨ num_leb y x = true.
Implicit Types (st : @state num) (f : @frame num) (d : gmap string string).

Lemma sorted_strings_descending (rs : list (@label num * list (@cell num)))
    (keys : list string) :
  rs.*1 = LStr <$> keys → Sorted (row_le num_leb false) rs →
  Sorted (λ x y, String.leb y x = true) keys.
Proof.
  revert keys. induction rs as [|a rs IH]; intros keys Hk Hs.
  - symmetry in Hk. apply fmap_nil_inv in Hk as ->. constructor.
  - destruct keys as [|k keys]; [done|]. rewrite !fmap_cons in Hk.
    injection Hk as Ha Hk. apply Sorted_inv in Hs as [Hs Hd].
    constructor; [by apply IH|].
    destruct Hd as [|b rs' Hab]; destruct keys as [|k' keys]; try done.
    constructor. rewrite fmap_cons in Hk. injection Hk as Hb _.
    unfold row_le in Hab. by rewrite Ha, Hb in Hab.
Qed.

(** [create_table] with [descending=True]: the frame of the figure has the
    renamed columns and the rows of the canonical table, in descending order
    of their date keys; without it the rows stay in the order of the
    canonical table. *)
Theorem create_table_descending d (short : bool) st f (keys0 : list string) :
  self_df st = Some f →
  map_Forall (λ k _, has_column k f = true)
    (d ∪ (if short then split_head <$> self_locations st
          else self_locations st)) →
  index f = LStr <$> keys0 →
  ∃ plain sorted p t keys,
    (create_table num_leb (PyDict d) short false st).1 = Ok p
    ∧ deref (create_table num_leb (PyDict d) short false st).2 p = Some plain
    ∧ rows plain = rows f
    ∧ (create_table num_leb (PyDict d) short true st).1 = Ok t
    ∧ deref (create_table num_leb (PyDict d) short true st).2 t = Some sorted
    ∧ columns sorted = columns plain
    ∧ rows sorted ≡ₚ rows f
    ∧ index sorted = LStr <$> keys
    ∧ keys ≡ₚ keys0
    ∧ Sorted (λ x y, String.leb y x = true) keys.
Proof.
  intros Hf Hall Hidx. unfold create_table.
  rewrite (clean_df_ok _ _ _ _ _ f (rename_mapping_dict d short st) Hf Hall).
  set (plain := {| columns := _; rows := rows f |}).
  assert (Hlook : (derived st ++ [plain]) !! length (derived st) = Some plain)
    by (by rewrite lookup_app_r, Nat.sub_diag).
  destruct (sort_index_spec num_leb num_leb_total false plain)
    as [Hsorted Hperm].
  destruct (labels_strings (index (sort_index num_leb false plain)) keys0)
    as (keys & Hkeys & Hkp).
  { unfold index. rewrite Hperm. unfold index in Hidx. by rewrite <- Hidx. }
  exists plain, (sort_index num_leb false plain),
    (Derived (length (derived st))),
    (Derived (length (derived st ++ [plain]))), keys.
  cbn [deref derived]. rewrite !Hlook. unfold alloc.
  cbn [derived fst snd deref].
  split; [done|]. split; [done|]. split; [done|].
  split; [done|]. split; [by rewrite lookup_app_r, Nat.sub_diag|].
  split; [done|]. split; [exact Hperm|]. split; [exact Hkeys|].
  split; [exact Hkp|].
  by apply (sorted_strings_descending (rows (sort_index num_leb false plain))).
Qed.

End DescendingFacts.

Lemma create_table_descending_witness :
  ∃ plain sorted p t keys,
    (create_table Z.leb (PyDict {[ "X" := "Total" ]}) true false state_named).1
    = Ok p
    ∧ deref (create_table Z.leb (PyDict {[ "X" := "Total" ]}) true false
               state_named).2 p = Some plain
    ∧ rows plain = rows frame_named
    ∧ (create_table Z.leb (PyDict {[ "X" := "Total" ]}) true true
         state_named).1 = Ok t
    ∧ deref (create_table Z.leb (PyDict {[ "X" := "Total" ]}) true true
               state_named).2 t = Some sorted
    ∧ columns sorted = columns plain
    ∧ rows sorted ≡ₚ rows frame_named
    ∧ index sorted = LStr <$> keys
    ∧ keys ≡ₚ ["2020-01"; "2020-02"]
    ∧ Sorted (λ x y, String.leb y x = true) keys.
Proof.
  apply (create_table_descending Z.leb Z_leb_total {[ "X" := "Total" ]} true
           state_named frame_named ["2020-01"; "2020-02"]).
  - reflexivity.
  - refine (bool_decide_unpack _ _). vm_compute. exact I.
  - reflexivity.
Defined.

(** ** Saved payloads *)

Section SavedFacts.
Context {num : Type}.
Variable parse_numeric : string → option (option num).
Variable num_leb : num → num → bool.
Variable py_int : string → result Z.
Variable to_datetime_other : list string → string → result (Z * Z).
Variables qcew la oes : gmap string string.
Implicit Types (json_data : list (@series num)).

Lemma from_json_args_ok json_data ids (sy ey : string) :
  from_json_args json_data = Ok (ids, sy, ey) →
  ids = seriesID <$> json_data
  ∧ (∃ s ob, last json_data = Some s ∧ last (data s) = Some ob
             ∧ sy = year ob)
  ∧ (∃ s l ob obs, json_data = s :: l ∧ data s = ob :: obs ∧ ey = year ob).
Proof.
  unfold from_json_args, last_item, first_item.
  destruct (last json_data) as [s|] eqn:Es; [|done]. cbn [mbind result_bind].
  destruct (last (data s)) as [ob|] eqn:Eo; [|done]. cbn [mbind result_bind].
  destruct json_data as [|s0 l]; [done|]. cbn [mbind result_bind].
  destruct (data s0) as [|ob0 obs0] eqn:E0; [done|]. cbn [mbind result_bind].
  intros [= <- <- <-]. split; [done|]. split.
  - by exists s, ob.
  - by exists s0, l, ob0, obs0.
Qed.

(** An object read from a saved file: its identifiers are those of the
    series of the file, in their order, its raw data is the content of the
    file, the start year is the year of the last observation of the last
    series and the end year that of the first observation of the first
    series; the outcome of a request to the service plays no part. *)
Theorem from_json_result json_data requested (sy ey : string) o :
  from_json parse_numeric num_leb py_int to_datetime_other qcew la oes
    json_data requested = Ok (sy, ey, o) →
  (∀ requested',
     from_json parse_numeric num_leb py_int to_datetime_other qcew la oes
       json_data requested' = Ok (sy, ey, o))
  ∧ series_ids o = seriesID <$> json_data
  ∧ raw_data o = json_data
  ∧ (∃ s ob, last json_data = Some s ∧ last (data s) = Some ob
             ∧ sy = year ob)
  ∧ (∃ s l ob obs, json_data = s :: l ∧ data s = ob :: obs ∧ ey = year ob).
Proof.
  unfold from_json.
  destruct (from_json_args json_data) as [[[ids sy'] ey']|e] eqn:Eargs;
    [|done].
  destruct (from_json_args_ok _ _ _ _ Eargs) as (-> & Hs & He).
  cbn [mbind result_bind].
  destruct He as (s0 & l & ob0 & obs0 & -> & Hd0 & ->).
  unfold __init__ at 1. cbn [mbind result_bind].
  intros H. split.
  { intros requested'. unfold __init__. cbn [mbind result_bind]. exact H. }
  revert H.
  destruct (_construct_df parse_numeric (s0 :: l)) as [t|e]; [|done].
  cbn [mbind result_bind].
  destruct (match raw_rows t with
            | [] => Ok None
            | _ :: _ => f ← _organize_df num_leb py_int to_datetime_other t;
                        Ok (Some f)
            end) as [odf|e]; [|done].
  cbn [mbind result_bind].
  destruct (_get_location qcew la oes (seriesID <$> s0 :: l)) as [locs|e];
    [|done].
  cbn [mbind result_bind]. intros [= <- <- <-].
  split; [done|]. split; [done|]. split; [done|].
  by exists s0, l, ob0, obs0.
Qed.

(** A saved file without series, or whose first or last series has no
    observation, cannot be read: [from_json] raises [IndexError] before it
    builds the object, although the constructor itself leaves series without
    observations out. *)
Theorem from_json_index_error json_data requested :
  json_data = []
  ∨ (∃ s, last json_data = Some s ∧ data s = [])
  ∨ (∃ s l, json_data = s :: l ∧ data s = []) →
  from_json parse_numeric num_leb py_int to_datetime_other qcew la oes
    json_data requested = Raise IndexError.
Proof.
  unfold from_json, from_json_args, last_item, first_item.
  intros [-> | [(s & Hs & Hd) | (s & l & -> & Hd)]].
  - done.
  - rewrite Hs. cbn [mbind result_bind]. by rewrite Hd.
  - destruct (last (s :: l)) as [s'|]; [|done]. cbn [mbind result_bind].
    destruct (last (data s')) as [ob|]; [|done]. cbn [mbind result_bind].
    by rewrite Hd.
Qed.

End SavedFacts.

Lemma from_json_result_witness :
  ∃ o,
    from_json parse_decimal Z.leb int_decimal refuse_date ∅ ∅ ∅
      payload_saved (Raise ValueError) = Ok ("2019", "2021", o)
    ∧ (∀ requested',
         from_json parse_decimal Z.leb int_decimal refuse_date ∅ ∅ ∅
           payload_saved requested' = Ok ("2019", "2021", o))
    ∧ series_ids o = ["X"; "Y"].
Proof.
  eexists. split; [vm_compute; reflexivity|].
  split.
  - eapply (from_json_result parse_decimal Z.leb int_decimal refuse_date ∅ ∅ ∅
              payload_saved (Raise ValueError)).
    vm_compute. reflexivity.
  - reflexivity.
Defined.

Lemma from_json_index_error_witness :
  from_json parse_decimal Z.leb int_decimal refuse_date ∅ ∅ ∅
    payload_empty (Raise ValueError) = Raise IndexError
  ∧ ∃ o, __init__ parse_decimal Z.leb int_decimal refuse_date ∅ ∅ ∅
           ["X"] (Some payload_empty) (Raise ValueError) = Ok o.
Proof.
  split.
  - apply from_json_index_error. right. right.
    by exists {| seriesID := "X"; data := [] |}, [].
  - eexists. vm_compute. reflexivity.
Defined.

Lemma before_dot_no_dot (s : string) : no_dot s = true → before_dot s = s.
Proof.
  induction s as [|c s IH]; [done|]. cbn [no_dot before_dot].
  destruct (Ascii.eqb c "."); [done|]. cbn [negb andb]. intros H.
  by rewrite IH.
Qed.

Lemma before_dot_append (stem rest : string) :
  no_dot stem = true → before_dot (stem +:+ String "." rest) = stem.
Proof.
  induction stem as [|c s IH].
  - intros _. by rewrite append_nil_l.
  - cbn [no_dot]. rewrite append_cons. cbn [before_dot].
    destruct (Ascii.eqb c "."); [done|]. cbn [negb andb]. intros H.
    by rewrite IH.
Qed.

Lemma before_dot_stem (s : string) : no_dot (before_dot s) = true.
Proof.
  induction s as [|c s IH]; [done|]. cbn [before_dot].
  destruct (Ascii.eqb c ".") eqn:E; [done|]. cbn [no_dot]. by rewrite E.
Qed.

(** The file that [write_to_json] opens: everything from the first dot of
    the name on is dropped, also the dots of a directory, and [.json] is
    added; a name without a dot is kept whole; applying the rule to its own
    result changes nothing. *)
Theorem json_file_name_first_dot (stem rest : string) :
  no_dot stem = true →
  json_file_name stem = stem +:+ ".json"
  ∧ json_file_name (stem +:+ String "." rest) = stem +:+ ".json"
  ∧ ∀ s, json_file_name (json_file_name s) = json_file_name s.
Proof.
  intros H. unfold json_file_name. split; [by rewrite before_dot_no_dot|].
  split; [by rewrite before_dot_append|].
  intros s. change ".json" with (String "." "json").
  by rewrite before_dot_append by apply before_dot_stem.
Qed.

Lemma json_file_name_first_dot_witness :
  json_file_name "data" = "data.json"
  ∧ json_file_name "./out/data.v2.json" = ".json"
  ∧ json_file_name "out.d/data" = "out.json".
Proof.
  split; [|split].
  - apply (proj1 (json_file_name_first_dot "data" "" eq_refl)).
  - apply (proj1 (proj2 (json_file_name_first_dot "" "/out/data.v2.json"
                           eq_refl))).
  - apply (proj1 (proj2 (json_file_name_first_dot "out" "d/data" eq_refl))).
Defined.

(** ** The figure of a table *)

Lemma map_result_ok {A B : Type} (f : A → result B) (h : A → B) (l : list A) :
  Forall (λ x, f x = Ok (h x)) l → map_result f l = Ok (h <$> l).
Proof.
  induction 1 as [|x l Hx _ IH]; [done|].
  cbn [map_result]. rewrite Hx. cbn [mbind result_bind]. rewrite IH. done.
Qed.

Lemma map_result_raises_same {A B : Type} (f : A → result B) (E : exn)
    (l : list A) (x : A) :
  x ∈ l → f x = Raise E → (∀ y e, f y = Raise e → e = E) →
  map_result f l = Raise E.
Proof.
  intros Hx He Hall. induction Hx as [x l|x y l Hx IH]; cbn [map_result].
  - by rewrite He.
  - destruct (f y) as [b|e] eqn:Ey; cbn [mbind result_bind].
    + by rewrite (IH He).
    + by rewrite (Hall y e Ey).
Qed.

Lemma lookup_succ {A : Type} (x : A) (l : list A) (j : nat) :
  (x :: l) !! S j = l !! j.
Proof. reflexivity. Qed.

Section Occurrences.
Context {A : Type} `{!EqDecision A}.
Implicit Types (l : list A) (x : A).

Lemma filter_eq_absent l x : x ∉ l → filter (λ c, c = x) l = [].
Proof.
  induction l as [|a l IH]; [done|]. intros [Ha Hl]%not_elem_of_cons.
  rewrite filter_cons_False by congruence. by apply IH.
Qed.

Lemma filter_eq_present l x : x ∈ l → (1 ≤ length (filter (λ c, c = x) l))%nat.
Proof.
  intros Hx. assert (H : x ∈ filter (λ c, c = x) l)
    by (by apply list_elem_of_filter).
  destruct (filter _ l); [by apply elem_of_nil in H | simpl; lia].
Qed.

(** The labels of a list are distinct exactly when each of them occurs
    once. *)
Lemma once_NoDup l :
  Forall (λ x, length (filter (λ c, c = x) l) = 1%nat) l ↔ NoDup l.
Proof.
  induction l as [|a l IH]; [split; constructor|]. split.
  - intros [Ha Hl]%Forall_cons. rewrite filter_cons_True in Ha by done.
    simpl in Ha. constructor.
    + intros Hin. apply filter_eq_present in Hin. lia.
    + apply IH. rewrite Forall_forall in Hl. apply Forall_forall.
      intros x Hx. specialize (Hl x Hx). pose proof (filter_eq_present l x Hx).
      destruct (decide (a = x)) as [->|Hne].
      * rewrite filter_cons_True in Hl by done. simpl in Hl. lia.
      * by rewrite filter_cons_False in Hl by done.
  - intros [Ha Hl]%NoDup_cons. apply Forall_cons. split.
    + rewrite filter_cons_True by done. simpl.
      by rewrite filter_eq_absent.
    + apply IH in Hl. rewrite Forall_forall in Hl. apply Forall_forall.
      intros x Hx. rewrite filter_cons_False; [by apply Hl|].
      intros ->. done.
Qed.

End Occurrences.

Section FigureFacts.
Context {num : Type} `{!EqDecision num}.
Variable num_leb : num → num → bool.
Variable valid_color : string → bool.
Implicit Types (st : @state num) (f : @frame num).

Lemma col_vals_distinct f :
  NoDup (columns f) →
  map_result (col_list f) (imap pair (columns f))
  = Ok ((λ jc : nat * @label num,
           (λ r : @label num * list (@cell num),
              OfColumn (default None (r.2 !! jc.1))) <$> rows f)
        <$> imap pair (columns f)).
Proof.
  intros Hnd. apply map_result_ok.
  apply once_NoDup in Hnd. rewrite Forall_forall in Hnd.
  apply Forall_forall. intros [j c] Hjc.
  apply list_elem_of_lookup in Hjc as [i Hi].
  rewrite list_lookup_imap in Hi.
  destruct (columns f !! i) as [c'|] eqn:Ec; [|done].
  injection Hi as <- <-. unfold col_list. cbn [fst snd].
  rewrite bool_decide_eq_true_2; [done|].
  apply Hnd. by eapply list_elem_of_lookup_2.
Qed.

Lemma stripes_ok (n : nat) :
  valid_color "white" = true → valid_color "lightgrey" = true →
  forallb valid_color (stripes n) = true.
Proof.
  intros Hw Hg. unfold stripes. induction n as [|n IH]; [done|].
  change (mjoin (replicate (S n) ["white"; "lightgrey"]))
    with ("white" :: "lightgrey" :: mjoin (replicate n ["white"; "lightgrey"])).
  cbn [forallb]. by rewrite Hw, Hg, IH.
Qed.

Lemma fill_color_ok (index_color : option string) (n : nat)
    (cols : list (@label num)) :
  valid_color "white" = true → valid_color "lightgrey" = true →
  color_ok valid_color index_color = true →
  forallb (fill_ok valid_color) (fill_of index_color n <$> cols) = true.
Proof.
  intros Hw Hg Hc. induction cols as [|c cols IH]; [done|].
  rewrite fmap_cons. cbn [forallb]. rewrite IH, andb_true_r.
  unfold fill_of. destruct index_color as [[|a s]|];
    try (by apply stripes_ok).
  case_bool_decide; [exact Hc | by apply stripes_ok].
Qed.

Lemma table_layout_duplicate (index_color : option string)
    (index_label : string) (lines align : option string) f :
  ¬ NoDup (columns f) →
  table_layout valid_color index_color index_label lines align f
  = Raise AttributeError.
Proof.
  intros Hnd. unfold table_layout.
  assert (Hex : Exists (λ x, ¬ length (filter (λ c, c = x) (columns f)) = 1%nat)
                  (columns f)).
  { apply not_Forall_Exists; [apply _|]. intros H. by apply Hnd, once_NoDup. }
  apply Exists_exists in Hex as (c & Hc & Hcount).
  apply list_elem_of_lookup in Hc as [j Hj].
  rewrite (map_result_raises_same (col_list f) AttributeError _ (j, c)).
  - done.
  - apply list_elem_of_lookup. exists j. by rewrite list_lookup_imap, Hj.
  - unfold col_list. cbn [snd]. by rewrite bool_decide_eq_false_2.
  - intros y e. unfold col_list. case_bool_decide; congruence.
Qed.

(** The figure of a table.  When the labels of the columns are distinct and
    plotly accepts the colours and the alignment it is given (the index
    colour, the colour of the lines, the alignment, and the names [black],
    [white] and [lightgrey] that the code itself passes), the header, the
    values and the fill colours have one entry for the index and one per
    column, in the order of the columns, every list of values has one entry
    per row, and each column's striping has two colours per row.  When
    plotly refuses the index colour, as it does the empty string, the colour
    of the lines or the alignment, the call raises [ValueError].  When two
    columns have the same label no figure is built either:
    [table_df[col]] is then a frame, which has no [to_list]. *)
Theorem table_layout_shape (index_color : option string)
    (index_label : string) (lines align : option string) f :
  (NoDup (columns f) →
   valid_color "black" = true → valid_color "white" = true →
   valid_color "lightgrey" = true →
   color_ok valid_color index_color = true →
   color_ok valid_color lines = true → align_ok align = true →
   ∃ fig, table_layout valid_color index_color index_label lines align f
          = Ok fig
     ∧ header_values fig = LStr index_label :: columns f
     ∧ header_fill fig = index_color
     ∧ line_color fig = lines ∧ align_of fig = align
     ∧ length (cells_values fig) = S (length (columns f))
     ∧ length (cells_fill fig) = S (length (columns f))
     ∧ Forall (λ col, length col = length (rows f)) (cells_values fig)
     ∧ cells_values fig !! 0%nat = Some (OfIndex <$> index f)
     ∧ (∀ j c, columns f !! j = Some c →
          cells_values fig !! S j
          = Some ((λ r, OfColumn (default None (r.2 !! j))) <$> rows f)
          ∧ (c ≠ LStr index_name →
             cells_fill fig !! S j
             = Some (Stripes (stripes (length (rows f)))))))
  ∧ (NoDup (columns f) →
     color_ok valid_color index_color = false
     ∨ color_ok valid_color lines = false ∨ align_ok align = false →
     table_layout valid_color index_color index_label lines align f
     = Raise ValueError)
  ∧ (¬ NoDup (columns f) →
     table_layout valid_color index_color index_label lines align f
     = Raise AttributeError).
Proof.
  split; [|split; [|apply table_layout_duplicate]].
  - intros Hnd Hb Hw Hg Hic Hl Ha. unfold table_layout.
    rewrite col_vals_distinct by done. cbn [mbind result_bind].
    rewrite Hic, Hl, Ha, Hb, fill_color_ok by done. cbn [andb].
    eexists. split; [done|].
    cbn [header_values header_fill cells_values cells_fill line_color align_of].
    split; [done|]. split; [done|]. split; [done|]. split; [done|].
    split; [cbn [length]; by rewrite length_fmap, length_imap|].
    split; [by rewrite length_fmap|].
    split.
    { apply Forall_cons. split; [unfold index; by rewrite !length_fmap|].
      apply Forall_fmap, Forall_true. intros jc. cbn. by rewrite length_fmap. }
    split; [done|].
    intros j c Hj. split.
    + by rewrite lookup_succ, list_lookup_fmap, list_lookup_imap, Hj.
    + intros Hc. rewrite fmap_cons, lookup_succ.
      rewrite list_lookup_fmap, Hj. cbn [fmap option_fmap option_map].
      f_equal. unfold fill_of, index. rewrite length_fmap.
      destruct index_color as [[|a s]|]; try done.
      by rewrite bool_decide_eq_false_2.
  - intros Hnd Hbad. unfold table_layout.
    rewrite col_vals_distinct by done. cbn [mbind result_bind].
    destruct Hbad as [-> | [-> | ->]]; [done | |].
    + by rewrite andb_false_r.
    + by rewrite andb_false_r.
Qed.

(** Two columns that the rename mapping gives the same name, as two series
    of one area have with location names, make [create_table] fail: the
    rename succeeds, and building the values of the figure raises
    [AttributeError]. *)
Theorem same_name_no_table custom (short : bool) (index_color : option string)
    (descending : bool) (index_label : string) (lines align : option string)
    st f cols st1 (i j : nat) (a b : string) :
  rename_mapping custom short st = Ok (cols, st1) →
  self_df st = Some f →
  map_Forall (λ k _, has_column k f = true) cols →
  i ≠ j →
  columns f !! i = Some (LStr a) → columns f !! j = Some (LStr b) →
  default a (cols !! a) = default b (cols !! b) →
  (∃ r, (clean_df custom short st).1 = Ok r)
  ∧ (create_table_figure num_leb valid_color custom short index_color
       descending index_label lines align st).1 = Raise AttributeError.
Proof.
  intros Hmap Hf Hall Hij Hi Hj Hsame.
  unfold create_table_figure, create_table.
  rewrite (clean_df_ok _ _ _ _ _ f Hmap Hf Hall).
  split; [by eexists|].
  set (plain := {| columns := _; rows := rows f |}).
  assert (Hlook : (derived st ++ [plain]) !! length (derived st) = Some plain)
    by (by rewrite lookup_app_r, Nat.sub_diag).
  assert (Hdup : ¬ NoDup (columns plain)).
  { intros Hnd. apply Hij.
    apply (NoDup_lookup _ i j (LStr (default a (cols !! a))) Hnd).
    - unfold plain. cbn [columns]. by rewrite list_lookup_fmap, Hi.
    - unfold plain. cbn [columns]. rewrite list_lookup_fmap, Hj. cbn.
      by rewrite Hsame. }
  destruct descending.
  - cbn [deref derived]. rewrite Hlook. unfold alloc.
    cbn [deref derived fst snd].
    rewrite lookup_app_r, Nat.sub_diag by done.
    cbn [lookup list_lookup fst].
    by rewrite (table_layout_duplicate _ _ _ _
                  (sort_index num_leb false plain)).
  - cbn [deref derived]. rewrite Hlook. cbn [fst].
    by rewrite (table_layout_duplicate _ _ _ _ plain).
Qed.

End FigureFacts.

Lemma table_layout_shape_witness :
  (∃ fig, table_layout named_color (Some "gold") "Month" None (Some "left")
            frame_named = Ok fig
     ∧ header_fill fig = Some "gold"
     ∧ length (cells_values fig) = 3%nat
     ∧ length (cells_fill fig) = 3%nat)
  ∧ table_layout named_color (Some "") "Month" None None frame_named
    = Raise ValueError.
Proof.
  assert (Hnd : NoDup (columns frame_named)).
  { apply NoDup_cons. split.
    - intros H. apply list_elem_of_singleton in H. discriminate H.
    - apply NoDup_singleton. }
  split.
  - destruct (proj1 (table_layout_shape named_color (Some "gold") "Month"
                       None (Some "left") frame_named))
      as (fig & H1 & _ & H2 & _ & _ & H3 & H4 & _); try reflexivity.
    + exact Hnd.
    + by exists fig.
  - apply (proj1 (proj2 (table_layout_shape named_color (Some "") "Month"
                           None None frame_named))).
    + exact Hnd.
    + left. reflexivity.
Defined.

Lemma same_name_no_table_witness :
  (∃ r, (clean_df PyNone true state_same_area).1 = Ok r)
  ∧ (create_table_figure Z.leb named_color PyNone true None false "" None None
       state_same_area).1
    = Raise AttributeError.
Proof.
  eapply (same_name_no_table Z.leb named_color PyNone true None false ""
            None None state_same_area
            _ _ state_same_area 0 1
            "LASST010000000000003" "LASST010000000000006").
  - reflexivity.
  - reflexivity.
  - refine (bool_decide_unpack _ _). vm_compute. exact I.
  - discriminate.
  - reflexivity.
  - reflexivity.
  - vm_compute. reflexivity.
Defined.

(** ** Semi-annual tables *)

Lemma to_datetime_fallback {A D : Type}
    (other : list string → string → result (Z * Z)) (d : A → string)
    (g : Z * Z → D) (h : A → D) (l : list A) :
  l ≠ [] →
  Forall (λ x, parse_quarter (d x) = None
               ∧ ∃ y, other (d <$> l) (d x) = Ok y ∧ g y = h x) l →
  ∃ ys, to_datetime other (d <$> l) = Ok ys ∧ g <$> ys = h <$> l.
Proof.
  intros Hne Hl. unfold to_datetime.
  assert (Hall : forallb (λ s, bool_decide (is_Some (parse_quarter s)))
                   (d <$> l) = false).
  { destruct l as [|x l]; [done|]. apply Forall_cons in Hl as [[Hx _] _].
    rewrite fmap_cons. cbn [forallb]. rewrite Hx.
    rewrite bool_decide_eq_false_2; [done|]. by intros [? [=]]. }
  rewrite Hall. apply (map_result_keys (other (d <$> l)) d g h).
  eapply Forall_impl; [exact Hl|]. by intros x [_ Hx].
Qed.

Section SemiannualFacts.
Context {num : Type}.
Variable num_leb : num → num → bool.
Variable py_int : string → result Z.
Variable to_datetime_other : list string → string → result (Z * Z).
Implicit Types (raw_df : @raw_frame num) (df : @work_frame num)
  (r : @raw_row num).

Hypothesis num_leb_total : ∀ x y, num_leb x y = true ∨ num_leb y x = true.

(** [int] reads the two digits of a half. *)
Hypothesis py_int_half : py_int "01" = Ok 1%Z ∧ py_int "02" = Ok 2%Z.

(** [pd.to_datetime] reads a year, a dash and [6] or [12] as June and
    December of that year. *)
Hypothesis reads_month : ∀ (column : list string) (y : string) (n : Z),
  year_token y = Some n → (1678 <= n <= 2261)%Z →
  to_datetime_other column (y +:+ "-6") = Ok (n, 6%Z)
  ∧ to_datetime_other column (y +:+ "-12") = Ok (n, 12%Z).

Lemma semiannual_row_cases r :
  semiannual_row r →
  ∃ n, year_token (r_year r) = Some n ∧ (1678 <= n <= 2261)%Z
       ∧ (r_period r = "S01" ∨ r_period r = "S02").
Proof.
  intros [(n & Hn & Hrange) (h & Hh & Hp)]. exists n.
  split; [done|]. split; [done|].
  assert (h = 1 ∨ h = 2)%Z as [-> | ->] by lia; rewrite Hp; auto.
Qed.

Lemma semiannual_half r :
  semiannual_row r →
  ∃ y, py_int (remove_char "S" (r_period r)) = Ok y
       ∧ py_str (y * 6) = py_str (half_of r * 6).
Proof.
  intros (n & _ & _ & [Hp | Hp])%semiannual_row_cases;
    unfold half_of; rewrite Hp.
  - exists 1%Z. split; [apply py_int_half | done].
  - exists 2%Z. split; [apply py_int_half | done].
Qed.

Lemma semiannual_row_stamp (column : list string) r :
  semiannual_row r →
  parse_quarter (r_year r +:+ "-" +:+ py_str (half_of r * 6)) = None
  ∧ ∃ t, to_datetime_other column
            (r_year r +:+ "-" +:+ py_str (half_of r * 6)) = Ok t
         ∧ strftime_Y_m t = half_key r.
Proof.
  intros (n & Hn & Hrange & [Hp | Hp])%semiannual_row_cases;
    unfold half_key, half_of; rewrite Hp;
    cbn [digit_val nat_of_ascii].
  - change (py_str (_ * 6)) with "6".
    split.
    + unfold parse_quarter. by rewrite (cut_dash_year _ _ n Hn).
    + exists (n, 6%Z). split; [apply (reads_month column _ n Hn Hrange)|].
      by apply strftime_year.
  - change (py_str (_ * 6)) with "12".
    split.
    + unfold parse_quarter. by rewrite (cut_dash_year _ _ n Hn).
    + exists (n, 12%Z). split; [apply (reads_month column _ n Hn Hrange)|].
      by apply strftime_year.
Qed.

Lemma first_char_semiannual raw_df :
  raw_rows raw_df ≠ [] → Forall semiannual_row (raw_rows raw_df) →
  first_period_char (copy raw_df) = Ok "S"%char.
Proof.
  unfold first_period_char, copy. simpl.
  destruct (raw_rows raw_df) as [|r l]; [done|].
  intros _ [[_ (h & _ & Hp)] _]%Forall_cons. simpl. by rewrite Hp.
Qed.

Lemma semiannual_copy raw_df :
  raw_rows raw_df ≠ [] →
  date_single (w_date (copy raw_df)) → Forall semiannual_row (raw_rows raw_df) →
  ∃ df1, semiannual py_int to_datetime_other (copy raw_df) = Ok df1
    ∧ w_period df1 = (λ r, py_str (half_of r * 6)) <$> raw_rows raw_df
    ∧ w_date df1 = DateCol (LStr <$> (half_key <$> raw_rows raw_df))
    ∧ w_columns df1 = w_columns (copy raw_df)
    ∧ w_cells df1 = w_cells (copy raw_df).
Proof.
  intros Hne Hd Hrows. unfold semiannual.
  assert (Hp : w_period (set_period (remove_char "S" <$> w_period (copy raw_df))
                           (copy raw_df))
               = (λ r, remove_char "S" (r_period r)) <$> raw_rows raw_df).
  { unfold set_period, copy. simpl. by rewrite <- list_fmap_compose. }
  rewrite Hp.
  destruct (map_result_keys py_int (λ r, remove_char "S" (r_period r))
              (λ h, py_str (h * 6)) (λ r, py_str (half_of r * 6))
              (raw_rows raw_df)) as (halves & Hhalves & Hstr).
  { eapply Forall_impl; [exact Hrows|]. apply semiannual_half. }
  rewrite Hhalves. cbn [mbind result_bind]. rewrite Hstr.
  set (df' := set_period ((λ r, py_str (half_of r * 6)) <$> raw_rows raw_df) _).
  assert (Hd' : date_single (w_date df')) by done.
  rewrite date_strings_set_date by done. cbn [mbind result_bind].
  assert (Hy : w_year df' = r_year <$> raw_rows raw_df) by done.
  assert (Hp' : w_period df'
                = (λ r, py_str (half_of r * 6)) <$> raw_rows raw_df) by done.
  rewrite Hy, Hp', zip_with_fmap_same.
  destruct (to_datetime_fallback to_datetime_other
              (λ r, r_year r +:+ "-" +:+ py_str (half_of r * 6))
              strftime_Y_m half_key (raw_rows raw_df) Hne)
    as (ys & Hys & Hg).
  { eapply Forall_impl; [exact Hrows|]. intros r Hr.
    apply semiannual_row_stamp, Hr. }
  rewrite Hys. cbn [mbind result_bind]. rewrite Hg.
  eexists. split; [reflexivity|].
  cbn [set_date w_period w_date w_columns w_cells].
  split; [done|]. split; [|done].
  destruct (w_date df') as [|t|l] eqn:E; [done | by destruct (Hd' t) | done].
Qed.

Lemma first_char_after_semiannual raw_df df1 :
  raw_rows raw_df ≠ [] → Forall semiannual_row (raw_rows raw_df) →
  w_period df1 = (λ r, py_str (half_of r * 6)) <$> raw_rows raw_df →
  ∃ c, first_period_char df1 = Ok c ∧ Ascii.eqb c "A" = false.
Proof.
  intros Hne Hrows Hp. unfold first_period_char. rewrite Hp.
  destruct (raw_rows raw_df) as [|r l]; [done|].
  apply Forall_cons in Hrows as [Hr _].
  apply semiannual_row_cases in Hr as (n & _ & _ & [Hr | Hr]);
    rewrite fmap_cons; unfold half_of; rewrite Hr;
    cbn [digit_val nat_of_ascii].
  - change (py_str (_ * 6)) with "6". by eexists.
  - change (py_str (_ * 6)) with "12". by eexists.
Qed.

(** A semi-annual merged table (periods [S01] and [S02], years of four
    digits in the range of timestamps, at most one value column labelled
    [date]) is normalised: the key of a row is its year, a dash and the last
    month of its half, [06] or [12]; the rows of the canonical table are the
    keyed rows in ascending order of the keys. *)
Theorem semiannual_table_keys raw_df :
  raw_rows raw_df ≠ [] →
  (length (List.filter (String.eqb "date") (value_columns raw_df)) ≤ 1)%nat →
  Forall semiannual_row (raw_rows raw_df) →
  ∃ f keys,
    _organize_df num_leb py_int to_datetime_other raw_df = Ok f
    ∧ rows f ≡ₚ zip (LStr <$> (half_key <$> raw_rows raw_df))
                   (w_cells (copy raw_df))
    ∧ index f = LStr <$> keys
    ∧ keys ≡ₚ half_key <$> raw_rows raw_df
    ∧ Sorted (λ x y, String.leb x y = true) keys.
Proof.
  intros Hne Hdate Hrows. apply copy_date in Hdate.
  destruct (sorted_frame num_leb num_leb_total
              (LStr <$> w_columns (copy raw_df))
              (half_key <$> raw_rows raw_df) (w_cells (copy raw_df)))
    as (keys & H1 & H2 & H3 & H4).
  { unfold copy. cbn [w_cells]. by rewrite !length_fmap. }
  eexists _, keys. split; [|done].
  unfold _organize_df.
  pose proof (first_char_semiannual raw_df Hne Hrows) as Hfirst.
  rewrite Hfirst. cbn [mbind result_bind].
  change (Ascii.eqb "S" "Q") with false. cbn [mbind result_bind].
  rewrite Hfirst. cbn [mbind result_bind].
  change (Ascii.eqb "S" "M") with false. cbn [mbind result_bind].
  rewrite Hfirst. cbn [mbind result_bind].
  change (Ascii.eqb "S" "S") with true.
  destruct (semiannual_copy raw_df Hne Hdate Hrows)
    as (df1 & -> & Hp & Hd & Hc & Hcells).
  cbn [mbind result_bind].
  destruct (first_char_after_semiannual raw_df df1 Hne Hrows Hp)
    as (c & Hc1 & HA).
  rewrite Hc1. cbn [mbind result_bind]. rewrite HA. cbn [mbind result_bind].
  unfold set_index_date. rewrite Hd, Hc, Hcells. reflexivity.
Qed.

End SemiannualFacts.

Lemma read_year_month_months (column : list string) (y : string) (n : Z) :
  year_token y = Some n → (1678 <= n <= 2261)%Z →
  read_year_month column (y +:+ "-6") = Ok (n, 6%Z)
  ∧ read_year_month column (y +:+ "-12") = Ok (n, 12%Z).
Proof.
  intros Hn Hrange. unfold read_year_month.
  change (y +:+ "-6") with (y +:+ "-" +:+ "6").
  change (y +:+ "-12") with (y +:+ "-" +:+ "12").
  rewrite !(cut_dash_year _ _ n Hn), Hn.
  change (month_token "6") with (Some 6%Z).
  change (month_token "12") with (Some 12%Z).
  cbv beta iota. by rewrite !in_bounds_valid.
Qed.

Lemma semiannual_table_keys_witness :
  ∃ f keys,
    _organize_df Z.leb int_decimal read_year_month semiannual_example = Ok f
    ∧ rows f ≡ₚ zip (LStr <$> (half_key <$> raw_rows semiannual_example))
                   (w_cells (copy semiannual_example))
    ∧ index f = LStr <$> keys
    ∧ keys ≡ₚ half_key <$> raw_rows semiannual_example
    ∧ Sorted (λ x y, String.leb x y = true) keys.
Proof.
  apply (semiannual_table_keys Z.leb int_decimal read_year_month Z_leb_total
           (conj eq_refl eq_refl) read_year_month_months semiannual_example).
  - discriminate.
  - vm_compute. lia.
  - repeat constructor; try exact valid_year_2020.
    + exists 2%Z. split; [lia | reflexivity].
    + exists 1%Z. split; [lia | reflexivity].
Defined.

(** The halves [S01] and [S02] of 2020 give the keys [2020-06] and
    [2020-12]. *)
Lemma semiannual_example_keys :
  _organize_df Z.leb int_decimal read_year_month semiannual_example
  = Ok {| columns := [LStr "X"];
          rows := [ (LStr "2020-06", [Some 1%Z]);
                    (LStr "2020-12", [Some 2%Z]) ] |}.
Proof. vm_compute. reflexivity. Qed.

Lemma geography_code_slice_witness :
  "ST0100000000000" = String.substring 3 15 id_alabama
  ∧ String.length "ST0100000000000" = 15%nat.
Proof.
  apply (proj1 (proj2 (geography_code_slice id_alabama "ST0100000000000"))).
  reflexivity.
Defined.

(** ** The rows of the canonical table *)

Lemma map_result_length {A B : Type} (f : A → result B) (l : list A)
    (ys : list B) :
  map_result f l = Ok ys → length ys = length l.
Proof.
  revert ys. induction l as [|x l IH]; intros ys; cbn [map_result].
  - by intros [= <-].
  - destruct (f x) as [y|e]; [|done]. cbn [mbind result_bind].
    destruct (map_result f l) as [ys'|e]; [|done]. cbn [mbind result_bind].
    intros [= <-]. cbn [length]. by rewrite (IH ys').
Qed.

Lemma to_datetime_length (other : list string → string → result (Z * Z))
    (column : list string) (stamps : list (Z * Z)) :
  to_datetime other column = Ok stamps → length stamps = length column.
Proof.
  unfold to_datetime.
  destruct (forallb _ column) eqn:E; [|apply map_result_length].
  intros [= <-]. induction column as [|x column IH]; [done|].
  cbn [forallb] in E. apply andb_prop in E as [Ex E].
  apply bool_decide_eq_true_1 in Ex as [y Hy].
  cbn [omap list_omap]. rewrite Hy. cbn [length]. by rewrite IH.
Qed.

Section CanonicalRows.
Context {num : Type}.
Variable parse_numeric : string → option (option num).
Variable num_leb : num → num → bool.
Variable py_int : string → result Z.
Variable to_datetime_other : list string → string → result (Z * Z).
Implicit Types (raw_df : @raw_frame num) (df : @work_frame num)
  (r : @raw_row num) (f : @frame num) (raw : list (@series num)).

Lemma copy_shaped raw_df : well_shaped (length (raw_rows raw_df)) (copy raw_df).
Proof.
  unfold well_shaped, copy. cbn [w_year w_period w_cells w_date].
  rewrite !length_fmap. repeat split.
  destruct (List.filter _ _) as [|x [|y l]]; by rewrite ?length_fmap.
Qed.

Lemma set_period_shaped (n : nat) (column : list string) df :
  length column = n → well_shaped n df → well_shaped n (set_period column df).
Proof. intros Hc (Hy & Hp & Hcells & Hd). by repeat split. Qed.

Lemma set_date_shaped (n : nat) (column : list string) df :
  length column = n → well_shaped n df → well_shaped n (set_date column df).
Proof.
  intros Hc (Hy & Hp & Hcells & Hd). repeat split; try done.
  unfold set_date. cbn [w_date].
  destruct (w_date df) as [|t|l]; rewrite ?length_fmap; try done.
  rewrite length_zip_with. lia.
Qed.

Lemma date_strings_set_date_inv (column dates : list string) df :
  date_strings (set_date column df) = Ok dates → dates = column.
Proof.
  unfold date_strings, set_date. cbn [w_date].
  assert (Hcol : omap (λ x : @label num, match x with
                                       | LStr s => Some s
                                       | _ => None
                                       end) (LStr <$> column) = column).
  { induction column as [|x column IH]; [done|].
    rewrite fmap_cons. cbn [omap list_omap]. by rewrite IH. }
  destruct (w_date df) as [|t|l]; [|done|]; rewrite Hcol; by intros [= <-].
Qed.

(** The last steps of the quarterly, monthly and semi-annual branches: the
    column [date] is set, read back and parsed, and set to the keys. *)
Lemma stamps_shaped (n : nat) (column : list string)
    (parse : list string → result (list (Z * Z))) df df1 :
  (∀ l ys, parse l = Ok ys → length ys = length l) →
  well_shaped n df → length column = n →
  (dates ← date_strings (set_date column df);
   stamps ← parse dates;
   Ok (set_date (strftime_Y_m <$> stamps) (set_date column df))) = Ok df1 →
  well_shaped n df1 ∧ w_cells df1 = w_cells df ∧ w_columns df1 = w_columns df.
Proof.
  intros Hparse Hs Hc.
  destruct (date_strings (set_date column df)) as [dates|e] eqn:E1; [|done].
  apply date_strings_set_date_inv in E1 as ->. cbn [mbind result_bind].
  destruct (parse column) as [stamps|e] eqn:E2; [|done].
  cbn [mbind result_bind]. intros [= <-]. split; [|done].
  apply set_date_shaped; [|by apply set_date_shaped].
  by rewrite length_fmap, (Hparse _ _ E2).
Qed.

Lemma quarterly_shaped (n : nat) df df1 :
  well_shaped n df → quarterly to_datetime_other df = Ok df1 →
  well_shaped n df1 ∧ w_cells df1 = w_cells df ∧ w_columns df1 = w_columns df.
Proof.
  intros Hs H. unfold quarterly in H.
  apply (stamps_shaped n) in H; [done | apply to_datetime_length | |].
  - apply set_period_shaped; [|done]. rewrite length_fmap. apply Hs.
  - cbn [set_period w_year w_period]. rewrite length_zip_with, length_fmap.
    destruct Hs as (-> & -> & _). lia.
Qed.

Lemma monthly_shaped (n : nat) df df1 :
  well_shaped n df → monthly df = Ok df1 →
  well_shaped n df1 ∧ w_cells df1 = w_cells df ∧ w_columns df1 = w_columns df.
Proof.
  intros Hs H. unfold monthly in H.
  apply (stamps_shaped n) in H; [done | apply map_result_length | |].
  - apply set_period_shaped; [|done]. rewrite length_fmap. apply Hs.
  - cbn [set_period w_year w_period]. rewrite length_zip_with, length_fmap.
    destruct Hs as (-> & -> & _). lia.
Qed.

Lemma semiannual_shaped (n : nat) df df1 :
  well_shaped n df → semiannual py_int to_datetime_other df = Ok df1 →
  well_shaped n df1 ∧ w_cells df1 = w_cells df ∧ w_columns df1 = w_columns df.
Proof.
  intros Hs H. unfold semiannual in H.
  destruct (map_result py_int _) as [halves|e] eqn:E; [|done].
  apply map_result_length in E. cbn [set_period w_period] in E.
  rewrite length_fmap in E. cbn [mbind result_bind] in H.
  apply (stamps_shaped n) in H; [done | apply to_datetime_length | |].
  - apply set_period_shaped; [|by apply set_period_shaped; [rewrite length_fmap; apply Hs|]].
    rewrite length_fmap, E. apply Hs.
  - cbn [set_period w_year w_period]. rewrite length_zip_with, length_fmap, E.
    destruct Hs as (-> & -> & _). lia.
Qed.

Lemma annual_shaped (n : nat) df :
  well_shaped n df → well_shaped n (annual df).
Proof.
  intros (Hy & Hp & Hcells & Hd). repeat split; try done.
  unfold annual. cbn [w_date].
  destruct (w_date df) as [|t|l]; rewrite ?length_fmap, ?length_zip_with; lia.
Qed.

Lemma set_index_rows (n : nat) df f :
  well_shaped n df → set_index_date df = Ok f →
  columns f = LStr <$> w_columns df
  ∧ ∃ dates, length dates = n ∧ rows f = zip dates (w_cells df).
Proof.
  intros (_ & _ & _ & Hd). unfold set_index_date.
  destruct (w_date df) as [|t|l]; [done| |].
  - destruct (forallb _ t); [done|]. intros [= <-]. split; [done|].
    exists (tuple <$> t). by rewrite length_fmap.
  - intros [= <-]. split; [done|]. by exists l.
Qed.

(** The normaliser keeps the rows: the canonical table has the value columns
    of the merged table without the label [date], and its rows are the rows
    of cells of the merged table, each with a key, in some order. *)
Lemma organize_rows raw_df f :
  _organize_df num_leb py_int to_datetime_other raw_df = Ok f →
  columns f = LStr <$> w_columns (copy raw_df)
  ∧ ∃ dates, length dates = length (raw_rows raw_df)
             ∧ rows f ≡ₚ zip dates (w_cells (copy raw_df)).
Proof.
  unfold _organize_df. pose proof (copy_shaped raw_df) as H0.
  set (n := length (raw_rows raw_df)) in *. set (df0 := copy raw_df) in *.
  assert (Hstep : ∀ (b : bool) (branch : work_frame → result work_frame)
                    df df1,
    (∀ a a1, well_shaped n a → branch a = Ok a1 →
       well_shaped n a1 ∧ w_cells a1 = w_cells a ∧ w_columns a1 = w_columns a) →
    well_shaped n df →
    (if b then branch df else Ok df) = Ok df1 →
    well_shaped n df1 ∧ w_cells df1 = w_cells df ∧ w_columns df1 = w_columns df).
  { intros [] branch df df1 Hb Hs; [by apply Hb | by intros [= <-]]. }
  destruct (first_period_char df0) as [c1|e]; [|done]. cbn [mbind result_bind].
  destruct (if Ascii.eqb c1 "Q" then _ else _) as [df1|e] eqn:E1; [|done].
  apply (Hstep _ (quarterly to_datetime_other)) in E1
    as (H1 & Hc1 & Hl1); [|apply quarterly_shaped | done].
  cbn [mbind result_bind].
  destruct (first_period_char df1) as [c2|e]; [|done]. cbn [mbind result_bind].
  destruct (if Ascii.eqb c2 "M" then _ else _) as [df2|e] eqn:E2; [|done].
  apply (Hstep _ monthly) in E2 as (H2 & Hc2 & Hl2);
    [|apply monthly_shaped | done].
  cbn [mbind result_bind].
  destruct (first_period_char df2) as [c3|e]; [|done]. cbn [mbind result_bind].
  destruct (if Ascii.eqb c3 "S" then _ else _) as [df3|e] eqn:E3; [|done].
  apply (Hstep _ (semiannual py_int to_datetime_other)) in E3
    as (H3 & Hc3 & Hl3); [|apply semiannual_shaped | done].
  cbn [mbind result_bind].
  destruct (first_period_char df3) as [c4|e]; [|done]. cbn [mbind result_bind].
  set (df4 := if Ascii.eqb c4 "A" then annual df3 else df3).
  assert (H4 : well_shaped n df4 ∧ w_cells df4 = w_cells df3
                 ∧ w_columns df4 = w_columns df3).
  { unfold df4. destruct (Ascii.eqb c4 "A"); [|done].
    split; [by apply annual_shaped | done]. }
  destruct H4 as (H4 & Hc4 & Hl4).
  destruct (set_index_date df4) as [f0|e] eqn:E5; [|done].
  cbn [mbind result_bind]. intros [= <-].
  destruct (set_index_rows n df4 f0 H4 E5) as (Hcols & dates & Hlen & Hrows).
  split.
  - cbn [sort_index columns]. rewrite Hcols. congruence.
  - exists dates. split; [done|]. cbn [sort_index rows].
    rewrite merge_sort_Permutation, Hrows. by rewrite Hc4, Hc3, Hc2, Hc1.
Qed.

End CanonicalRows.

Lemma filter_date_nil (l : list string) :
  "date" ∉ l → List.filter (String.eqb "date") l = [].
Proof.
  induction l as [|x l IH]; [done|]. intros [Hx Hl]%not_elem_of_cons.
  cbn [List.filter]. destruct (String.eqb_spec "date" x); [done | by apply IH].
Qed.

Section CanonicalTable.
Context {num : Type}.
Variable parse_numeric : string → option (option num).
Variable num_leb : num → num → bool.
Variable py_int : string → result Z.
Variable to_datetime_other : list string → string → result (Z * Z).
Implicit Types (t : @raw_frame num) (r : @raw_row num) (f : @frame num)
  (raw : list (@series num)).

(** The rows of the merged table of monthly payloads are monthly rows. *)
Lemma merged_rows_monthly raw t :
  (∀ k, k ∈ row_key <$> raw_rows t ↔ ∃ s, s ∈ raw ∧ k ∈ keys_of s) →
  Forall (λ s, Forall monthly_obs (data s)) raw →
  Forall monthly_row (raw_rows t).
Proof.
  intros Hkeys Hraw. apply Forall_forall. intros r Hr.
  destruct (proj1 (Hkeys (row_key r))) as (s & Hs & Hk).
  { by apply list_elem_of_fmap_2. }
  unfold keys_of in Hk. apply list_elem_of_fmap in Hk as (o & Ho & Hin).
  rewrite Forall_forall in Hraw. specialize (Hraw s Hs).
  rewrite Forall_forall in Hraw. specialize (Hraw o Hin).
  unfold row_key, obs_key in Ho. injection Ho as Hy Hp.
  unfold monthly_row. rewrite Hy, Hp. exact Hraw.
Qed.

(** C2, amended: when no payload repeats a (year, period) pair, every value
    converts and the identifiers of the payloads with observations are
    distinct and are not [year], [period] or [date], the merge returns a
    table, and every canonical table that the normaliser makes of it has one
    column per payload with observations and none for the others, and
    exactly one row per distinct (year, period) pair occurring in a payload:
    its rows are, in some order, the rows of cells of these pairs, each with
    its date key, and the cell of a series without an observation at the
    pair is NaN, the absent value, not zero.  For monthly payloads the
    normaliser does make the canonical table. *)
Theorem canonical_table_rows raw :
  Forall (λ s, Forall (numeric parse_numeric) (data s) ∧ NoDup (keys_of s)) raw →
  NoDup (seriesID <$> active raw) →
  Forall (λ s, seriesID s ∉ ["year"; "period"; "date"]) (active raw) →
  ∃ t, _construct_df parse_numeric raw = Ok t
    ∧ (∀ f, _organize_df num_leb py_int to_datetime_other t = Ok f →
         columns f = LStr <$> (seriesID <$> active raw)
         ∧ length (rows f) = length (remove_dups (raw ≫= keys_of))
         ∧ ∃ (keys : list key) (dates : list (@label num)),
             NoDup keys
             ∧ (∀ k, k ∈ keys ↔ ∃ s, s ∈ raw ∧ k ∈ keys_of s)
             ∧ length dates = length keys
             ∧ rows f ≡ₚ zip dates
                           ((λ k, (λ s, cell_at parse_numeric s k) <$> active raw)
                            <$> keys)
             ∧ (∀ k s, k ∉ keys_of s → cell_at parse_numeric s k = None))
    ∧ (active raw ≠ [] → Forall (λ s, Forall monthly_obs (data s)) raw →
       ∃ f, _organize_df num_leb py_int to_datetime_other t = Ok f).
Proof.
  intros Hraw Hnd Hids.
  destruct (merged_table_rows parse_numeric raw Hraw Hnd)
    as (t & Ht & Hcols & Hkn & Hkeys & Hlen & Hcells & _).
  { eapply Forall_impl; [exact Hids|]. intros s Hs Hin. apply Hs.
    apply elem_of_cons in Hin as [-> | Hin]; [apply list_elem_of_here|].
    apply list_elem_of_further. apply elem_of_cons in Hin as [-> | Hin];
      [apply list_elem_of_here | by apply elem_of_nil in Hin]. }
  assert (Hdate : "date" ∉ value_columns t).
  { rewrite Hcols. intros (s & Hs & Hin)%list_elem_of_fmap.
    rewrite Forall_forall in Hids. apply (Hids s Hin). rewrite <- Hs.
    do 2 apply list_elem_of_further. apply list_elem_of_here. }
  assert (Hrect : Forall (λ r, length (r_cells r) = length (value_columns t))
                    (raw_rows t)).
  { apply Forall_forall. intros r Hr.
    by rewrite (Hcells r Hr), Hcols, !length_fmap. }
  destruct (copy_no_date_columns t Hdate Hrect) as [Hwc Hwcells].
  exists t. split; [exact Ht|]. split.
  - intros f Hf.
    destruct (organize_rows num_leb py_int to_datetime_other t f Hf)
      as (Hfc & dates & Hdl & Hperm).
    rewrite Hwc, Hcols in Hfc. rewrite Hwcells in Hperm.
    assert (Hrows : r_cells <$> raw_rows t
                    = (λ k, (λ s, cell_at parse_numeric s k) <$> active raw)
                      <$> (row_key <$> raw_rows t)).
    { rewrite <- list_fmap_compose. apply Forall_fmap_ext_1.
      apply Forall_forall. intros r Hr. by apply Hcells. }
    split; [exact Hfc|]. split.
    + rewrite Hperm, length_zip_with, length_fmap, Hdl, <- Hlen. lia.
    + exists (row_key <$> raw_rows t), dates.
      split; [exact Hkn|]. split; [exact Hkeys|].
      split; [by rewrite length_fmap|]. split; [by rewrite <- Hrows|].
      intros k s. apply cell_at_absent.
  - intros Hne Hmonthly.
    eexists. apply organize_monthly.
    + destruct (active raw) as [|s l] eqn:Ea; [done|].
      assert (Hs : s ∈ active raw) by (rewrite Ea; apply list_elem_of_here).
      unfold active in Hs. apply list_elem_of_In, List.filter_In in Hs as [Hs Hd].
      apply list_elem_of_In in Hs. unfold has_data in Hd.
      destruct (data s) as [|o os] eqn:Eo; [done|].
      assert (Hk : obs_key o ∈ row_key <$> raw_rows t).
      { apply Hkeys. exists s. split; [done|]. unfold keys_of. rewrite Eo.
        apply list_elem_of_here. }
      intros Hnil. rewrite Hnil in Hk. by apply elem_of_nil in Hk.
    + rewrite filter_date_nil by done. cbn [length]. lia.
    + by apply (merged_rows_monthly raw).
Qed.

End CanonicalTable.

Lemma canonical_table_rows_witness :
  ∃ t f,
    _construct_df parse_decimal payload_gap = Ok t
    ∧ _organize_df Z.leb int_decimal refuse_date t = Ok f
    ∧ columns f = [LStr "X"; LStr "Y"]
    ∧ length (rows f) = 2%nat.
Proof.
  destruct (canonical_table_rows parse_decimal Z.leb int_decimal refuse_date
              payload_gap) as (t & Ht & Hall & Hsome).
  - repeat constructor; try (by eexists);
      try (by vm_compute; intros H; inversion H).
  - vm_compute. repeat constructor; intros H; inversion H; subst;
      try discriminate; match goal with H : _ ∈ _ |- _ => inversion H end.
  - vm_compute. repeat constructor; intros H; inversion H; subst;
      repeat match goal with H : _ ∈ _ |- _ => inversion H; clear H; subst end.
  - destruct Hsome as [f Hf].
    + discriminate.
    + repeat constructor; try exact valid_year_2020.
      * exists 1%Z. split; [lia | reflexivity].
      * exists 2%Z. split; [lia | reflexivity].
    + destruct (Hall f Hf) as (Hc & Hl & _).
      exists t, f. split; [exact Ht|]. split; [exact Hf|].
      split; [exact Hc | exact Hl].
Defined.

(** C2 as stated fails: a payload with two observations for the same
    (year, period) gives the canonical table two rows, with the same date
    key, for that one pair. *)
Lemma repeated_period_two_canonical_rows :
  ∃ o f,
    __init__ parse_decimal Z.leb int_decimal refuse_date ∅ ∅ ∅
      ["X"] (Some payload_same_period) (Raise ValueError) = Ok o
    ∧ df o = Some f
    ∧ index f = [LStr "2020-01"; LStr "2020-01"]
    ∧ length (rows f) = 2%nat
    ∧ remove_dups (payload_same_period ≫= keys_of) = [("2020", "M01")].
Proof.
  eexists _, _. split; [vm_compute; reflexivity|].
  split; [reflexivity|]. split; [reflexivity|]. split; reflexivity.
Qed.
